(** * Ingestion and transform pipeline of indigitall-bi-plataform

    A shallow embedding of

    - [scripts/transform_bridge.py]: the five transforms from the raw
      landing tables into the [public.*] tables, the sync-state upsert and
      the [main] loop with one transaction per entity;
    - [scripts/extractors/{chat,contacts,campaigns}_extractor.py]: the
      pagination loops and, with the single calls around them, the whole of
      [_extract_for_app];
    - [scripts/extractors/{push,sms,email,inapp}_extractor.py]: the
      endpoint lists and the loop over them.

    SQL tables are lists of rows; an [INSERT ... ON CONFLICT (key) DO UPDATE]
    is the function [upsert].  What PostgreSQL and the Python float
    arithmetic supply (casts, [jsonb] output, [/], [round]) is gathered in
    the class [Backend]. *)

From Stdlib Require Import ZArith QArith Qround Qabs Qpower String Ascii Lia Lqa.
From stdpp Require Import base list strings.

Set Warnings "-register-all".

Close Scope Q_scope.
Local Open Scope string_scope.
Local Open Scope list_scope.
Local Open Scope Z_scope.

(** ** Errors *)

(** A Python exception or a PostgreSQL error, carried by its message
    ([str(exc)]). *)
Inductive result (A : Type) : Type :=
| Ok (a : A)
| Err (msg : string).
Arguments Ok {A} a.
Arguments Err {A} msg.

Definition rbind {A B} (r : result A) (k : A → result B) : result B :=
  match r with
  | Ok a => k a
  | Err e => Err e
  end.

Notation "x ←r e ; k" := (rbind e (fun x => k))
  (at level 100, e at next level, k at level 200, right associativity).

Fixpoint rmapM {A B} (f : A → result B) (l : list A) : result (list B) :=
  match l with
  | [] => Ok []
  | a :: l' => b ←r f a; bs ←r rmapM f l'; Ok (b :: bs)
  end.

(** A cast applied to a nullable text: SQL casts are strict, [NULL] stays
    [NULL]. *)
Definition cast_null {A} (cast : string → result A) (v : option string)
  : result (option A) :=
  match v with
  | None => Ok None
  | Some s => a ←r cast s; Ok (Some a)
  end.

Definition coalesce {A} (v : option A) (d : A) : A := default d v.

(** ** JSON documents ([jsonb]) *)

Inductive json : Type :=
| JNull
| JBool (b : bool)
| JNum (lit : string)          (* the number as [jsonb] prints it *)
| JStr (s : string)
| JArr (items : list json)
| JObj (fields : list (string * json)).

Fixpoint assoc {A} (k : string) (l : list (string * A)) : option A :=
  match l with
  | [] => None
  | (k', v) :: l' => if decide (k' = k) then Some v else assoc k l'
  end.

(** [j -> 'k']: SQL [NULL] unless [j] is an object that has the key. *)
Definition json_get (j : json) (k : string) : option json :=
  match j with
  | JObj fields => assoc k fields
  | _ => None
  end.

Definition jsonb_typeof (j : json) : string :=
  match j with
  | JNull => "null"
  | JBool _ => "boolean"
  | JNum _ => "number"
  | JStr _ => "string"
  | JArr _ => "array"
  | JObj _ => "object"
  end.

(** [jsonb_array_elements]; every call in the queries is guarded by
    [jsonb_typeof(..) = 'array']. *)
Definition jsonb_array_elements (j : json) : list json :=
  match j with
  | JArr items => items
  | _ => []
  end.

(** [jsonb_each]: no row on SQL [NULL], an error on a document that is not
    an object. *)
Definition jsonb_each (j : option json) : result (list (string * json)) :=
  match j with
  | None => Ok []
  | Some (JObj fields) => Ok fields
  | Some _ => Err "cannot call jsonb_each on a non-object"
  end.

Definition timestamp := Z.
(** A calendar day; only its order matters here. *)
Definition date := Z.

(** ** Characters

    A [string] holds the UTF-8 encoding of a Python [str] or of a PostgreSQL
    text.  Python slices and [VARCHAR(n)] count characters (code points): a
    character is a byte together with the continuation bytes ([10xxxxxx])
    that follow it. *)

Definition is_continuation (c : ascii) : bool :=
  let n := nat_of_ascii c in (128 <=? n)%nat && (n <? 192)%nat.

(** [inside] tells that a byte came before, so that a continuation byte
    belongs to the character it started. *)
Fixpoint points_from (inside : bool) (s : string) : nat :=
  match s with
  | EmptyString => 0
  | String c rest =>
      if inside && is_continuation c then points_from true rest
      else S (points_from true rest)
  end.

(** [len(s)] *)
Definition code_points (s : string) : nat := points_from false s.

Fixpoint take_from (inside : bool) (n : nat) (s : string) : string :=
  match s with
  | EmptyString => EmptyString
  | String c rest =>
      if inside && is_continuation c then String c (take_from true n rest)
      else match n with
           | O => EmptyString
           | S n' => String c (take_from true n' rest)
           end
  end.

(** [s[:n]] *)
Definition take_points (n : nat) (s : string) : string := take_from false n s.

Fixpoint drop_from (inside : bool) (n : nat) (s : string) : string :=
  match s with
  | EmptyString => EmptyString
  | String c rest =>
      if inside && is_continuation c then drop_from true n rest
      else match n with
           | O => s
           | S n' => drop_from true n' rest
           end
  end.

(** [s[n:]] *)
Definition drop_points (n : nat) (s : string) : string := drop_from false n s.

Fixpoint all_spaces (s : string) : bool :=
  match s with
  | EmptyString => true
  | String c rest => bool_decide (c = " "%char) && all_spaces rest
  end.

Fixpoint show_digits (fuel : nat) (n : N) (acc : string) : string :=
  match fuel with
  | O => acc
  | S fuel' =>
      let acc' := String (ascii_of_N (48 + n mod 10)) acc in
      if (n / 10 =? 0)%N then acc' else show_digits fuel' (n / 10)%N acc'
  end.

(** The decimal numeral of a number below [10 ^ 20]. *)
Definition show_nat (n : nat) : string := show_digits 20 (N.of_nat n) EmptyString.

(** Assignment of a text to a [VARCHAR(n)] column: PostgreSQL refuses a
    value of more than [n] characters, unless the excess is spaces only,
    which it drops. *)
Definition varchar (n : nat) (s : string) : result string :=
  if (code_points s <=? n)%nat then Ok s
  else if all_spaces (drop_points n s) then Ok (take_points n s)
  else Err ("value too long for type character varying(" +:+ show_nat n +:+ ")").

(** The same for a column of a conflict target.  A key with excess spaces
    is kept whole here, where PostgreSQL stores it cut to [n] characters. *)
Definition varchar_key (n : nat) (s : string) : result string :=
  match varchar n s with
  | Ok _ => Ok s
  | Err e => Err e
  end.

(** ** Binary floating point

    Python's [float] is IEEE 754 binary64.  A float is given here by the
    rational it stands for; [binary64 q] is the float nearest to [q], a tie
    going to the even significand.  Overflow and subnormal numbers do not
    occur on the quotients of 32-bit integers the pipeline computes. *)

(** The integer nearest to [q], a tie going to the even one. *)
Definition Qhalf_even (q : Q) : Z :=
  let f := Qfloor q in
  match Qcompare (Qmult (Qminus q (inject_Z f)) (inject_Z 2)) (inject_Z 1) with
  | Lt => f
  | Gt => f + 1
  | Eq => if Z.even f then f else f + 1
  end.

Definition pow2 (e : Z) : Q := Qpower (inject_Z 2) e.

(** The exponent [e] of the last place: [2^52 <= |q| / 2^e < 2^53]. *)
Definition ulp_exponent (q : Q) : Z :=
  let e0 := Z.log2 (Z.abs (Qnum q)) - Z.log2 (Zpos (Qden q)) - 52 in
  if Qle_bool (pow2 52) (Qdiv (Qabs q) (pow2 e0)) then e0 else e0 - 1.

Definition binary64 (q : Q) : Q :=
  match Qnum q with
  | 0 => inject_Z 0
  | _ =>
      let e := ulp_exponent q in
      let m := Qhalf_even (Qdiv (Qabs q) (pow2 e)) in
      Qred (Qmult (inject_Z (Z.sgn (Qnum q) * m)) (pow2 e))
  end.


(** [round(x, ndigits)] on a float: the float nearest to the decimal of
    [ndigits] places nearest to the exact value of [x], a tie going to the
    even digit. *)
Definition py_round (x : Q) (ndigits : Z) : Q :=
  let scale := inject_Z (10 ^ ndigits) in
  binary64 (Qdiv (inject_Z (Qhalf_even (Qmult x scale))) scale).

(** ** What the database engine and the Python runtime supply *)

Class Backend := {
(** text form of a [jsonb] value ([::text]) *)
jsonb_out : json → string;
(** [::int], [::smallint], [::date], [::timestamptz::date] on text *)
cast_int : string → result Z;
cast_smallint : string → result Z;
cast_date : string → result date;
cast_tsdate : string → result date;
(** the values of the ratio columns, and the rational each stands for *)
num : Type;
num_val : num → Q;
(** an integer bound to a ratio column *)
num_of_Z : Z → num;
(** Python [a / b] on two ints, [b] not zero *)
truediv : Z → Z → num;
(** Python [x * k] for a float [x] and an int [k] *)
fmul : num → Z → num;
(** Python [round(x, ndigits)] *)
round_nd : num → Z → num;
(** [round((text)::numeric * 100, 2)] in SQL, then Python [float(..)] *)
heat_ctr : string → result num;
(** Python's arithmetic is binary64: [a / b] on ints is the float nearest
    to the quotient, [x * k] the float nearest to the product. *)
num_of_Z_val : ∀ z, num_val (num_of_Z z) = inject_Z z;
truediv_val : ∀ a b,
  b ≠ 0 → num_val (truediv a b) = binary64 (Qdiv (inject_Z a) (inject_Z b));
fmul_val : ∀ x k,
  num_val (fmul x k) = binary64 (Qmult (num_val x) (inject_Z k));
round_nd_val : ∀ x ndigits,
  0 ≤ ndigits → num_val (round_nd x ndigits) = py_round (num_val x) ndigits;
}.

(** [j ->> 'k'] on the value found: [NULL] for a JSON null, the bare string
    for a JSON string, the [jsonb] text otherwise. *)
Definition json_text `{Backend} (j : json) : option string :=
  match j with
  | JNull => None
  | JStr s => Some s
  | _ => Some (jsonb_out j)
  end.

Definition json_get_text `{Backend} (j : json) (k : string) : option string :=
  json_get j k ≫= json_text.

(** [s LIKE '%pat%'] for a pattern without wildcards of its own. *)
Definition like_contains (pat s : string) : bool :=
  match String.index 0 pat s with
  | Some _ => true
  | None => false
  end.

(** ** Tables with a unique key *)

Section Upsert.
Context {P R K : Type} `{EqDecision K}.
(** [P]: the bound parameters of one statement; [R]: a table row. *)
Variable keyP : P → K.
Variable keyR : R → K.
(** the [VALUES] clause and the [DO UPDATE SET] clause *)
Variable ins : P → R.
Variable upd : R → P → R.

(** [INSERT ... ON CONFLICT (key) DO UPDATE SET ...] *)
Fixpoint upsert (p : P) (t : list R) : list R :=
  match t with
  | [] => [ins p]
  | r :: t' =>
      if decide (keyR r = keyP p) then upd r p :: t'
      else r :: upsert p t'
  end.

(** The Python loop [for r in rows: conn.execute(UPSERT, ...)]. *)
Definition upsert_all (rows : list P) (t : list R) : list R :=
  fold_left (fun t p => upsert p t) rows t.

(** The row stored under a key. *)
Fixpoint row_of (k : K) (t : list R) : option R :=
  match t with
  | [] => None
  | r :: t' => if decide (keyR r = k) then Some r else row_of k t'
  end.

(** What one statement does to the cell of its key. *)
Definition cell (p : P) (o : option R) : R :=
  match o with
  | Some r => upd r p
  | None => ins p
  end.

Definition cell_all (k : K) (rows : list P) (o : option R) : option R :=
  fold_left (fun o p => if decide (keyP p = k) then Some (cell p o) else o)
    rows o.

Definition keys (t : list R) : list K := keyR <$> t.
End Upsert.

(** ** Rank-and-filter deduplication

    [row_number() OVER (PARTITION BY key ORDER BY ...) = 1]: of every
    partition the row that sorts first.  [before a b] says that [a] sorts
    strictly before [b]; among rows that tie, SQL leaves the choice open and
    the embedding takes the earliest one of the input. *)

Section Dedup.
Context {A K : Type} `{EqDecision K}.
Variable key : A → K.
Variable before : A → A → bool.

Definition pick (best r : A) : A := if before r best then r else best.

Definition first_ranked (l : list A) : option A :=
  match l with
  | [] => None
  | x :: l' => Some (fold_left pick l' x)
  end.

Definition partition_of (k : K) (rows : list A) : list A :=
  filter (λ r, key r = k) rows.

Definition dedup (rows : list A) : list A :=
  omap (λ k, first_ranked (partition_of k rows)) (remove_dups (key <$> rows)).
End Dedup.

(** [kept] holds one row per key of [flat], each a row of [flat] that
    ranks first among the rows of its key: [first m r] says that [r] does
    not sort strictly before [m]. *)
Definition keeps_first_ranked {A K} (key : A → K) (first : A → A → Prop)
    (flat kept : list A) : Prop :=
  NoDup (key <$> kept)
  ∧ (∀ r, r ∈ flat → ∃ m, m ∈ kept ∧ key m = key r)
  ∧ (∀ m r, m ∈ kept → r ∈ flat → key r = key m → m ∈ flat ∧ first m r).

(** The loop [for r in rows: conn.execute(STATEMENT, ...)] on one table when
    binding the parameters may raise: the table when the loop ends or
    raises, and how it ended. *)
Fixpoint write_each {P R} (bind : P → result P) (write : P → list R → list R)
    (rows : list P) (t : list R) : list R * result unit :=
  match rows with
  | [] => (t, Ok tt)
  | p :: rows' =>
      match bind p with
      | Ok bound => write_each bind write rows' (write bound t)
      | Err e => (t, Err e)
      end
  end.

(** ** The database *)

Definition TENANT_ID : string := "visionamos".
Definition APP_ID : string := "100274".

(** One RawSnapshot: a row of [raw.raw_contacts_api], [raw.raw_push_stats]
    or [raw.raw_campaigns_api]. *)
Record raw_row := {
  rr_tenant_id : option string;
  rr_application_id : option string;
  rr_endpoint : string;
  rr_loaded_at : timestamp;
  rr_source_data : json;
}.

(** [source_data->'data' IS NOT NULL AND
     jsonb_typeof(source_data->'data') = ty] *)
Definition data_is (ty : string) (r : raw_row) : bool :=
  match json_get (rr_source_data r) "data" with
  | Some d => bool_decide (jsonb_typeof d = ty)
  | None => false
  end.

Definition data_of (r : raw_row) : json :=
  default JNull (json_get (rr_source_data r) "data").

Fixpoint rflat_map {A B} (f : A → result (list B)) (l : list A)
  : result (list B) :=
  match l with
  | [] => Ok []
  | a :: l' => bs ←r f a; cs ←r rflat_map f l'; Ok (bs ++ cs)
  end.

(** [ORDER BY x DESC NULLS LAST]: [NULL] ranks below every value. *)
Definition opt_ltb (a b : option Z) : bool :=
  match a, b with
  | None, Some _ => true
  | Some x, Some y => x <? y
  | _, None => false
  end.

Definition opt_eqb (a b : option Z) : bool :=
  match a, b with
  | None, None => true
  | Some x, Some y => x =? y
  | _, _ => false
  end.

(** [LEAST] and [GREATEST] skip [NULL] arguments. *)
Definition LEAST (a b : option Z) : option Z :=
  match a, b with
  | Some x, Some y => Some (Z.min x y)
  | Some x, None => Some x
  | None, _ => b
  end.

Definition GREATEST (a b : option Z) : option Z :=
  match a, b with
  | Some x, Some y => Some (Z.max x y)
  | Some x, None => Some x
  | None, _ => b
  end.

(** [public.sync_state] *)
Record sync_state_row := {
  ss_tenant_id : string;
  ss_entity : string;
  ss_last_sync_at : timestamp;
  ss_records_synced : Z;
  ss_status : string;
}.

(** [public.contacts] *)
Record contact_row := {
  c_tenant_id : string;
  c_contact_id : string;
  c_contact_name : option string;
  c_total_messages : Z;
  c_first_contact : option date;
  c_last_contact : option date;
  c_total_conversations : Z;
}.

(** [public.daily_stats] *)
Record daily_stat_row := {
  ds_tenant_id : string;
  ds_date : date;
  ds_total_messages : Z;
  ds_unique_contacts : Z;
  ds_conversations : Z;
  ds_fallback_count : Z;
}.

(** A row of the [flattened] step of [CONTACTS_SQL]. *)
Record contact_flat := {
  cf_tenant_id : string;
  cf_contact_id : string;
  cf_contact_name : option string;
  cf_first_contact : option date;
  cf_last_contact : option date;
  cf_loaded_at : timestamp;
}.

(** A row of the [flattened] step of [TOQUES_DAILY_SQL]. *)
Record toques_flat := {
  tf_tenant_id : string;
  tf_proyecto_cuenta : string;
  tf_canal : string;
  tf_date : date;
  tf_enviados : Z;
  tf_entregados : Z;
  tf_abiertos : Z;
  tf_clicks : Z;
  tf_loaded_at : timestamp;
}.

(** A row of the [flattened] step of [CAMPAIGNS_SQL] whose [campana_id] is
    not [NULL]. *)
Record campaign_flat := {
  kf_tenant_id : string;
  kf_campana_id : string;
  kf_campana_nombre : string;
  kf_canal : string;
  kf_proyecto_cuenta : string;
  kf_tipo_campana : option string;
  kf_total_enviados : Z;
  kf_total_entregados : Z;
  kf_total_clicks : Z;
  kf_fecha_inicio : option date;
  kf_fecha_fin : option date;
  kf_total_abiertos : Z;
  kf_total_rebotes : Z;
  kf_total_bloqueados : Z;
  kf_total_spam : Z;
  kf_total_desuscritos : Z;
  kf_total_conversiones : Z;
  kf_loaded_at : timestamp;
}.

(** A contact as [/v1/chat/contacts] returns it, and a page of contacts as
    it lands in [raw.raw_contacts_api]. *)
Definition contact_doc (contact_id name created updated : string) : json :=
  JObj [("contactId", JStr contact_id);
        ("profileName", JStr name);
        ("createdAt", JStr created);
        ("updatedAt", JStr updated)].

Definition contacts_snapshot (tenant : option string) (loaded : timestamp)
    (docs : list json) : raw_row :=
  {| rr_tenant_id := tenant;
     rr_application_id := Some APP_ID;
     rr_endpoint := "/v1/chat/contacts";
     rr_loaded_at := loaded;
     rr_source_data := JObj [("data", JArr docs)] |}.

Section Pipeline.
Context `{B : Backend}.

(** [public.toques_daily] *)
Record toques_daily_row := {
  td_tenant_id : string;
  td_date : date;
  td_canal : string;
  td_proyecto_cuenta : string;
  td_enviados : Z;
  td_entregados : Z;
  td_clicks : Z;
  td_chunks : Z;
  td_usuarios_unicos : Z;
  td_abiertos : Z;
  td_rebotes : Z;
  td_bloqueados : Z;
  td_spam : Z;
  td_desuscritos : Z;
  td_conversiones : Z;
  td_ctr : num;
  td_tasa_entrega : num;
  td_open_rate : num;
  td_conversion_rate : num;
}.

(** [public.toques_heatmap] *)
Record heatmap_row := {
  hm_tenant_id : string;
  hm_canal : string;
  hm_dia_semana : string;
  hm_hora : Z;
  hm_enviados : Z;
  hm_clicks : Z;
  hm_abiertos : Z;
  hm_conversiones : Z;
  hm_ctr : num;
  hm_dia_orden : Z;
}.

(** [public.campaigns] *)
Record campaign_row := {
  k_tenant_id : string;
  k_campana_id : string;
  k_campana_nombre : string;
  k_canal : string;
  k_proyecto_cuenta : string;
  k_tipo_campana : option string;
  k_total_enviados : Z;
  k_total_entregados : Z;
  k_total_clicks : Z;
  k_total_chunks : Z;
  k_fecha_inicio : option date;
  k_fecha_fin : option date;
  k_total_abiertos : Z;
  k_total_rebotes : Z;
  k_total_bloqueados : Z;
  k_total_spam : Z;
  k_total_desuscritos : Z;
  k_total_conversiones : Z;
  k_ctr : num;
  k_tasa_entrega : num;
  k_open_rate : num;
  k_conversion_rate : num;
}.

(** The part of the database the pipeline reads and writes. *)
Record db := {
  raw_contacts_api : list raw_row;
  raw_push_stats : list raw_row;
  raw_campaigns_api : list raw_row;
  contacts : list contact_row;
  toques_daily : list toques_daily_row;
  toques_heatmap : list heatmap_row;
  campaigns : list campaign_row;
  daily_stats : list daily_stat_row;
  sync_state : list sync_state_row;
}.

Definition set_contacts (t : list contact_row) (d : db) : db :=
  {| raw_contacts_api := raw_contacts_api d; raw_push_stats := raw_push_stats d;
     raw_campaigns_api := raw_campaigns_api d; contacts := t;
     toques_daily := toques_daily d; toques_heatmap := toques_heatmap d;
     campaigns := campaigns d; daily_stats := daily_stats d;
     sync_state := sync_state d |}.

Definition set_toques_daily (t : list toques_daily_row) (d : db) : db :=
  {| raw_contacts_api := raw_contacts_api d; raw_push_stats := raw_push_stats d;
     raw_campaigns_api := raw_campaigns_api d; contacts := contacts d;
     toques_daily := t; toques_heatmap := toques_heatmap d;
     campaigns := campaigns d; daily_stats := daily_stats d;
     sync_state := sync_state d |}.

Definition set_toques_heatmap (t : list heatmap_row) (d : db) : db :=
  {| raw_contacts_api := raw_contacts_api d; raw_push_stats := raw_push_stats d;
     raw_campaigns_api := raw_campaigns_api d; contacts := contacts d;
     toques_daily := toques_daily d; toques_heatmap := t;
     campaigns := campaigns d; daily_stats := daily_stats d;
     sync_state := sync_state d |}.

Definition set_campaigns (t : list campaign_row) (d : db) : db :=
  {| raw_contacts_api := raw_contacts_api d; raw_push_stats := raw_push_stats d;
     raw_campaigns_api := raw_campaigns_api d; contacts := contacts d;
     toques_daily := toques_daily d; toques_heatmap := toques_heatmap d;
     campaigns := t; daily_stats := daily_stats d;
     sync_state := sync_state d |}.

Definition set_daily_stats (t : list daily_stat_row) (d : db) : db :=
  {| raw_contacts_api := raw_contacts_api d; raw_push_stats := raw_push_stats d;
     raw_campaigns_api := raw_campaigns_api d; contacts := contacts d;
     toques_daily := toques_daily d; toques_heatmap := toques_heatmap d;
     campaigns := campaigns d; daily_stats := t;
     sync_state := sync_state d |}.

Definition set_sync_state (t : list sync_state_row) (d : db) : db :=
  {| raw_contacts_api := raw_contacts_api d; raw_push_stats := raw_push_stats d;
     raw_campaigns_api := raw_campaigns_api d; contacts := contacts d;
     toques_daily := toques_daily d; toques_heatmap := toques_heatmap d;
     campaigns := campaigns d; daily_stats := daily_stats d;
     sync_state := t |}.

(** ** Statements on a connection

    A computation on an open connection: it changes the database as seen
    by the transaction and returns or raises.  The state reached when it
    raises holds the writes made so far. *)
Definition M (A : Type) : Type := db → db * result A.

Definition mret {A} (a : A) : M A := λ d, (d, Ok a).

Definition mbind {A C} (m : M A) (k : A → M C) : M C :=
  λ d, match m d with
       | (d', Ok a) => k a d'
       | (d', Err e) => (d', Err e)
       end.

Definition query {A} (q : db → result A) : M A := λ d, (d, q d).

Definition execute (f : db → db) : M unit := λ d, (f d, Ok tt).

Definition lift {A} (r : result A) : M A := λ d, (d, r).

(** One [conn.execute(INSERT ...)]: the parameters are coerced to the
    types of their columns, which may raise, then the row is written. *)
Definition statement {P} (bind : P → result P) (write : P → db → db) (p : P)
  : M unit :=
  mbind (lift (bind p)) (λ bound, execute (write bound)).

Fixpoint for_each {A} (body : A → M unit) (l : list A) : M unit :=
  match l with
  | [] => mret tt
  | a :: l' => mbind (body a) (λ _, for_each body l')
  end.

(** ** Sync state: [update_sync_state] *)

Definition sync_key (r : sync_state_row) : string * string :=
  (ss_tenant_id r, ss_entity r).

(** [ON CONFLICT (tenant_id, entity) DO UPDATE SET last_sync_at,
    records_synced, status = EXCLUDED...] *)
Definition sync_update (old new : sync_state_row) : sync_state_row :=
  {| ss_tenant_id := ss_tenant_id old;
     ss_entity := ss_entity old;
     ss_last_sync_at := ss_last_sync_at new;
     ss_records_synced := ss_records_synced new;
     ss_status := ss_status new |}.

Definition sync_upsert : sync_state_row → list sync_state_row → list sync_state_row :=
  upsert sync_key sync_key id sync_update.

(** [ts] is the value of [datetime.now(timezone.utc)] at the call. *)
Definition update_sync_state (ts : timestamp) (entity : string)
    (records : Z) (status : string) : M unit :=
  execute (λ d,
    set_sync_state
      (sync_upsert
         {| ss_tenant_id := TENANT_ID; ss_entity := entity;
            ss_last_sync_at := ts; ss_records_synced := records;
            ss_status := status |}
         (sync_state d)) d).

(** ** Transform: contacts *)

Definition contacts_flatten_elem (tenant : string) (loaded : timestamp)
    (elem : json) : result (list contact_flat) :=
  match json_get_text elem "contactId" with
  | None => Ok []
  | Some cid =>
      first ←r cast_null cast_tsdate (json_get_text elem "createdAt");
      last ←r cast_null cast_tsdate (json_get_text elem "updatedAt");
      Ok [ {| cf_tenant_id := tenant;
              cf_contact_id := cid;
              cf_contact_name := json_get_text elem "profileName";
              cf_first_contact := first;
              cf_last_contact := last;
              cf_loaded_at := loaded |} ]
  end.

(** The [raw_rows] and [flattened] steps. *)
Definition contacts_flattened (tid : string) (raw : list raw_row)
  : result (list contact_flat) :=
  rflat_map
    (λ r, rflat_map
            (contacts_flatten_elem (coalesce (rr_tenant_id r) tid)
               (rr_loaded_at r))
            (jsonb_array_elements (data_of r)))
    (filter (λ r, data_is "array" r) raw).

Definition contacts_key_flat (r : contact_flat) : string * string :=
  (cf_tenant_id r, cf_contact_id r).

(** [ORDER BY last_contact DESC NULLS LAST, loaded_at DESC] *)
Definition contacts_before (a b : contact_flat) : bool :=
  opt_ltb (cf_last_contact b) (cf_last_contact a)
  || (opt_eqb (cf_last_contact a) (cf_last_contact b)
      && (cf_loaded_at b <? cf_loaded_at a)).

(** The final projection drops [loaded_at]; the rows keep it here and the
    upsert does not read it. *)
Definition CONTACTS_SQL (tid : string) (d : db) : result (list contact_flat) :=
  rows ←r contacts_flattened tid (raw_contacts_api d);
  Ok (dedup contacts_key_flat contacts_before rows).

Definition contacts_key (r : contact_row) : string * string :=
  (c_tenant_id r, c_contact_id r).

Definition contacts_insert (p : contact_flat) : contact_row :=
  {| c_tenant_id := cf_tenant_id p;
     c_contact_id := cf_contact_id p;
     c_contact_name := cf_contact_name p;
     c_total_messages := 0;
     c_first_contact := cf_first_contact p;
     c_last_contact := cf_last_contact p;
     c_total_conversations := 0 |}.

Definition contacts_update (old : contact_row) (p : contact_flat) : contact_row :=
  {| c_tenant_id := c_tenant_id old;
     c_contact_id := c_contact_id old;
     c_contact_name := cf_contact_name p;
     c_total_messages := c_total_messages old;
     c_first_contact := LEAST (c_first_contact old) (cf_first_contact p);
     c_last_contact := GREATEST (c_last_contact old) (cf_last_contact p);
     c_total_conversations := c_total_conversations old |}.

Definition CONTACTS_UPSERT : contact_flat → list contact_row → list contact_row :=
  upsert contacts_key_flat contacts_key contacts_insert contacts_update.

(** The parameters as [public.contacts] takes them: [contact_id] is
    [VARCHAR(100)], [contact_name] is [VARCHAR(255)]. *)
Definition contacts_bind (p : contact_flat) : result contact_flat :=
  contact_id ←r varchar_key 100 (cf_contact_id p);
  contact_name ←r cast_null (varchar 255) (cf_contact_name p);
  Ok {| cf_tenant_id := cf_tenant_id p;
        cf_contact_id := contact_id;
        cf_contact_name := contact_name;
        cf_first_contact := cf_first_contact p;
        cf_last_contact := cf_last_contact p;
        cf_loaded_at := cf_loaded_at p |}.

Definition transform_contacts : M Z :=
  mbind (query (CONTACTS_SQL TENANT_ID)) (λ rows,
  mbind (for_each
           (statement contacts_bind
              (λ r d, set_contacts (CONTACTS_UPSERT r (contacts d)) d))
           rows) (λ _,
  mret (Z.of_nat (length rows)))).

(** ** Derived ratios *)

(** Python [a / b] on ints. *)
Definition py_truediv (a b : Z) : result num :=
  if b =? 0 then Err "division by zero" else Ok (truediv a b).

(** [round(numerator / denominator * 100, 2) if denominator > 0 else 0] *)
Definition ratio (numerator denominator : Z) : result num :=
  if 0 <? denominator
  then q ←r py_truediv numerator denominator; Ok (round_nd (fmul q 100) 2)
  else Ok (num_of_Z 0).

(** ** Transform: toques_daily *)

Definition toques_flatten_elem (tenant app : string) (loaded : timestamp)
    (elem : json) : result (list toques_flat) :=
  match json_get_text elem "platformGroup", json_get_text elem "statsDate" with
  | Some canal, Some stats_date =>
      dt ←r cast_date stats_date;
      sent ←r cast_null cast_int (json_get_text elem "numDevicesSent");
      success ←r cast_null cast_int (json_get_text elem "numDevicesSuccess");
      received ←r cast_null cast_int (json_get_text elem "numDevicesReceived");
      clicked ←r cast_null cast_int (json_get_text elem "numDevicesClicked");
      Ok [ {| tf_tenant_id := tenant;
              tf_proyecto_cuenta := app;
              tf_canal := canal;
              tf_date := dt;
              tf_enviados := coalesce sent 0;
              tf_entregados := coalesce success 0;
              tf_abiertos := coalesce received 0;
              tf_clicks := coalesce clicked 0;
              tf_loaded_at := loaded |} ]
  | _, _ => Ok []
  end.

Definition toques_flattened (tid app_id : string) (raw : list raw_row)
  : result (list toques_flat) :=
  rflat_map
    (λ r, rflat_map
            (toques_flatten_elem (coalesce (rr_tenant_id r) tid)
               (coalesce (rr_application_id r) app_id) (rr_loaded_at r))
            (jsonb_array_elements (data_of r)))
    (filter (λ r, like_contains "/dateStats" (rr_endpoint r) && data_is "array" r)
       raw).

Definition toques_key_flat (r : toques_flat) : string * date * string * string :=
  (tf_tenant_id r, tf_date r, tf_canal r, tf_proyecto_cuenta r).

(** [ORDER BY loaded_at DESC] *)
Definition toques_before (a b : toques_flat) : bool :=
  tf_loaded_at b <? tf_loaded_at a.

Definition TOQUES_DAILY_SQL (tid app_id : string) (d : db)
  : result (list toques_flat) :=
  rows ←r toques_flattened tid app_id (raw_push_stats d);
  Ok (dedup toques_key_flat toques_before rows).

(** The parameters bound to [TOQUES_DAILY_UPSERT]. *)
Record toques_params := {
  tp_row : toques_flat;
  tp_ctr : num;
  tp_tasa_entrega : num;
  tp_open_rate : num;
}.

Definition toques_daily_params (r : toques_flat) : result toques_params :=
  ctr ←r ratio (tf_clicks r) (tf_enviados r);
  tasa_entrega ←r ratio (tf_entregados r) (tf_enviados r);
  open_rate ←r ratio (tf_abiertos r) (tf_entregados r);
  Ok {| tp_row := r; tp_ctr := ctr; tp_tasa_entrega := tasa_entrega;
        tp_open_rate := open_rate |}.

Definition toques_key_params (p : toques_params) := toques_key_flat (tp_row p).

Definition toques_key (r : toques_daily_row) : string * date * string * string :=
  (td_tenant_id r, td_date r, td_canal r, td_proyecto_cuenta r).

Definition toques_insert (p : toques_params) : toques_daily_row :=
  {| td_tenant_id := tf_tenant_id (tp_row p);
     td_date := tf_date (tp_row p);
     td_canal := tf_canal (tp_row p);
     td_proyecto_cuenta := tf_proyecto_cuenta (tp_row p);
     td_enviados := tf_enviados (tp_row p);
     td_entregados := tf_entregados (tp_row p);
     td_clicks := tf_clicks (tp_row p);
     td_chunks := 0;
     td_usuarios_unicos := 0;
     td_abiertos := tf_abiertos (tp_row p);
     td_rebotes := 0;
     td_bloqueados := 0;
     td_spam := 0;
     td_desuscritos := 0;
     td_conversiones := 0;
     td_ctr := tp_ctr p;
     td_tasa_entrega := tp_tasa_entrega p;
     td_open_rate := tp_open_rate p;
     td_conversion_rate := num_of_Z 0 |}.

Definition toques_update (old : toques_daily_row) (p : toques_params)
  : toques_daily_row :=
  {| td_tenant_id := td_tenant_id old;
     td_date := td_date old;
     td_canal := td_canal old;
     td_proyecto_cuenta := td_proyecto_cuenta old;
     td_enviados := tf_enviados (tp_row p);
     td_entregados := tf_entregados (tp_row p);
     td_clicks := tf_clicks (tp_row p);
     td_chunks := td_chunks old;
     td_usuarios_unicos := td_usuarios_unicos old;
     td_abiertos := tf_abiertos (tp_row p);
     td_rebotes := td_rebotes old;
     td_bloqueados := td_bloqueados old;
     td_spam := td_spam old;
     td_desuscritos := td_desuscritos old;
     td_conversiones := td_conversiones old;
     td_ctr := tp_ctr p;
     td_tasa_entrega := tp_tasa_entrega p;
     td_open_rate := tp_open_rate p;
     td_conversion_rate := td_conversion_rate old |}.

Definition TOQUES_DAILY_UPSERT
  : toques_params → list toques_daily_row → list toques_daily_row :=
  upsert toques_key_params toques_key toques_insert toques_update.

(** The parameters as [public.toques_daily] takes them: [canal] is
    [VARCHAR(30)]. *)
Definition toques_bind (p : toques_params) : result toques_params :=
  canal ←r varchar_key 30 (tf_canal (tp_row p));
  Ok p.

Definition transform_toques_daily : M Z :=
  mbind (query (TOQUES_DAILY_SQL TENANT_ID APP_ID)) (λ rows,
  mbind (for_each
           (λ r, mbind (lift (toques_daily_params r))
                   (statement toques_bind
                      (λ p d, set_toques_daily
                                (TOQUES_DAILY_UPSERT p (toques_daily d)) d)))
           rows) (λ _,
  mret (Z.of_nat (length rows)))).

(** ** Transform: toques_heatmap *)

(** A row of the [flattened] step of [HEATMAP_SQL], after the Python
    conversions [int(r[3])], [float(r[4])], [int(r[5])]. *)
Record heatmap_flat := {
  hf_tenant_id : string;
  hf_canal : string;
  hf_dia_semana : string;
  hf_hora : Z;
  hf_ctr : num;
  hf_dia_orden : Z;
}.

(** The [raw_rows] step: the snapshots the query looks at. *)
Definition heatmap_raw_rows (raw : list raw_row) : list raw_row :=
  filter (λ r, like_contains "/pushHeatmap" (rr_endpoint r) && data_is "object" r)
    raw.

Definition heatmap_tenant (tid : string) (r : raw_row) : string :=
  coalesce (rr_tenant_id r) tid.

Definition loaded_before (a b : raw_row) : bool :=
  rr_loaded_at b <? rr_loaded_at a.

(** The [latest] step with [_rn = 1]:
    [row_number() OVER (PARTITION BY tenant_id ORDER BY loaded_at DESC)]. *)
Definition heatmap_latest (tid : string) (raw : list raw_row) : list raw_row :=
  dedup (heatmap_tenant tid) loaded_before (heatmap_raw_rows raw).

Definition CASE_weekday (weekday_key : string) : Z :=
  if decide (weekday_key = "monday") then 1
  else if decide (weekday_key = "tuesday") then 2
  else if decide (weekday_key = "wednesday") then 3
  else if decide (weekday_key = "thursday") then 4
  else if decide (weekday_key = "friday") then 5
  else if decide (weekday_key = "saturday") then 6
  else if decide (weekday_key = "sunday") then 7
  else 0.

Definition heatmap_hour (tenant weekday_key : string) (h : string * json)
  : result heatmap_flat :=
  hora ←r cast_smallint h.1;
  ctr ←r heat_ctr (jsonb_out h.2);
  Ok {| hf_tenant_id := tenant;
        hf_canal := "push";
        hf_dia_semana := weekday_key;
        hf_hora := hora;
        hf_ctr := ctr;
        hf_dia_orden := CASE_weekday weekday_key |}.

(** The [weekday_entries] and [flattened] steps on one snapshot. *)
Definition heatmap_cells (tenant : string) (l : raw_row)
  : result (list heatmap_flat) :=
  wds ←r jsonb_each (json_get (data_of l) "weekday-hour");
  rflat_map
    (λ wd, hours ←r jsonb_each (Some wd.2);
           rmapM (heatmap_hour tenant wd.1) hours)
    (filter (λ wd : string * json, jsonb_typeof wd.2 = "object") wds).

Definition HEATMAP_SQL (tid : string) (d : db) : result (list heatmap_flat) :=
  rflat_map (λ l, heatmap_cells (heatmap_tenant tid l) l)
    (heatmap_latest tid (raw_push_stats d)).

Definition heatmap_key_flat (p : heatmap_flat) : string * string * string * Z :=
  (hf_tenant_id p, hf_canal p, hf_dia_semana p, hf_hora p).

Definition heatmap_key (r : heatmap_row) : string * string * string * Z :=
  (hm_tenant_id r, hm_canal r, hm_dia_semana r, hm_hora r).

Definition heatmap_insert (p : heatmap_flat) : heatmap_row :=
  {| hm_tenant_id := hf_tenant_id p;
     hm_canal := hf_canal p;
     hm_dia_semana := hf_dia_semana p;
     hm_hora := hf_hora p;
     hm_enviados := 0;
     hm_clicks := 0;
     hm_abiertos := 0;
     hm_conversiones := 0;
     hm_ctr := hf_ctr p;
     hm_dia_orden := hf_dia_orden p |}.

Definition heatmap_update (old : heatmap_row) (p : heatmap_flat) : heatmap_row :=
  {| hm_tenant_id := hm_tenant_id old;
     hm_canal := hm_canal old;
     hm_dia_semana := hm_dia_semana old;
     hm_hora := hm_hora old;
     hm_enviados := hm_enviados old;
     hm_clicks := hm_clicks old;
     hm_abiertos := hm_abiertos old;
     hm_conversiones := hm_conversiones old;
     hm_ctr := hf_ctr p;
     hm_dia_orden := hf_dia_orden p |}.

Definition HEATMAP_UPSERT : heatmap_flat → list heatmap_row → list heatmap_row :=
  upsert heatmap_key_flat heatmap_key heatmap_insert heatmap_update.

Definition transform_heatmap : M Z :=
  mbind (query (HEATMAP_SQL TENANT_ID)) (λ rows,
  mbind (for_each
           (λ r, execute (λ d, set_toques_heatmap
                                 (HEATMAP_UPSERT r (toques_heatmap d)) d))
           rows) (λ _,
  mret (Z.of_nat (length rows)))).

(** ** Transform: campaigns *)

Definition coalesce3 (a b : option string) (c : string) : string :=
  match a, b with
  | Some x, _ => x
  | None, Some y => y
  | None, None => c
  end.

(** One element through [flattened] and the filter
    [campana_id IS NOT NULL] of the next step, which PostgreSQL applies
    to the element before it evaluates the casts. *)
Definition campaigns_flatten_elem (tenant app_id : string)
    (loaded : timestamp) (elem : json) : result (list campaign_flat) :=
  match json_get_text elem "id" ∪ json_get_text elem "campaignId" with
  | None => Ok []
  | Some campana_id =>
      sent ←r cast_null cast_int (json_get_text elem "sent");
      delivered ←r cast_null cast_int (json_get_text elem "delivered");
      clicked ←r cast_null cast_int (json_get_text elem "clicked");
      start_date ←r cast_null cast_date (json_get_text elem "startDate");
      end_date ←r cast_null cast_date (json_get_text elem "endDate");
      opened ←r cast_null cast_int (json_get_text elem "opened");
      bounced ←r cast_null cast_int (json_get_text elem "bounced");
      blocked ←r cast_null cast_int (json_get_text elem "blocked");
      spam ←r cast_null cast_int (json_get_text elem "spam");
      unsubscribed ←r cast_null cast_int (json_get_text elem "unsubscribed");
      converted ←r cast_null cast_int (json_get_text elem "converted");
      Ok [ {| kf_tenant_id := tenant;
              kf_campana_id := campana_id;
              kf_campana_nombre :=
                coalesce3 (json_get_text elem "name") (json_get_text elem "title")
                  "Sin nombre";
              kf_canal :=
                coalesce3 (json_get_text elem "channel") (json_get_text elem "type")
                  "push";
              kf_proyecto_cuenta := coalesce (json_get_text elem "applicationId") app_id;
              kf_tipo_campana := json_get_text elem "status";
              kf_total_enviados := coalesce sent 0;
              kf_total_entregados := coalesce delivered 0;
              kf_total_clicks := coalesce clicked 0;
              kf_fecha_inicio := start_date;
              kf_fecha_fin := end_date;
              kf_total_abiertos := coalesce opened 0;
              kf_total_rebotes := coalesce bounced 0;
              kf_total_bloqueados := coalesce blocked 0;
              kf_total_spam := coalesce spam 0;
              kf_total_desuscritos := coalesce unsubscribed 0;
              kf_total_conversiones := coalesce converted 0;
              kf_loaded_at := loaded |} ]
  end.

Definition campaigns_flattened (tid app_id : string) (raw : list raw_row)
  : result (list campaign_flat) :=
  rflat_map
    (λ r, rflat_map
            (campaigns_flatten_elem (coalesce (rr_tenant_id r) tid) app_id
               (rr_loaded_at r))
            (jsonb_array_elements (data_of r)))
    (filter (λ r, data_is "array" r) raw).

Definition campaigns_key_flat (r : campaign_flat) : string * string :=
  (kf_tenant_id r, kf_campana_id r).

(** [ORDER BY loaded_at DESC] *)
Definition campaigns_before (a b : campaign_flat) : bool :=
  kf_loaded_at b <? kf_loaded_at a.

Definition CAMPAIGNS_SQL (tid app_id : string) (d : db)
  : result (list campaign_flat) :=
  rows ←r campaigns_flattened tid app_id (raw_campaigns_api d);
  Ok (dedup campaigns_key_flat campaigns_before rows).

(** The parameters bound to [CAMPAIGNS_UPSERT]. *)
Record campaign_params := {
  kp_row : campaign_flat;
  kp_ctr : num;
  kp_tasa_entrega : num;
  kp_open_rate : num;
  kp_conversion_rate : num;
}.

Definition campaigns_params (r : campaign_flat) : result campaign_params :=
  ctr ←r ratio (kf_total_clicks r) (kf_total_enviados r);
  tasa_entrega ←r ratio (kf_total_entregados r) (kf_total_enviados r);
  open_rate ←r ratio (kf_total_abiertos r) (kf_total_entregados r);
  conversion_rate ←r ratio (kf_total_conversiones r) (kf_total_clicks r);
  Ok {| kp_row := r; kp_ctr := ctr; kp_tasa_entrega := tasa_entrega;
        kp_open_rate := open_rate; kp_conversion_rate := conversion_rate |}.

Definition campaigns_key_params (p : campaign_params) := campaigns_key_flat (kp_row p).

Definition campaigns_key (r : campaign_row) : string * string :=
  (k_tenant_id r, k_campana_id r).

Definition campaigns_insert (p : campaign_params) : campaign_row :=
  {| k_tenant_id := kf_tenant_id (kp_row p);
     k_campana_id := kf_campana_id (kp_row p);
     k_campana_nombre := kf_campana_nombre (kp_row p);
     k_canal := kf_canal (kp_row p);
     k_proyecto_cuenta := kf_proyecto_cuenta (kp_row p);
     k_tipo_campana := kf_tipo_campana (kp_row p);
     k_total_enviados := kf_total_enviados (kp_row p);
     k_total_entregados := kf_total_entregados (kp_row p);
     k_total_clicks := kf_total_clicks (kp_row p);
     k_total_chunks := 0;
     k_fecha_inicio := kf_fecha_inicio (kp_row p);
     k_fecha_fin := kf_fecha_fin (kp_row p);
     k_total_abiertos := kf_total_abiertos (kp_row p);
     k_total_rebotes := kf_total_rebotes (kp_row p);
     k_total_bloqueados := kf_total_bloqueados (kp_row p);
     k_total_spam := kf_total_spam (kp_row p);
     k_total_desuscritos := kf_total_desuscritos (kp_row p);
     k_total_conversiones := kf_total_conversiones (kp_row p);
     k_ctr := kp_ctr p;
     k_tasa_entrega := kp_tasa_entrega p;
     k_open_rate := kp_open_rate p;
     k_conversion_rate := kp_conversion_rate p |}.

Definition campaigns_update (old : campaign_row) (p : campaign_params)
  : campaign_row :=
  {| k_tenant_id := k_tenant_id old;
     k_campana_id := k_campana_id old;
     k_campana_nombre := kf_campana_nombre (kp_row p);
     k_canal := kf_canal (kp_row p);
     k_proyecto_cuenta := kf_proyecto_cuenta (kp_row p);
     k_tipo_campana := kf_tipo_campana (kp_row p);
     k_total_enviados := kf_total_enviados (kp_row p);
     k_total_entregados := kf_total_entregados (kp_row p);
     k_total_clicks := kf_total_clicks (kp_row p);
     k_total_chunks := k_total_chunks old;
     k_fecha_inicio := kf_fecha_inicio (kp_row p);
     k_fecha_fin := kf_fecha_fin (kp_row p);
     k_total_abiertos := kf_total_abiertos (kp_row p);
     k_total_rebotes := kf_total_rebotes (kp_row p);
     k_total_bloqueados := kf_total_bloqueados (kp_row p);
     k_total_spam := kf_total_spam (kp_row p);
     k_total_desuscritos := kf_total_desuscritos (kp_row p);
     k_total_conversiones := kf_total_conversiones (kp_row p);
     k_ctr := kp_ctr p;
     k_tasa_entrega := kp_tasa_entrega p;
     k_open_rate := kp_open_rate p;
     k_conversion_rate := kp_conversion_rate p |}.

Definition CAMPAIGNS_UPSERT
  : campaign_params → list campaign_row → list campaign_row :=
  upsert campaigns_key_params campaigns_key campaigns_insert campaigns_update.

(** The parameters as [public.campaigns] takes them: [campana_id] is
    [VARCHAR(100)], [campana_nombre] [VARCHAR(255)], [canal] [VARCHAR(30)],
    [tipo_campana] [VARCHAR(50)]. *)
Definition campaigns_bind (p : campaign_params) : result campaign_params :=
  let r := kp_row p in
  campana_id ←r varchar_key 100 (kf_campana_id r);
  campana_nombre ←r varchar 255 (kf_campana_nombre r);
  canal ←r varchar 30 (kf_canal r);
  tipo_campana ←r cast_null (varchar 50) (kf_tipo_campana r);
  Ok {| kp_row :=
          {| kf_tenant_id := kf_tenant_id r;
             kf_campana_id := campana_id;
             kf_campana_nombre := campana_nombre;
             kf_canal := canal;
             kf_proyecto_cuenta := kf_proyecto_cuenta r;
             kf_tipo_campana := tipo_campana;
             kf_total_enviados := kf_total_enviados r;
             kf_total_entregados := kf_total_entregados r;
             kf_total_clicks := kf_total_clicks r;
             kf_fecha_inicio := kf_fecha_inicio r;
             kf_fecha_fin := kf_fecha_fin r;
             kf_total_abiertos := kf_total_abiertos r;
             kf_total_rebotes := kf_total_rebotes r;
             kf_total_bloqueados := kf_total_bloqueados r;
             kf_total_spam := kf_total_spam r;
             kf_total_desuscritos := kf_total_desuscritos r;
             kf_total_conversiones := kf_total_conversiones r;
             kf_loaded_at := kf_loaded_at r |};
        kp_ctr := kp_ctr p;
        kp_tasa_entrega := kp_tasa_entrega p;
        kp_open_rate := kp_open_rate p;
        kp_conversion_rate := kp_conversion_rate p |}.

Definition transform_campaigns : M Z :=
  mbind (query (CAMPAIGNS_SQL TENANT_ID APP_ID)) (λ rows,
  mbind (for_each
           (λ r, mbind (lift (campaigns_params r))
                   (statement campaigns_bind
                      (λ p d, set_campaigns
                                (CAMPAIGNS_UPSERT p (campaigns d)) d)))
           rows) (λ _,
  mret (Z.of_nat (length rows)))).

(** ** Transform: daily_stats (aggregated from toques_daily) *)

Definition sum_enviados (rows : list toques_daily_row) : Z :=
  foldr (λ r acc, td_enviados r + acc) 0 rows.

(** [SELECT tenant_id, date, coalesce(sum(enviados), 0), 0, 0, 0
     FROM public.toques_daily WHERE tenant_id = :tid
     GROUP BY tenant_id, date] *)
Definition DAILY_STATS_SQL (tid : string) (d : db) : result (list daily_stat_row) :=
  let rows := filter (λ r, td_tenant_id r = tid) (toques_daily d) in
  Ok ((λ g : string * date,
         {| ds_tenant_id := g.1;
            ds_date := g.2;
            ds_total_messages :=
              sum_enviados
                (filter (λ r, (td_tenant_id r, td_date r) = g) rows);
            ds_unique_contacts := 0;
            ds_conversations := 0;
            ds_fallback_count := 0 |})
        <$> remove_dups ((λ r, (td_tenant_id r, td_date r)) <$> rows)).

Definition daily_stats_key (r : daily_stat_row) : string * date :=
  (ds_tenant_id r, ds_date r).

Definition daily_stats_update (old p : daily_stat_row) : daily_stat_row :=
  {| ds_tenant_id := ds_tenant_id old;
     ds_date := ds_date old;
     ds_total_messages := ds_total_messages p;
     ds_unique_contacts := ds_unique_contacts p;
     ds_conversations := ds_conversations p;
     ds_fallback_count := ds_fallback_count p |}.

Definition DAILY_STATS_UPSERT
  : daily_stat_row → list daily_stat_row → list daily_stat_row :=
  upsert daily_stats_key daily_stats_key id daily_stats_update.

Definition transform_daily_stats : M Z :=
  mbind (query (DAILY_STATS_SQL TENANT_ID)) (λ rows,
  mbind (for_each
           (λ r, execute (λ d, set_daily_stats
                                 (DAILY_STATS_UPSERT r (daily_stats d)) d))
           rows) (λ _,
  mret (Z.of_nat (length rows)))).

(** ** What a transform leaves behind

    The value of a ratio once the guard has been taken, the parameters of
    the two upserts that carry ratios, and the content of each table after
    its transform has run in a transaction of its own. *)

Definition ratio_value (numerator denominator : Z) : num :=
  if 0 <? denominator
  then round_nd (fmul (truediv numerator denominator) 100) 2
  else num_of_Z 0.


Definition toques_params_of (r : toques_flat) : toques_params :=
  {| tp_row := r;
     tp_ctr := ratio_value (tf_clicks r) (tf_enviados r);
     tp_tasa_entrega := ratio_value (tf_entregados r) (tf_enviados r);
     tp_open_rate := ratio_value (tf_abiertos r) (tf_entregados r) |}.

Definition campaigns_params_of (r : campaign_flat) : campaign_params :=
  {| kp_row := r;
     kp_ctr := ratio_value (kf_total_clicks r) (kf_total_enviados r);
     kp_tasa_entrega := ratio_value (kf_total_entregados r) (kf_total_enviados r);
     kp_open_rate := ratio_value (kf_total_abiertos r) (kf_total_entregados r);
     kp_conversion_rate :=
       ratio_value (kf_total_conversiones r) (kf_total_clicks r) |}.

(** A transaction that raised leaves the table as it was. *)
Definition committed {P R} (params : result (list P))
    (write : list P → list R → list R) (t : list R) : list R :=
  match params with
  | Ok rows => write rows t
  | Err _ => t
  end.

Definition contacts_after (d : db) : list contact_row :=
  committed (rows ←r CONTACTS_SQL TENANT_ID d; rmapM contacts_bind rows)
    (upsert_all contacts_key_flat contacts_key contacts_insert contacts_update)
    (contacts d).

Definition toques_daily_after (d : db) : list toques_daily_row :=
  committed (rows ←r TOQUES_DAILY_SQL TENANT_ID APP_ID d;
             rmapM toques_bind (toques_params_of <$> rows))
    (upsert_all toques_key_params toques_key toques_insert toques_update)
    (toques_daily d).

Definition toques_heatmap_after (d : db) : list heatmap_row :=
  match HEATMAP_SQL TENANT_ID d with
  | Ok rows =>
      upsert_all heatmap_key_flat heatmap_key heatmap_insert heatmap_update
        rows (toques_heatmap d)
  | Err _ => toques_heatmap d
  end.

Definition campaigns_after (d : db) : list campaign_row :=
  committed (rows ←r CAMPAIGNS_SQL TENANT_ID APP_ID d;
             rmapM campaigns_bind (campaigns_params_of <$> rows))
    (upsert_all campaigns_key_params campaigns_key campaigns_insert
       campaigns_update)
    (campaigns d).

Definition daily_stats_after (d : db) : list daily_stat_row :=
  match DAILY_STATS_SQL TENANT_ID d with
  | Ok rows =>
      upsert_all daily_stats_key daily_stats_key id daily_stats_update
        rows (daily_stats d)
  | Err _ => daily_stats d
  end.

(** The unique constraints of the normalized tables. *)
Definition db_unique (d : db) : Prop :=
  NoDup (keys contacts_key (contacts d))
  ∧ NoDup (keys toques_key (toques_daily d))
  ∧ NoDup (keys heatmap_key (toques_heatmap d))
  ∧ NoDup (keys campaigns_key (campaigns d))
  ∧ NoDup (keys daily_stats_key (daily_stats d)).

(** ** Main *)

Definition TRANSFORMS : list (string * M Z) :=
  [ ("contacts", transform_contacts);
    ("toques_daily", transform_toques_daily);
    ("toques_heatmap", transform_heatmap);
    ("campaigns", transform_campaigns);
    ("daily_stats", transform_daily_stats) ].

(** [with engine.begin() as conn: body]: commit when the body returns,
    roll back and re-raise when it raises. *)
Definition engine_begin {A} (body : M A) : M A :=
  λ d, match body d with
       | (d', Ok a) => (d', Ok a)
       | (_, Err e) => (d, Err e)
       end.

(** [str(exc)[:200]]: the first 200 characters. *)
Definition truncate200 (msg : string) : string := take_points 200 msg.

(** One turn of the loop of [main]; [now entity] is the clock reading when
    the sync state of [entity] is written.  It returns the database and the
    entry of [results]. *)
Definition main_step (now : string → timestamp) (d : db)
    (t : string * M Z) : db * Z :=
  let '(entity, transform_fn) := t in
  match engine_begin
          (mbind transform_fn (λ count,
           mbind (update_sync_state (now entity) entity count "success") (λ _,
           mret count))) d with
  | (d', Ok count) => (d', count)
  | (d', Err exc) =>
      (* try: ... except Exception: pass *)
      let '(d'', _) :=
        engine_begin
          (update_sync_state (now entity) entity 0
             ("error: " +:+ truncate200 exc)) d' in
      (d'', -1)
  end.

(** The sync-state row written for an entity whose transform ended with
    [r]. *)
Definition sync_row_after (now : string → timestamp) (entity : string)
    (r : result Z) : sync_state_row :=
  {| ss_tenant_id := TENANT_ID;
     ss_entity := entity;
     ss_last_sync_at := now entity;
     ss_records_synced := match r with Ok count => count | Err _ => 0 end;
     ss_status := match r with
                  | Ok _ => "success"
                  | Err exc => "error: " +:+ truncate200 exc
                  end |}.

Fixpoint main_loop (now : string → timestamp) (ts : list (string * M Z))
    (d : db) (results : list (string * Z)) : db * list (string * Z) :=
  match ts with
  | [] => (d, results)
  | t :: ts' =>
      let '(d', count) := main_step now d t in
      main_loop now ts' d' (results ++ [(t.1, count)])
  end.

(** [main]: the database after the run and the exit status. *)
Definition main (now : string → timestamp) (d : db) : db * Z :=
  let '(d', results) := main_loop now TRANSFORMS d [] in
  let total_err := length (filter (λ e : string * Z, e.2 < 0) results) in
  (d', if decide (total_err = 0%nat) then 0 else 1).

(** A transform that leaves [public.sync_state] alone. *)
Definition keeps_sync_state (fn : M Z) : Prop :=
  ∀ d, sync_state (fn d).1 = sync_state d.

(** The normalized tables, without the raw landing tables and the sync
    state. *)
Definition normalized (d : db) :=
  (contacts d, toques_daily d, toques_heatmap d, campaigns d, daily_stats d).

Definition raw_landing (d : db) :=
  (raw_contacts_api d, raw_push_stats d, raw_campaigns_api d).


(** The database when the loop of [main] reaches the [i]-th transform. *)
Definition run_prefix (now : string → timestamp) (i : nat) (d : db) : db :=
  (main_loop now (take i TRANSFORMS) d []).1.
End Pipeline.

(** ** Extractors: the pagination loop

    The three paginated endpoints ([/v1/chat/contacts] in [ChatExtractor]
    and [ContactsExtractor], [/v1/campaign] in [CampaignsExtractor]) run the
    same loop; they differ in the path and in the cursor parameter. *)

Definition MAX_PAGES : nat := 50.

(** [min(cfg.EXTRACTION_MAX_RECORDS, 100)] *)
Definition page_size_of (EXTRACTION_MAX_RECORDS : Z) : Z :=
  Z.min EXTRACTION_MAX_RECORDS 100.

Inductive cursor :=
| Offset (offset : Z)     (* limit + offset, [ChatExtractor] *)
| Page (page_num : nat).  (* limit + page, 0-indexed *)

Inductive pagination := ByOffset | ByPage.

Record request := {
  rq_path : string;
  rq_application_id : string;
  rq_limit : Z;
  rq_cursor : cursor;
}.

(** What [self.client.get] does: it raises, or returns the parsed document
    ([JNull] is Python's [None]). *)
Inductive response :=
| Raised (exc : string)
| Returned (data : json).

Inductive event :=
| EvCall (rq : request) (resp : response)
| EvStored (row : raw_row).

(** Python truth value and [len] of a parsed JSON value. *)
Fixpoint num_is_zero (lit : string) : bool :=
  match lit with
  | EmptyString => true
  | String c rest =>
      if bool_decide (c = "e"%char ∨ c = "E"%char) then true
      else if bool_decide (c ∈ ["1"; "2"; "3"; "4"; "5"; "6"; "7"; "8"; "9"]%char)
           then false
           else num_is_zero rest
  end.

Definition py_truthy (v : json) : bool :=
  match v with
  | JNull => false
  | JBool b => b
  | JNum lit => negb (num_is_zero lit)
  | JStr s => negb (bool_decide (s = EmptyString))
  | JArr items => negb (bool_decide (items = []))
  | JObj fields => negb (bool_decide (fields = []))
  end.

(** [v is None] *)
Definition is_None (v : json) : bool :=
  match v with
  | JNull => true
  | _ => false
  end.

(** [len(v)]; a [TypeError] on numbers and booleans. *)
Definition py_len (v : json) : option Z :=
  match v with
  | JStr s => Some (Z.of_nat (String.length s))
  | JArr items => Some (Z.of_nat (length items))
  | JObj fields => Some (Z.of_nat (length fields))
  | _ => None
  end.

(** [data.get("data", []) if isinstance(data, dict) else data] *)
Definition page_items (data : json) : json :=
  match data with
  | JObj fields => default (JArr []) (assoc "data" fields)
  | _ => data
  end.

(** The parameters of the request for one page. *)
Definition page_request (style : pagination) (path app_id : string)
    (page_size : Z) (page_num : nat) (offset : Z) : request :=
  {| rq_path := path;
     rq_application_id := app_id;
     rq_limit := page_size;
     rq_cursor := match style with
                  | ByOffset => Offset offset
                  | ByPage => Page page_num
                  end |}.

(** A page as the endpoints return it. *)
Definition page_of (items : list json) : json := JObj [("data", JArr items)].

(** A trace in which every call but the last is followed at once by the
    store of the document it returned. *)
Inductive paged : list event → Prop :=
| paged_nil : paged []
| paged_stop rq resp : paged [EvCall rq resp]
| paged_store rq data row tr :
    rr_source_data row = data → paged tr →
    paged (EvCall rq (Returned data) :: EvStored row :: tr).



Section Extractor.
(** The API client with whatever state the remote service keeps. *)
Variable client : Type.
Variable client_get : client → request → response * client.

(** The extractor's tenant and the clock read by the landing store. *)
Variable tenant : option string.
Variable landed_at : nat → timestamp.

Record extractor := {
  ex_client : client;
  ex_raw : list raw_row;      (* the raw landing table of the channel *)
  ex_trace : list event;      (* calls and stores, oldest first *)
}.

(** Modelled from the spec: [BaseExtractor._store_raw] is in
    [base_extractor.py], which is not among the sources.  Per the spec each
    page is appended verbatim as one RawSnapshot tagged with endpoint,
    tenant, application and ingestion time; nothing already stored is
    touched. *)
Definition store_raw (page_num : nat) (app_id path : string) (data : json)
    (e : extractor) : extractor :=
  let row := {| rr_tenant_id := tenant;
                rr_application_id := Some app_id;
                rr_endpoint := path;
                rr_loaded_at := landed_at page_num;
                rr_source_data := data |} in
  {| ex_client := ex_client e;
     ex_raw := ex_raw e ++ [row];
     ex_trace := ex_trace e ++ [EvStored row] |}.

Definition call (rq : request) (e : extractor) : response * extractor :=
  let '(resp, c) := client_get (ex_client e) rq in
  (resp, {| ex_client := c; ex_raw := ex_raw e;
            ex_trace := ex_trace e ++ [EvCall rq resp] |}).

(** [for page_num in range(MAX_PAGES): try: ... except Exception: break],
    from [page_num] on with [fuel] iterations left. *)
Fixpoint page_loop (style : pagination) (path app_id : string)
    (page_size : Z) (fuel page_num : nat) (offset : Z) (e : extractor)
  : extractor :=
  match fuel with
  | O => e
  | S fuel' =>
      match call (page_request style path app_id page_size page_num offset) e with
      | (Raised _, e1) => e1                            (* except: break *)
      | (Returned data, e1) =>
          let items := page_items data in
          if is_None data then e1                       (* data is None *)
          else if negb (py_truthy items) then e1        (* not items *)
          else
            let e2 := store_raw page_num app_id path data e1 in
            match py_len items with
            | None => e2                     (* TypeError, except: break *)
            | Some n =>
                if n <? page_size then e2               (* last page *)
                else page_loop style path app_id page_size fuel'
                       (S page_num) (offset + page_size) e2
            end
      end
  end.

Definition chat_contacts_loop (app_id : string) (max_records : Z)
    (e : extractor) : extractor :=
  page_loop ByOffset "/v1/chat/contacts" app_id (page_size_of max_records)
    MAX_PAGES 0 0 e.

Definition contacts_loop (app_id : string) (max_records : Z)
    (e : extractor) : extractor :=
  page_loop ByPage "/v1/chat/contacts" app_id (page_size_of max_records)
    MAX_PAGES 0 0 e.

Definition campaigns_loop (app_id : string) (max_records : Z)
    (e : extractor) : extractor :=
  page_loop ByPage "/v1/campaign" app_id (page_size_of max_records)
    MAX_PAGES 0 0 e.

(** Counting in a trace. *)
Definition calls (tr : list event) : list (request * response) :=
  omap (λ ev, match ev with EvCall rq resp => Some (rq, resp) | _ => None end) tr.

Definition stored (tr : list event) : list raw_row :=
  omap (λ ev, match ev with EvStored row => Some row | _ => None end) tr.

End Extractor.

(** A simulated endpoint: it answers the calls with the responses of a
    script, in order, and raises when the script is over. *)
Definition scripted (script : list response) (rq : request)
  : response * list response :=
  match script with
  | [] => (Raised "connection refused", [])
  | r :: script' => (r, script')
  end.

(** ** A reference backend

    A concrete [Backend] to run the pipeline on examples: the integer and
    date input of PostgreSQL (a date is the number [yyyymmdd], which orders
    days as the calendar does), binary64 floats for Python's arithmetic,
    and a plain [jsonb] printer. *)

Module Reference.

Definition digit_of (c : ascii) : option Z :=
  let n := Z.of_nat (nat_of_ascii c) in
  if (48 <=? n) && (n <=? 57) then Some (n - 48) else None.

Fixpoint digits_from (acc : Z) (s : string) : option Z :=
  match s with
  | EmptyString => Some acc
  | String c rest =>
      match digit_of c with
      | Some d => digits_from (10 * acc + d) rest
      | None => None
      end
  end.

Definition natural (s : string) : option Z :=
  match s with
  | EmptyString => None
  | _ => digits_from 0 s
  end.

Definition integer (s : string) : option Z :=
  match s with
  | String "-" rest => Z.opp <$> natural rest
  | _ => natural s
  end.

(** The messages are PostgreSQL's primary messages.  The text of the
    exception that SQLAlchemy raises wraps them in text of the driver, which
    the sources do not fix; nothing below depends on the text. *)
Definition quoted (s : string) : string :=
  String (ascii_of_nat 34) s +:+ String (ascii_of_nat 34) EmptyString.

(** A signed integer of [bits] bits. *)
Definition cast_integer (type_name : string) (bits : Z) (s : string)
  : result Z :=
  match integer s with
  | Some z =>
      if (- 2 ^ (bits - 1) <=? z) && (z <? 2 ^ (bits - 1)) then Ok z
      else Err ("value " +:+ quoted s +:+ " is out of range for type "
                +:+ type_name)
  | None =>
      Err ("invalid input syntax for type " +:+ type_name +:+ ": " +:+ quoted s)
  end.

Definition cast_int : string → result Z := cast_integer "integer" 32.
Definition cast_smallint : string → result Z := cast_integer "smallint" 16.

(** *** Dates

    The session runs in time zone UTC on the day [session_today].  Accepted
    are the ISO forms [YYYY-MM-DD] and
    [YYYY-MM-DD(T| )HH:MM[:SS[.fff]][Z|(+|-)HH[:MM]]] and the special words
    of PostgreSQL, in lower case and without surrounding blanks; the other
    notations PostgreSQL reads are not used in the examples. *)

Definition session_today : Z * Z * Z := (2024, 3, 15).

Definition leap (y : Z) : bool :=
  (y mod 4 =? 0) && (negb (y mod 100 =? 0) || (y mod 400 =? 0)).

Definition days_in (y m : Z) : Z :=
  if m =? 2 then (if leap y then 29 else 28)
  else if (m =? 4) || (m =? 6) || (m =? 9) || (m =? 11) then 30
  else 31.

Definition valid_date (ymd : Z * Z * Z) : bool :=
  let '(y, m, d) := ymd in
  (1 <=? y) && (1 <=? m) && (m <=? 12) && (1 <=? d) && (d <=? days_in y m).

Definition next_day (ymd : Z * Z * Z) : Z * Z * Z :=
  let '(y, m, d) := ymd in
  if d <? days_in y m then (y, m, d + 1)
  else if m <? 12 then (y, m + 1, 1)
  else (y + 1, 1, 1).

Definition prev_day (ymd : Z * Z * Z) : Z * Z * Z :=
  let '(y, m, d) := ymd in
  if 1 <? d then (y, m, d - 1)
  else if 1 <? m then (y, m - 1, days_in y (m - 1))
  else (y - 1, 12, 31).

(** A date is the number [yyyymmdd], which orders days as the calendar
    does. *)
Definition day_number (ymd : Z * Z * Z) : date :=
  let '(y, m, d) := ymd in y * 10000 + m * 100 + d.

Definition special_day (s : string) : option (Z * Z * Z) :=
  if decide (s = "today") then Some session_today
  else if decide (s = "now") then Some session_today
  else if decide (s = "tomorrow") then Some (next_day session_today)
  else if decide (s = "yesterday") then Some (prev_day session_today)
  else if decide (s = "epoch") then Some (1970, 1, 1)
  else if decide (s = "infinity") then Some (9999, 12, 31)
  else if decide (s = "-infinity") then Some (1, 1, 1)
  else None.

(** [YYYY-MM-DD] at the head of [s], not checked against the calendar. *)
Definition iso_day (s : string) : option (Z * Z * Z) :=
  match natural (String.substring 0 4 s), natural (String.substring 5 2 s),
        natural (String.substring 8 2 s) with
  | Some y, Some m, Some d =>
      if bool_decide (String.substring 4 1 s = "-" ∧ String.substring 7 1 s = "-"
                      ∧ (10 ≤ String.length s)%nat)
      then Some (y, m, d)
      else None
  | _, _, _ => None
  end.

Fixpoint all_digits (s : string) : bool :=
  match s with
  | EmptyString => true
  | String c rest => bool_decide (is_Some (digit_of c)) && all_digits rest
  end.

(** The zone at the end of a timestamp, in minutes east of UTC: nothing (the
    session's zone), [Z], [(+|-)HH] or [(+|-)HH:MM]. *)
Definition iso_zone (s : string) : option Z :=
  match s with
  | EmptyString => Some 0
  | String c rest =>
      if bool_decide (c = "Z"%char ∧ rest = EmptyString) then Some 0
      else
        let sign := if bool_decide (c = "+"%char) then Some 1
                    else if bool_decide (c = "-"%char) then Some (-1)
                    else None in
        let hm := if bool_decide (String.length rest = 2%nat)
                  then natural rest ≫= λ h, Some (h, 0)
                  else if bool_decide (String.length rest = 5%nat
                                       ∧ String.substring 2 1 rest = ":")
                  then h ← natural (String.substring 0 2 rest);
                       m ← natural (String.substring 3 2 rest);
                       Some (h, m)
                  else None in
        sg ← sign; '(h, m) ← hm;
        if (h <=? 15) && (m <=? 59) then Some (sg * (h * 60 + m)) else None
  end.

(** The seconds after [HH:MM], with a fraction or without: [:SS] or
    [:SS.fff]; what follows them is the zone. *)
Definition iso_seconds (s : string) : option string :=
  match s with
  | String ":" rest =>
      match natural (String.substring 0 2 rest) with
      | Some sec =>
          if bool_decide ((2 ≤ String.length rest)%nat ∧ sec ≤ 59)
          then
            let after := String.substring 2 (String.length rest - 2) rest in
            match after with
            | String "." frac =>
                (fix go (fuel : nat) (t : string) {struct fuel} : option string :=
                   match fuel, t with
                   | S fuel', String c t' =>
                       if bool_decide (is_Some (digit_of c)) then go fuel' t'
                       else Some t
                   | _, _ => Some t
                   end) (String.length frac) frac
            | _ => Some after
            end
          else None
      | None => None
      end
  | _ => Some s
  end.

(** The time of day in minutes and the zone, from what follows the day. *)
Definition iso_time (s : string) : option (Z * Z) :=
  match s with
  | EmptyString => Some (0, 0)
  | String c rest =>
      if bool_decide (c = "T"%char ∨ c = " "%char)
      then
        h ← natural (String.substring 0 2 rest);
        m ← natural (String.substring 3 2 rest);
        if bool_decide ((5 ≤ String.length rest)%nat
                        ∧ String.substring 2 1 rest = ":"
                        ∧ h ≤ 23 ∧ m ≤ 59)
        then
          zone_text ← iso_seconds
                        (String.substring 5 (String.length rest - 5) rest);
          zone ← iso_zone zone_text;
          Some (h * 60 + m, zone)
        else None
      else None
  end.

(** A timestamp with its day shifted to UTC. *)
Definition parse_day (type_name : string) (s : string) (shift : bool)
  : result date :=
  match special_day s with
  | Some ymd => Ok (day_number ymd)
  | None =>
      match iso_day s with
      | Some ymd =>
          match iso_time (String.substring 10 (String.length s - 10) s) with
          | Some (minutes, zone) =>
              if valid_date ymd
              then
                let utc := minutes - zone in
                Ok (day_number
                      (if shift && (utc <? 0) then prev_day ymd
                       else if shift && (1440 <=? utc) then next_day ymd
                       else ymd))
              else Err ("date/time field value out of range: " +:+ quoted s)
          | None =>
              Err ("invalid input syntax for type " +:+ type_name +:+ ": " +:+ quoted s)
          end
      | None =>
          Err ("invalid input syntax for type " +:+ type_name +:+ ": " +:+ quoted s)
      end
  end.

(** [::date]: the day as written. *)
Definition cast_date (s : string) : result date := parse_day "date" s false.

(** [::timestamptz::date]: the day in the session's zone. *)
Definition cast_tsdate (s : string) : result date :=
  parse_day "timestamp with time zone" s true.

Definition round_with (tie : Z → Z) (x : Q) (ndigits : Z) : Q :=
  let scale := inject_Z (10 ^ ndigits) in
  let y := Qmult x scale in
  let f := Qfloor y in
  let r := match Qcompare (Qmult (Qminus y (inject_Z f)) (inject_Z 2)) (inject_Z 1) with
           | Lt => f
           | Gt => f + 1
           | Eq => tie f
           end in
  Qred (Qdiv (inject_Z r) scale).

(** PostgreSQL's [numeric] rounds a tie away from zero. *)
Definition round_half_away : Q → Z → Q :=
  round_with (λ f, if 0 <=? f then f + 1 else f).

(** An unsigned decimal literal [ddd] or [ddd.ddd]. *)
Fixpoint decimal_from (int_part : string) (s : string) : option Q :=
  match s with
  | EmptyString => inject_Z <$> natural int_part
  | String c rest =>
      if bool_decide (c = "."%char)
      then match natural int_part, natural rest with
           | Some i, Some f =>
               Some (Qplus (inject_Z i)
                       (Qdiv (inject_Z f)
                          (inject_Z (10 ^ Z.of_nat (String.length rest)))))
           | _, _ => None
           end
      else decimal_from (int_part +:+ String c EmptyString) rest
  end.

Definition cast_numeric (s : string) : result Q :=
  let r := match s with
           | String "-" rest => Qopp <$> decimal_from EmptyString rest
           | _ => decimal_from EmptyString s
           end in
  match r with
  | Some q => Ok q
  | None => Err ("invalid input syntax for type numeric: " +:+ quoted s)
  end.

(** [float(Decimal)]: the float nearest to the decimal. *)
Definition heat_ctr (s : string) : result Q :=
  x ←r cast_numeric s;
  Ok (binary64 (round_half_away (Qmult x (inject_Z 100)) 2)).

Definition quote : string := String (ascii_of_nat 34) EmptyString.

Fixpoint jsonb_out (j : json) : string :=
  match j with
  | JNull => "null"
  | JBool true => "true"
  | JBool false => "false"
  | JNum lit => lit
  | JStr s => quote +:+ s +:+ quote
  | JArr items =>
      "[" +:+
      (fix go (l : list json) : string :=
         match l with
         | [] => EmptyString
         | [x] => jsonb_out x
         | x :: l' => jsonb_out x +:+ ", " +:+ go l'
         end) items +:+ "]"
  | JObj fields =>
      "{" +:+
      (fix go (l : list (string * json)) : string :=
         match l with
         | [] => EmptyString
         | [(k, v)] => quote +:+ k +:+ quote +:+ ": " +:+ jsonb_out v
         | (k, v) :: l' =>
             quote +:+ k +:+ quote +:+ ": " +:+ jsonb_out v +:+ ", " +:+ go l'
         end) fields +:+ "}"
  end.

Definition backend : Backend :=
  Build_Backend jsonb_out cast_int cast_smallint cast_date cast_tsdate
    Q id inject_Z
    (λ a b, binary64 (Qdiv (inject_Z a) (inject_Z b)))
    (λ x k, binary64 (Qmult x (inject_Z k)))
    py_round heat_ctr
    (λ _, eq_refl) (λ _ _ _, eq_refl) (λ _ _, eq_refl) (λ _ _ _, eq_refl).

End Reference.

(** ** Example databases *)

Module Example.

Definition B : Backend := Reference.backend.

Definition snapshot (endpoint : string) (loaded : timestamp) (data : json)
  : raw_row :=
  {| rr_tenant_id := Some "visionamos";
     rr_application_id := Some "100274";
     rr_endpoint := endpoint;
     rr_loaded_at := loaded;
     rr_source_data := JObj [("data", data)] |}.

Definition contact (name updated : string) : json :=
  JObj [("contactId", JStr "573054821614");
        ("profileName", JStr name);
        ("createdAt", JStr "2024-01-05T10:00:00Z");
        ("updatedAt", JStr updated)].

(** "Gise" loaded at 1, "Gisela" loaded at 2, the same [updatedAt]. *)
Definition gise_then_gisela : list raw_row :=
  [ snapshot "/v1/chat/contacts" 1 (JArr [contact "Gise" "2024-03-01T08:00:00Z"]);
    snapshot "/v1/chat/contacts" 2 (JArr [contact "Gisela" "2024-03-01T09:30:00Z"]) ].

(** "Gise" loaded at 1 with the later [updatedAt], "Gisela" loaded at 2. *)
Definition gise_updated_later : list raw_row :=
  [ snapshot "/v1/chat/contacts" 1 (JArr [contact "Gise" "2024-03-02T08:00:00Z"]);
    snapshot "/v1/chat/contacts" 2 (JArr [contact "Gisela" "2024-03-01T09:30:00Z"]) ].

Definition date_stat (day : string) (sent success received clicked : string)
  : json :=
  JObj [("platformGroup", JStr "android");
        ("statsDate", JStr day);
        ("numDevicesSent", JNum sent);
        ("numDevicesSuccess", JNum success);
        ("numDevicesReceived", JNum received);
        ("numDevicesClicked", JNum clicked)].

Definition heatmap (monday_9 : string) (extra : list (string * json)) : json :=
  JObj [("weekday-hour",
         JObj (("monday", JObj [("9", JNum monday_9)]) :: extra))].

Definition push_stats : list raw_row :=
  [ snapshot "/v1/application/100274/dateStats" 1
      (JArr [date_stat "2024-03-01" "200" "180" "90" "12";
             date_stat "2024-03-02" "0" "0" "0" "0"]);
    snapshot "/v1/application/100274/dateStats" 2
      (JArr [date_stat "2024-03-01" "240" "200" "100" "15"]);
    snapshot "/v1/application/100274/pushHeatmap" 1
      (heatmap "0.0125" [("sunday", JObj [("23", JNum "0.5")])]);
    snapshot "/v1/application/100274/pushHeatmap" 2 (heatmap "0.034" []) ].

Definition campaign (sent : json) : json :=
  JObj [("id", JNum "41"); ("name", JStr "Bienvenida"); ("status", JStr "sent");
        ("sent", sent); ("delivered", JNum "90"); ("clicked", JNum "9");
        ("opened", JNum "30"); ("converted", JNum "3")].

Definition campaigns_good : list raw_row :=
  [ snapshot "/v1/campaign" 1 (JArr [campaign (JNum "100")]) ].

(** [n] copies of [s]. *)
Fixpoint copies (n : nat) (s : string) : string :=
  match n with
  | O => EmptyString
  | S n' => s +:+ copies n' s
  end.

(** A remark of 220 characters, which take 242 bytes. *)
Definition long_note : string := copies 11 "sin envíos todavía; ".

(** A campaign whose [sent] is not a number but a remark: the cast to [int]
    fails, with a message of 261 characters. *)
Definition campaigns_bad : list raw_row :=
  [ snapshot "/v1/campaign" 1 (JArr [campaign (JStr long_note)]) ].

Definition campaign_named (id name : string) : json :=
  JObj [("id", JNum id); ("name", JStr name); ("status", JStr "draft");
        ("sent", JNum "60"); ("delivered", JNum "50"); ("clicked", JNum "6")].

(** Two campaigns, the second with a name of 300 characters, more than its
    [VARCHAR(255)] column takes. *)
Definition campaigns_long_name : list raw_row :=
  [ snapshot "/v1/campaign" 1
      (JArr [campaign (JNum "100");
             campaign_named "42" (copies 15 "sin envíos todavía; ")]) ].

Definition former_sync : list sync_state_row :=
  [ {| ss_tenant_id := "visionamos"; ss_entity := "campaigns";
       ss_last_sync_at := 5; ss_records_synced := 7; ss_status := "success" |} ].

Definition fresh (contacts_raw push_raw campaigns_raw : list raw_row)
    (sync : list sync_state_row) : @db B :=
  {| raw_contacts_api := contacts_raw;
     raw_push_stats := push_raw;
     raw_campaigns_api := campaigns_raw;
     contacts := []; toques_daily := []; toques_heatmap := [];
     campaigns := []; daily_stats := [];
     sync_state := sync |}.

Definition db_good : @db B :=
  fresh gise_then_gisela push_stats campaigns_good [].

Definition db_bad : @db B :=
  fresh gise_then_gisela push_stats campaigns_bad former_sync.

Definition db_refused : @db B :=
  fresh gise_then_gisela push_stats campaigns_long_name former_sync.

(** Heatmap snapshots of which the newest has no cells but an empty list. *)
Definition heatmap_newest_empty : list raw_row :=
  [ snapshot "/v1/application/100274/pushHeatmap" 1 (heatmap "0.0125" []);
    snapshot "/v1/application/100274/pushHeatmap" 2 (JArr []) ].

Definition db_heat_empty : @db B :=
  fresh [] heatmap_newest_empty [] [].

Definition clock (entity : string) : timestamp := 1000.

(** A heatmap table holding the two cells of the older snapshot of
    [push_stats]. *)
(** Columns: tenant, canal, dia_semana, hora, enviados, clicks, abiertos,
    conversiones, ctr, dia_orden. *)
Definition heatmap_before : list (@heatmap_row B) :=
  [ @Build_heatmap_row B "visionamos" "push" "monday" 9 0 0 0 0 (Qmake 5 4) 1;
    @Build_heatmap_row B "visionamos" "push" "sunday" 23 0 0 0 0 (Qmake 50 1) 7 ].

Definition db_heat : @db B :=
  set_toques_heatmap heatmap_before db_good.

(** A row with nothing sent, and one whose counters are negative. *)
Definition nothing_sent : toques_flat :=
  {| tf_tenant_id := "visionamos"; tf_proyecto_cuenta := "100274";
     tf_canal := "android"; tf_date := 20240302;
     tf_enviados := 0; tf_entregados := 0; tf_abiertos := 0; tf_clicks := 0;
     tf_loaded_at := 1 |}.



Definition no_campaign_sent : campaign_flat :=
  {| kf_tenant_id := "visionamos"; kf_campana_id := "41";
     kf_campana_nombre := "Bienvenida"; kf_canal := "push";
     kf_proyecto_cuenta := "100274"; kf_tipo_campana := None;
     kf_total_enviados := 0; kf_total_entregados := 0; kf_total_clicks := 0;
     kf_fecha_inicio := None; kf_fecha_fin := None;
     kf_total_abiertos := 0; kf_total_rebotes := 0; kf_total_bloqueados := 0;
     kf_total_spam := 0; kf_total_desuscritos := 0; kf_total_conversiones := 0;
     kf_loaded_at := 1 |}.

(** Tables that already hold the key of [gise_then_gisela], of
    [nothing_sent] and of [no_campaign_sent]. *)
Definition contacts_before : list contact_row :=
  [ {| c_tenant_id := "visionamos"; c_contact_id := "573054821614";
       c_contact_name := Some "Gisela"; c_total_messages := 0;
       c_first_contact := Some 20240105; c_last_contact := Some 20240301;
       c_total_conversations := 0 |} ].

Definition many_sent : toques_flat :=
  {| tf_tenant_id := "visionamos"; tf_proyecto_cuenta := "100274";
     tf_canal := "android"; tf_date := 20240302;
     tf_enviados := 240; tf_entregados := 200; tf_abiertos := 100;
     tf_clicks := 15; tf_loaded_at := 1 |}.

Definition toques_before : list (@toques_daily_row B) :=
  [ @toques_insert B (@toques_params_of B many_sent) ].

Definition campaign_sent : campaign_flat :=
  {| kf_tenant_id := "visionamos"; kf_campana_id := "41";
     kf_campana_nombre := "Bienvenida"; kf_canal := "push";
     kf_proyecto_cuenta := "100274"; kf_tipo_campana := Some "sent";
     kf_total_enviados := 100; kf_total_entregados := 90; kf_total_clicks := 9;
     kf_fecha_inicio := None; kf_fecha_fin := None;
     kf_total_abiertos := 30; kf_total_rebotes := 0; kf_total_bloqueados := 0;
     kf_total_spam := 0; kf_total_desuscritos := 0; kf_total_conversiones := 3;
     kf_loaded_at := 1 |}.

Definition campaigns_before : list (@campaign_row B) :=
  [ @campaigns_insert B (@campaigns_params_of B campaign_sent) ].

Definition contact_update : contact_flat :=
  {| cf_tenant_id := "visionamos"; cf_contact_id := "573054821614";
     cf_contact_name := Some "Gisela M."; cf_first_contact := Some 20231224;
     cf_last_contact := Some 20240215; cf_loaded_at := 9 |}.

(** An endpoint that returns pages of 50, 50 and 23 contacts. *)
Definition items (n : nat) : list json :=
  repeat (JObj [("contactId", JStr "573054821614")]) n.

Definition three_pages : list response :=
  [ Returned (page_of (items 50)); Returned (page_of (items 50));
    Returned (page_of (items 23)) ].

Definition extractor_on (script : list response) : extractor (list response) :=
  {| ex_client := script; ex_raw := []; ex_trace := [] |}.

Definition landed (page_num : nat) : timestamp := 1000 + Z.of_nat page_num.

End Example.

(** * More of the pipeline *)

(** ** Bounds on nullable days *)

(** [new] is a day, and not a later one, whenever [old] is a day. *)
Definition not_after (new old : option Z) : Prop :=
  ∀ a, old = Some a → ∃ b, new = Some b ∧ b ≤ a.

(** [new] is a day, and not an earlier one, whenever [old] is a day. *)
Definition not_before (new old : option Z) : Prop :=
  ∀ a, old = Some a → ∃ b, new = Some b ∧ a ≤ b.

(** ** Extractors: the whole of [_extract_for_app]

    Besides the pagination loop the extractors make single calls: the agent
    status of [ChatExtractor] and [ContactsExtractor], the campaign stats of
    [CampaignsExtractor], and the endpoint lists of [PushExtractor],
    [SMSExtractor], [EmailExtractor] and [InAppExtractor]. *)

(** A value of the [params] dict. *)
Inductive param :=
| PStr (s : string)
| PInt (n : Z).

(** The arguments of [self.client.get(path, params=..., application_id=...)];
    the [params] dict in its insertion order. *)
Record api_call := {
  ac_path : string;
  ac_params : list (string * param);
  ac_application_id : string;
}.

(** The call that the pagination loop makes for a [request]. *)
Definition call_of_request (rq : request) : api_call :=
  {| ac_path := rq_path rq;
     ac_params :=
       [ ("applicationId", PStr (rq_application_id rq));
         ("limit", PInt (rq_limit rq));
         match rq_cursor rq with
         | Offset offset => ("offset", PInt offset)
         | Page page_num => ("page", PInt (Z.of_nat page_num))
         end ];
     ac_application_id := rq_application_id rq |}.

Inductive api_event :=
| ApiCall (c : api_call) (resp : response)
| ApiStored (row : raw_row).

Definition api_event_of (ev : event) : api_event :=
  match ev with
  | EvCall rq resp => ApiCall (call_of_request rq) resp
  | EvStored row => ApiStored row
  end.

(** Counting in a log. *)
Definition api_calls (log : list api_event) : list (api_call * response) :=
  omap (λ ev, match ev with ApiCall c resp => Some (c, resp) | _ => None end) log.

Definition api_stored (log : list api_event) : list raw_row :=
  omap (λ ev, match ev with ApiStored row => Some row | _ => None end) log.

(** One entry of an [endpoints] list; the [name] is only printed. *)
Record endpoint := {
  ep_name : string;
  ep_path : string;
  ep_params : list (string * param);
}.

Section Channels.
(** The API client with whatever state the remote service keeps. *)
Variable client : Type.
Variable client_call : client → api_call → response * client.

(** The extractor's tenant, and the clock read by the landing store:
    [landed_at path n] when document [n] of [path] is stored. *)
Variable tenant : option string.
Variable landed_at : string → nat → timestamp.

(** [self.date_from] and [self.date_to] as day ordinals
    ([date.toordinal]), their strings, which the base class sets, and
    [date.isoformat]. *)
Variables date_from date_to : Z.
Variables date_from_str date_to_str : string.
Variable isoformat : Z → string.

(** [cfg.EXTRACTION_MAX_RECORDS] *)
Variable EXTRACTION_MAX_RECORDS : Z.

Record session := {
  se_client : client;
  se_raw : list raw_row;        (* the raw landing table of the channel *)
  se_log : list api_event;      (* calls and stores, oldest first *)
}.

Definition client_get (c : client) (rq : request) : response * client :=
  client_call c (call_of_request rq).

(** Entering and leaving a stretch of code that works on an [extractor]. *)
Definition as_extractor (s : session) : extractor client :=
  {| ex_client := se_client s; ex_raw := se_raw s; ex_trace := [] |}.

Definition resume (s : session) (e : extractor client) : session :=
  {| se_client := ex_client client e;
     se_raw := ex_raw client e;
     se_log := se_log s ++ (api_event_of <$> ex_trace client e) |}.

(** [try: data = self.client.get(path, params=params, application_id=app_id);
     if data is not None: self._store_raw(app_id, path, data)
     except Exception: (print)] *)
Definition fetch (app_id path : string) (params : list (string * param))
    (s : session) : session :=
  let c := {| ac_path := path; ac_params := params;
              ac_application_id := app_id |} in
  let '(resp, cl) := client_call (se_client s) c in
  let s1 := {| se_client := cl; se_raw := se_raw s;
               se_log := se_log s ++ [ApiCall c resp] |} in
  match resp with
  | Raised _ => s1
  | Returned data =>
      if is_None data then s1
      else resume s1 (store_raw client tenant (landed_at path) 0 app_id path
                        data (as_extractor s1))
  end.

(** What a single call lands: the document it returned, if any. *)
Definition fetched (app_id path : string) (resp : response) : list raw_row :=
  match resp with
  | Raised _ => []
  | Returned data =>
      if is_None data then []
      else [ {| rr_tenant_id := tenant;
                rr_application_id := Some app_id;
                rr_endpoint := path;
                rr_loaded_at := landed_at path 0;
                rr_source_data := data |} ]
  end.

Definition call_of_endpoint (app_id : string) (ep : endpoint) : api_call :=
  {| ac_path := ep_path ep; ac_params := ep_params ep;
     ac_application_id := app_id |}.

(** [for ep in endpoints: try: ... except Exception: ...] *)
Definition fetch_endpoints (app_id : string) (endpoints : list endpoint)
    (s : session) : session :=
  fold_left (λ s ep, fetch app_id (ep_path ep) (ep_params ep) s) endpoints s.

(** [ChatExtractor._extract_for_app] *)
Definition chat_extract_for_app (app_id : string) (s : session) : session :=
  let s1 := fetch app_id "/v1/chat/agent/status"
              [("applicationId", PStr app_id)] s in
  resume s1 (chat_contacts_loop client client_get tenant
               (landed_at "/v1/chat/contacts") app_id EXTRACTION_MAX_RECORDS
               (as_extractor s1)).

(** [ContactsExtractor._extract_for_app] *)
Definition contacts_extract_for_app (app_id : string) (s : session)
  : session :=
  let s1 := resume s (contacts_loop client client_get tenant
                        (landed_at "/v1/chat/contacts") app_id
                        EXTRACTION_MAX_RECORDS (as_extractor s)) in
  fetch app_id "/v1/chat/agent/status" [("applicationId", PStr app_id)] s1.

(** [CampaignsExtractor._extract_for_app]; the count printed after the
    stats are stored changes nothing, also when taking it raises. *)
Definition campaigns_extract_for_app (app_id : string) (s : session)
  : session :=
  let page_size := page_size_of EXTRACTION_MAX_RECORDS in
  let s1 := resume s (campaigns_loop client client_get tenant
                        (landed_at "/v1/campaign") app_id
                        EXTRACTION_MAX_RECORDS (as_extractor s)) in
  fetch app_id "/v1/campaign/stats"
    [ ("applicationId", PStr app_id);
      ("dateFrom", PStr date_from_str);
      ("dateTo", PStr date_to_str);
      ("limit", PInt page_size);
      ("page", PInt 0) ] s1.

(** [max(self.date_from, self.date_to - timedelta(days=7))] *)
Definition device_date_from : Z := Z.max date_from (date_to - 7).

Definition push_endpoints (app_id : string) : list endpoint :=
  [ {| ep_name := "dateStats (daily)";
       ep_path := "/v1/application/" +:+ app_id +:+ "/dateStats";
       ep_params := [ ("dateFrom", PStr date_from_str);
                      ("dateTo", PStr date_to_str);
                      ("periodicity", PStr "daily") ] |};
    {| ep_name := "pushHeatmap";
       ep_path := "/v1/application/" +:+ app_id +:+ "/pushHeatmap";
       ep_params := [ ("dateFrom", PStr date_from_str);
                      ("dateTo", PStr date_to_str) ] |};
    {| ep_name := "stats/device (7d)";
       ep_path := "/v1/application/" +:+ app_id +:+ "/stats/device";
       ep_params := [ ("dateFrom", PStr (isoformat device_date_from));
                      ("dateTo", PStr date_to_str) ] |};
    {| ep_name := "application/stats";
       ep_path := "/v1/application/stats";
       ep_params := [ ("applicationId", PStr app_id);
                      ("limit", PInt 50);
                      ("page", PInt 0) ] |} ].

(** [PushExtractor._extract_for_app] *)
Definition push_extract_for_app (app_id : string) : session → session :=
  fetch_endpoints app_id (push_endpoints app_id).

Definition stats_endpoint (name path app_id : string) : endpoint :=
  {| ep_name := name;
     ep_path := path;
     ep_params := [ ("applicationId", PStr app_id);
                    ("dateFrom", PStr date_from_str);
                    ("dateTo", PStr date_to_str) ] |}.

(** [SMSExtractor], [EmailExtractor] and [InAppExtractor]:
    [_extract_for_app] with its one endpoint. *)
Definition sms_extract_for_app (app_id : string) : session → session :=
  fetch_endpoints app_id [stats_endpoint "sms/stats" "/v1/sms/stats" app_id].

Definition email_extract_for_app (app_id : string) : session → session :=
  fetch_endpoints app_id
    [stats_endpoint "email/stats" "/v1/email/stats" app_id].

Definition inapp_extract_for_app (app_id : string) : session → session :=
  fetch_endpoints app_id
    [stats_endpoint "inApp/stats" "/v1/inApp/stats" app_id].
End Channels.

(** ** More examples *)

Module Scenario.

(** Rows left by earlier runs and by other jobs, with values in the columns
    the pipeline does not set. *)
Definition contacts_counted : list contact_row :=
  [ {| c_tenant_id := "visionamos"; c_contact_id := "573054821614";
       c_contact_name := Some "G."; c_total_messages := 12;
       c_first_contact := Some 20231224; c_last_contact := Some 20240215;
       c_total_conversations := 4 |} ].

(** Columns: tenant, date, canal, proyecto_cuenta, enviados, entregados,
    clicks, chunks, usuarios_unicos, abiertos, rebotes, bloqueados, spam,
    desuscritos, conversiones, ctr, tasa_entrega, open_rate,
    conversion_rate. *)
Definition toques_counted : list (@toques_daily_row Example.B) :=
  [ @Build_toques_daily_row Example.B "visionamos" 20240301 "android" "100274"
      100 90 7 3 77 40 1 2 0 4 5 (Qmake 7 1) (Qmake 90 1) (Qmake 400 9)
      (Qmake 5 1);
    @Build_toques_daily_row Example.B "visionamos" 20240301 "ios" "100274"
      60 50 6 0 0 20 0 0 0 0 0 (Qmake 10 1) (Qmake 250 3) (Qmake 40 1)
      (Qmake 0 1);
    @Build_toques_daily_row Example.B "otro" 20240301 "android" "9"
      1000 900 1 0 0 1 0 0 0 0 0 (Qmake 1 10) (Qmake 90 1) (Qmake 1 9)
      (Qmake 0 1) ].

(** Columns: tenant, canal, dia_semana, hora, enviados, clicks, abiertos,
    conversiones, ctr, dia_orden. *)
Definition heatmap_counted : list (@heatmap_row Example.B) :=
  [ @Build_heatmap_row Example.B "visionamos" "push" "monday" 9 10 2 5 1
      (Qmake 5 4) 1 ].

(** Columns: tenant, campana_id, nombre, canal, proyecto_cuenta,
    tipo_campana, enviados, entregados, clicks, chunks, fecha_inicio,
    fecha_fin, abiertos, rebotes, bloqueados, spam, desuscritos,
    conversiones, ctr, tasa_entrega, open_rate, conversion_rate. *)
Definition campaigns_counted : list (@campaign_row Example.B) :=
  [ @Build_campaign_row Example.B "visionamos" "41" "Bienvenida" "push"
      "100274" None 50 40 4 6 None None 10 0 0 0 0 1 (Qmake 8 1) (Qmake 80 1)
      (Qmake 25 1) (Qmake 25 1) ].

Definition daily_stats_counted : list daily_stat_row :=
  [ {| ds_tenant_id := "visionamos"; ds_date := 20240301;
       ds_total_messages := 5; ds_unique_contacts := 9;
       ds_conversations := 8; ds_fallback_count := 7 |};
    {| ds_tenant_id := "visionamos"; ds_date := 20230101;
       ds_total_messages := 11; ds_unique_contacts := 2;
       ds_conversations := 3; ds_fallback_count := 1 |} ].

(** [Example.db_good] with these tables. *)
Definition db_stored : @db Example.B :=
  set_contacts contacts_counted
    (set_toques_daily toques_counted
       (set_toques_heatmap heatmap_counted
          (set_campaigns campaigns_counted
             (set_daily_stats daily_stats_counted Example.db_good)))).




(** A simulated service: it answers the calls with the responses of a
    script, in order, and raises when the script is over. *)
Definition answers (script : list response) (c : api_call)
  : response * list response :=
  match script with
  | [] => (Raised "connection refused", [])
  | r :: script' => (r, script')
  end.

Definition session_on (script : list response) : session (list response) :=
  {| se_client := script; se_raw := []; se_log := [] |}.

Definition landed (path : string) (n : nat) : timestamp := 1000 + Z.of_nat n.

(** Days printed by their ordinal; the format plays no role. *)
Fixpoint decimal (fuel : nat) (n : Z) (acc : string) : string :=
  match fuel with
  | O => acc
  | S fuel' =>
      let acc' := String (ascii_of_nat (48 + Z.to_nat (n mod 10))) acc in
      if n / 10 =? 0 then acc' else decimal fuel' (n / 10) acc'
  end.

Definition isoformat (day : Z) : string := "day " +:+ decimal 20 day EmptyString.

(** The first endpoint raises, the second returns [None], the third and the
    fourth return a document. *)
Definition push_script : list response :=
  [ Raised "timeout"; Returned JNull;
    Returned (JObj [("data", JArr [])]);
    Returned (JObj [("data", JObj [("campaigns", JNum "3")])]) ].

(** A page of two contacts, then the agent status. *)
Definition contacts_script : list response :=
  [ Returned (page_of (Example.items 2));
    Returned (JObj [("data", JObj [("activeAgents", JNum "4")])]) ].

End Scenario.


(** * Facts *)

(** ** Tables with a unique key *)

Section UpsertFacts.
Context {P R K : Type} `{EqDecision K}.
Variable keyP : P → K.
Variable keyR : R → K.
Variable ins : P → R.
Variable upd : R → P → R.

Local Abbreviation upsert := (upsert keyP keyR ins upd).
Local Abbreviation upsert_all := (upsert_all keyP keyR ins upd).
Local Abbreviation row_of := (row_of keyR).
Local Abbreviation cell := (cell ins upd).
Local Abbreviation cell_all := (cell_all keyP ins upd).
Local Abbreviation keys := (keys keyR).

Hypothesis key_ins : ∀ p, keyR (ins p) = keyP p.
Hypothesis key_upd : ∀ r p, keyR (upd r p) = keyR r.

Lemma row_of_upsert k p t :
  row_of k (upsert p t) =
    if decide (keyP p = k) then Some (cell p (row_of k t)) else row_of k t.
Proof using key_ins key_upd.
  induction t as [|r t IH]; simpl.
  - rewrite key_ins. by case_decide.
  - destruct (decide (keyR r = keyP p)) as [E|NE]; simpl.
    + rewrite key_upd.
      destruct (decide (keyP p = k)) as [<-|NK].
      * by rewrite !decide_True.
      * rewrite !decide_False; congruence.
    + rewrite IH.
      destruct (decide (keyR r = k)) as [E|NK]; [|done].
      rewrite decide_False; [done|congruence].
Qed.

Lemma row_of_upsert_all k rows t :
  row_of k (upsert_all rows t) = cell_all k rows (row_of k t).
Proof using key_ins key_upd.
  revert t. induction rows as [|p rows IH]; intros t; [done|].
  cbn. rewrite <- row_of_upsert. apply (IH (upsert p t)).
Qed.

Lemma row_of_Some k t r : row_of k t = Some r → r ∈ t ∧ keyR r = k.
Proof.
  induction t as [|r' t IH]; simpl; [done|].
  case_decide.
  - intros [= ->]. split; [left|done].
  - intros Hr. destruct (IH Hr). split; [by right|done].
Qed.

Lemma row_of_None k t : row_of k t = None ↔ k ∉ keys t.
Proof.
  induction t as [|r t IH]; simpl.
  - split; [intros _; apply not_elem_of_nil|done].
  - rewrite not_elem_of_cons. case_decide; split; try done.
    + intros [? _]. congruence.
    + intros Hn. split; [congruence|by apply IH].
    + intros [_ ?]. by apply IH.
Qed.

Lemma row_of_is_Some k t : is_Some (row_of k t) ↔ k ∈ keys t.
Proof.
  rewrite <- not_eq_None_Some, row_of_None.
  destruct (decide (k ∈ keys t)); split; tauto.
Qed.

Lemma row_of_elem t r :
  NoDup (keys t) → r ∈ t → row_of (keyR r) t = Some r.
Proof.
  induction t as [|r' t IH]; simpl.
  - intros _ Hin. by apply elem_of_nil in Hin.
  - intros [Hn Hnd]%NoDup_cons [->|Hin]%elem_of_cons.
    + by rewrite decide_True.
    + rewrite decide_False; [by apply IH|].
      intros E. apply Hn. rewrite E. by apply list_elem_of_fmap_2.
Qed.

(** The statement keeps every key at its place and adds at most its own,
    at the end. *)
Lemma keys_upsert p t :
  keys (upsert p t) =
    if decide (keyP p ∈ keys t) then keys t else keys t ++ [keyP p].
Proof using key_ins key_upd.
  induction t as [|r t IH].
  - rewrite decide_False by apply not_elem_of_nil.
    cbn. by rewrite key_ins.
  - cbn [upsert]. destruct (decide (keyR r = keyP p)) as [E|NE].
    + rewrite decide_True by (cbn; rewrite E; left).
      cbn. by rewrite key_upd.
    + change (keys (r :: upsert p t)) with (keyR r :: keys (upsert p t)).
      rewrite IH.
      destruct (decide (keyP p ∈ keys t)) as [Hin|Hin].
      * rewrite decide_True; [done|by right].
      * rewrite decide_False; [done|].
        intros [?|?]%elem_of_cons; [congruence|done].
Qed.

Lemma upsert_NoDup p t : NoDup (keys t) → NoDup (keys (upsert p t)).
Proof using key_ins key_upd.
  intros Hnd. rewrite keys_upsert.
  destruct (decide (keyP p ∈ keys t)) as [Hin|Hin]; [done|].
  apply NoDup_app. split_and!; [done| |apply NoDup_singleton].
  intros k Hk ->%list_elem_of_singleton. done.
Qed.

Lemma upsert_all_NoDup rows t :
  NoDup (keys t) → NoDup (keys (upsert_all rows t)).
Proof using key_ins key_upd.
  revert t. induction rows as [|p rows IH]; intros t Hnd; [done|].
  apply (IH (upsert p t)), upsert_NoDup, Hnd.
Qed.

Lemma upsert_length p t :
  length (upsert p t) =
    if decide (keyP p ∈ keys t) then length t else S (length t).
Proof using key_ins key_upd.
  rewrite <- (length_fmap keyR (upsert p t)).
  fold (keys (upsert p t)). rewrite keys_upsert.
  destruct (decide (keyP p ∈ keys t)); unfold keys;
    rewrite ?length_app, !length_fmap; simpl; lia.
Qed.





(** Statements on other keys leave a cell alone. *)
Lemma cell_all_other k rows o :
  (∀ p, p ∈ rows → keyP p ≠ k) → cell_all k rows o = o.
Proof.
  revert o. induction rows as [|p rows IH]; intros o Hall; [done|].
  simpl. rewrite decide_False by (apply Hall; left).
  apply IH. intros q Hq. apply Hall. by right.
Qed.

(** Running the same statements again changes nothing, provided a later
    statement on a key makes an earlier one on that key irrelevant. *)
Section Rerun.
Variable rows : list P.
Hypothesis absorb : ∀ p q o,
  p ∈ rows → q ∈ rows → keyP p = keyP q →
  cell q (Some (cell p o)) = cell q o.




End Rerun.

(** Under a unique key, the rows of a key are the one row found there. *)
Lemma filter_key_unique k t r :
  NoDup (keys t) → row_of k t = Some r →
  filter (λ x, keyR x = k) t = [r].
Proof.
  induction t as [|x t IH]; [done|].
  intros [Hn Hnd]%NoDup_cons. cbn [row_of]. rewrite filter_cons.
  destruct (decide (keyR x = k)) as [E|NE].
  - intros [= ->]. f_equal.
    assert (row_of k t = None) as Hnone by (apply row_of_None; by rewrite <- E).
    clear -Hnone. induction t as [|y t IH]; [done|].
    cbn in Hnone. rewrite filter_cons.
    destruct (decide (keyR y = k)); [done|by apply IH].
  - by apply IH.
Qed.

End UpsertFacts.

(** ** Rank-and-filter deduplication *)

Section DedupFacts.
Context {A K : Type} `{EqDecision K}.
Variable key : A → K.
Variable before : A → A → bool.

Local Abbreviation pick := (pick before).
Local Abbreviation first_ranked := (first_ranked before).
Local Abbreviation partition_of := (partition_of key).
Local Abbreviation dedup := (dedup key before).

Lemma fold_pick_elem l c : fold_left pick l c = c ∨ fold_left pick l c ∈ l.
Proof.
  revert c. induction l as [|r l IH]; intros c; [by left|].
  simpl. destruct (IH (pick c r)) as [E|Hin].
  - rewrite E. unfold pick. destruct (before r c); [right; left|by left].
  - right. by right.
Qed.

Lemma first_ranked_elem l m : first_ranked l = Some m → m ∈ l.
Proof.
  destruct l as [|x l]; [done|]. intros [= <-].
  destruct (fold_pick_elem l x) as [->|Hin]; [left|by right].
Qed.

Lemma first_ranked_is_Some l : l ≠ [] → is_Some (first_ranked l).
Proof. destruct l; [done|]. by eexists. Qed.

Lemma dedup_elem rows m :
  m ∈ dedup rows → m ∈ rows ∧ first_ranked (partition_of (key m) rows) = Some m.
Proof.
  unfold dedup. rewrite list_elem_of_omap. intros (k & _ & Hk).
  pose proof (first_ranked_elem _ _ Hk) as Hin.
  apply list_elem_of_filter in Hin as [<- Hin]. done.
Qed.

Lemma dedup_key_NoDup rows : NoDup (key <$> dedup rows).
Proof.
  unfold dedup.
  assert (NoDup (remove_dups (key <$> rows))) as Hnd
    by apply NoDup_remove_dups.
  induction Hnd as [|k ks Hk Hnd IH]; simpl; [constructor|].
  destruct (first_ranked (partition_of k rows)) as [m|] eqn:Em; [|done].
  simpl. apply NoDup_cons. split; [|done].
  apply first_ranked_elem, list_elem_of_filter in Em as [-> _].
  intros (m' & E & Hm')%list_elem_of_fmap.
  apply list_elem_of_omap in Hm' as (k' & Hk' & Em').
  apply first_ranked_elem, list_elem_of_filter in Em' as [<- _].
  apply Hk. by rewrite E.
Qed.

(** Every key of the input keeps a row. *)
Lemma dedup_complete rows r :
  r ∈ rows → ∃ m, m ∈ dedup rows ∧ key m = key r.
Proof.
  intros Hr.
  destruct (first_ranked_is_Some (partition_of (key r) rows)) as [m Em].
  { intros E. assert (r ∈ partition_of (key r) rows) as Hin
      by by apply list_elem_of_filter.
    rewrite E in Hin. by apply elem_of_nil in Hin. }
  exists m. split.
  - unfold dedup. apply list_elem_of_omap. exists (key r). split; [|done].
    apply elem_of_remove_dups. by apply list_elem_of_fmap_2.
  - by apply first_ranked_elem, list_elem_of_filter in Em as [-> _].
Qed.


(** Two rows of one key: the second is kept when it sorts strictly before
    the first. *)
Lemma dedup_pair a b :
  key a = key b → dedup [a; b] = [pick a b].
Proof.
  intros E. unfold dedup, partition_of. cbn. rewrite E.
  destruct (decide_rel elem_of (key b) [key b]) as [_|Hn];
    [|exfalso; apply Hn; left].
  destruct (decide_rel elem_of (key b) []) as [H|_];
    [by apply elem_of_nil in H|].
  cbn. by destruct (decide (key b = key b)).
Qed.

Section Ranked.
(** [ORDER BY] sorts by a total preorder. *)
Hypothesis before_irrefl : ∀ x, before x x = false.
Hypothesis before_trans : ∀ x y z,
  before x y = true → before y z = true → before x z = true.
Hypothesis before_ntrans : ∀ x y z,
  before x y = false → before y z = false → before x z = false.

Lemma fold_pick_first l c x :
  x = c ∨ x ∈ l → before x (fold_left pick l c) = false.
Proof using before_irrefl before_trans before_ntrans.
  revert c x. induction l as [|r l IH]; intros c x Hx.
  - destruct Hx as [->|Hx]; [apply before_irrefl|].
    by apply elem_of_nil in Hx.
  - simpl.
    assert (before r (fold_left pick l (pick c r)) = false) as Hr.
    { unfold pick. destruct (before r c) eqn:Erc.
      - apply IH. by left.
      - apply before_ntrans with c; [done|]. apply IH. by left. }
    assert (before c (fold_left pick l (pick c r)) = false) as Hc.
    { unfold pick in *. destruct (before r c) eqn:Erc.
      - destruct (before c (fold_left pick l r)) eqn:Ec; [|done].
        pose proof (before_trans _ _ _ Erc Ec) as Ht.
        fold pick in Hr. congruence.
      - apply IH. by left. }
    destruct Hx as [->|[->|Hx]%elem_of_cons]; [done..|].
    apply IH. by right.
Qed.

(** The kept row sorts first in its partition: no row of the same key
    sorts strictly before it. *)
Lemma dedup_first rows m x :
  m ∈ dedup rows → x ∈ rows → key x = key m → before x m = false.
Proof using before_irrefl before_trans before_ntrans.
  intros [_ Em]%dedup_elem Hx Hk.
  assert (x ∈ partition_of (key m) rows) as Hin
    by by apply list_elem_of_filter.
  destruct (partition_of (key m) rows) as [|c l]; [done|].
  injection Em as <-. apply fold_pick_first.
  apply elem_of_cons in Hin as [?|?]; [by left|by right].
Qed.
End Ranked.

(** [ORDER BY f DESC] for an integer column [f]. *)
Lemma dedup_first_desc (f : A → Z) rows m x :
  (∀ a b, before a b = (f b <? f a)) →
  m ∈ dedup rows → x ∈ rows → key x = key m → f x ≤ f m.
Proof.
  intros Hb Hm Hx Hk. apply Z.ltb_ge. rewrite <- Hb.
  apply (dedup_first) with rows; try done.
  - intros a. rewrite Hb. apply Z.ltb_irrefl.
  - intros a b c. rewrite !Hb, !Z.ltb_lt. lia.
  - intros a b c. rewrite !Hb, !Z.ltb_ge. lia.
Qed.

Lemma dedup_keeps (first : A → A → Prop) rows :
  (∀ m r, m ∈ dedup rows → r ∈ rows → key r = key m → first m r) →
  keeps_first_ranked key first rows (dedup rows).
Proof.
  intros Hfirst. split_and!.
  - apply dedup_key_NoDup.
  - apply dedup_complete.
  - intros m r Hm Hr Hk. split; [by apply dedup_elem in Hm as [? _]|].
    by apply Hfirst.
Qed.
End DedupFacts.

(** ** Queries that may raise *)

Lemma rflat_map_elem {A C} (f : A → result (list C)) l rows c :
  rflat_map f l = Ok rows → c ∈ rows →
  ∃ a cs, a ∈ l ∧ f a = Ok cs ∧ c ∈ cs.
Proof.
  revert rows. induction l as [|a l IH]; intros rows; cbn.
  - intros [= <-] Hc. by apply elem_of_nil in Hc.
  - destruct (f a) as [cs|e] eqn:Ea; cbn; [|done].
    destruct (rflat_map f l) as [rest|e] eqn:El; cbn; [|done].
    intros [= <-] [Hc|Hc]%elem_of_app.
    + exists a, cs. split_and!; [left|done..].
    + destruct (IH rest eq_refl Hc) as (a' & cs' & Ha' & Hf & Hc').
      exists a', cs'. split_and!; [by right|done..].
Qed.

(** ** Floats *)













(** ** Statements on a connection *)

Section PipelineFacts.
Context `{B : Backend}.

Lemma for_each_execute {A} (f : A → db → db) (l : list A) (d : db) :
  for_each (λ a, execute (f a)) l d = (fold_left (λ d a, f a d) l d, Ok tt).
Proof.
  revert d. induction l as [|a l IH]; intros d; [done|].
  cbn. unfold mbind, execute at 1. apply IH.
Qed.

(** The guard of a ratio never lets the division raise. *)
Lemma ratio_Ok n d : ratio n d = Ok (ratio_value n d).
Proof.
  unfold ratio, ratio_value, py_truediv.
  destruct (0 <? d) eqn:Hd; [|done].
  apply Z.ltb_lt in Hd.
  destruct (d =? 0) eqn:Hz; [apply Z.eqb_eq in Hz; lia|done].
Qed.

Lemma toques_daily_params_Ok r :
  toques_daily_params r = Ok (toques_params_of r).
Proof. unfold toques_daily_params. by rewrite !ratio_Ok. Qed.

Lemma campaigns_params_Ok r :
  campaigns_params r = Ok (campaigns_params_of r).
Proof. unfold campaigns_params. by rewrite !ratio_Ok. Qed.

Lemma fold_set_toques_heatmap
    (f : heatmap_flat → list heatmap_row → list heatmap_row) rows d :
  fold_left (λ d r, set_toques_heatmap (f r (toques_heatmap d)) d) rows d
  = set_toques_heatmap (fold_left (λ t r, f r t) rows (toques_heatmap d)) d.
Proof.
  revert d. induction rows as [|r rows IH]; intros d; [by destruct d|].
  cbn. by rewrite IH.
Qed.

Lemma fold_set_daily_stats
    (f : daily_stat_row → list daily_stat_row → list daily_stat_row) rows d :
  fold_left (λ d r, set_daily_stats (f r (daily_stats d)) d) rows d
  = set_daily_stats (fold_left (λ t r, f r t) rows (daily_stats d)) d.
Proof.
  revert d. induction rows as [|r rows IH]; intros d; [by destruct d|].
  cbn. by rewrite IH.
Qed.

(** A loop of statements on one table. *)
Lemma for_each_statement {P R} (get : db → list R) (set : list R → db → db)
    (bind : P → result P) (write : P → list R → list R) rows d :
  (∀ t d, get (set t d) = t) →
  (∀ t t' d, set t (set t' d) = set t d) →
  (∀ d, set (get d) d = d) →
  for_each (statement bind (λ p d, set (write p (get d)) d)) rows d
  = (set (write_each bind write rows (get d)).1 d,
     (write_each bind write rows (get d)).2).
Proof.
  intros Hget Hset Hid. revert d.
  induction rows as [|p rows IH]; intros d; [cbn; by rewrite Hid|].
  cbn [for_each write_each]. unfold mbind at 1, statement at 1.
  unfold mbind at 1, lift, execute.
  destruct (bind p) as [bound|e]; cbn; [|by rewrite Hid].
  rewrite IH, Hget, Hset. done.
Qed.

Lemma mbind_ext {A C} (m : M A) (k1 k2 : A → M C) d :
  (∀ a d', k1 a d' = k2 a d') → mbind m k1 d = mbind m k2 d.
Proof. intros Hk. unfold mbind. by destruct (m d) as [d' [a|e]]. Qed.

Lemma for_each_lift {A P} (g : A → result P) (g' : A → P)
    (body : P → M unit) (l : list A) (d : db) :
  (∀ a, g a = Ok (g' a)) →
  for_each (λ a, mbind (lift (g a)) body) l d = for_each body (g' <$> l) d.
Proof.
  intros Hg. revert d. induction l as [|a l IH]; intros d; [done|].
  cbn [for_each fmap list_fmap]. rewrite (Hg a).
  transitivity (mbind (body (g' a))
                  (λ _, for_each (λ a, mbind (lift (g a)) body) l) d);
    [done|].
  apply mbind_ext. intros _ d'. apply IH.
Qed.

(** The loop either binds every row and writes them all, or stops at the
    first row whose parameters are refused, having written the rows before
    it. *)
Lemma write_each_Ok {P R} (bind : P → result P) (write : P → list R → list R)
    rows bound t :
  rmapM bind rows = Ok bound →
  write_each bind write rows t = (fold_left (λ t p, write p t) bound t, Ok tt).
Proof.
  revert bound t. induction rows as [|p rows IH]; intros bound t; cbn.
  - by intros [= <-].
  - destruct (bind p) as [b|]; cbn; [|done].
    destruct (rmapM bind rows) as [bs|] eqn:E; cbn; [|done].
    intros [= <-]. cbn. by apply IH.
Qed.

Lemma write_each_Err {P R} (bind : P → result P)
    (write : P → list R → list R) rows e t :
  rmapM bind rows = Err e →
  ∃ done p rest bound,
    rows = done ++ p :: rest ∧ rmapM bind done = Ok bound ∧ bind p = Err e
    ∧ write_each bind write rows t
      = (fold_left (λ t p, write p t) bound t, Err e).
Proof.
  revert t. induction rows as [|p rows IH]; intros t; cbn; [done|].
  destruct (bind p) as [b|e'] eqn:Ep; cbn.
  - destruct (rmapM bind rows) as [bs|e'] eqn:E; cbn; [done|].
    intros [= ->].
    destruct (IH (write b t) eq_refl) as (done & q & rest & bound & -> & Hd & Hq & Hw).
    exists (p :: done), q, rest, (b :: bound).
    split_and!; [done| |done|by rewrite Hw]. cbn. by rewrite Ep, Hd.
  - intros [= ->]. by exists [], p, rows, [].
Qed.

Lemma write_each_result {P R} (bind : P → result P)
    (write : P → list R → list R) rows t :
  (write_each bind write rows t).2
  = match rmapM bind rows with Ok _ => Ok tt | Err e => Err e end.
Proof.
  destruct (rmapM bind rows) as [bound|e] eqn:E.
  - by rewrite (write_each_Ok _ _ _ _ _ E).
  - destruct (write_each_Err _ write _ _ t E) as (? & ? & ? & ? & _ & _ & _ & ->).
    done.
Qed.













(** Each transform raises in its query, before any write, or at the first
    statement whose parameters are refused, or applies its upserts and
    returns their number. *)
Lemma transform_contacts_run d :
  transform_contacts d =
    match CONTACTS_SQL TENANT_ID d with
    | Ok rows =>
        let r := write_each contacts_bind CONTACTS_UPSERT rows (contacts d) in
        (set_contacts r.1 d,
         match r.2 with
         | Ok _ => Ok (Z.of_nat (length rows))
         | Err e => Err e
         end)
    | Err e => (d, Err e)
    end.
Proof.
  unfold transform_contacts, mbind at 1, query.
  destruct (CONTACTS_SQL TENANT_ID d) as [rows|e]; [|done].
  unfold mbind, mret.
  rewrite (for_each_statement contacts set_contacts);
    [|done|done|by intros []].
  cbn zeta. by destruct (write_each _ _ _ _) as [t [[]|e]].
Qed.

Lemma transform_toques_daily_run d :
  transform_toques_daily d =
    match TOQUES_DAILY_SQL TENANT_ID APP_ID d with
    | Ok rows =>
        let r := write_each toques_bind TOQUES_DAILY_UPSERT
                   (toques_params_of <$> rows) (toques_daily d) in
        (set_toques_daily r.1 d,
         match r.2 with
         | Ok _ => Ok (Z.of_nat (length rows))
         | Err e => Err e
         end)
    | Err e => (d, Err e)
    end.
Proof.
  unfold transform_toques_daily, mbind at 1, query.
  destruct (TOQUES_DAILY_SQL TENANT_ID APP_ID d) as [rows|e]; [|done].
  unfold mbind at 1, mret.
  rewrite (for_each_lift _ toques_params_of) by apply toques_daily_params_Ok.
  rewrite (for_each_statement toques_daily set_toques_daily);
    [|done|done|by intros []].
  cbn zeta. by destruct (write_each _ _ _ _) as [t [[]|e]].
Qed.

Lemma transform_heatmap_run d :
  transform_heatmap d =
    match HEATMAP_SQL TENANT_ID d with
    | Ok rows =>
        (set_toques_heatmap (toques_heatmap_after d) d,
         Ok (Z.of_nat (length rows)))
    | Err e => (d, Err e)
    end.
Proof.
  unfold transform_heatmap, toques_heatmap_after, mbind at 1, query.
  destruct (HEATMAP_SQL TENANT_ID d) as [rows|e]; [|done].
  unfold mbind, mret. rewrite for_each_execute.
  unfold HEATMAP_UPSERT. by rewrite fold_set_toques_heatmap.
Qed.

Lemma transform_campaigns_run d :
  transform_campaigns d =
    match CAMPAIGNS_SQL TENANT_ID APP_ID d with
    | Ok rows =>
        let r := write_each campaigns_bind CAMPAIGNS_UPSERT
                   (campaigns_params_of <$> rows) (campaigns d) in
        (set_campaigns r.1 d,
         match r.2 with
         | Ok _ => Ok (Z.of_nat (length rows))
         | Err e => Err e
         end)
    | Err e => (d, Err e)
    end.
Proof.
  unfold transform_campaigns, mbind at 1, query.
  destruct (CAMPAIGNS_SQL TENANT_ID APP_ID d) as [rows|e]; [|done].
  unfold mbind at 1, mret.
  rewrite (for_each_lift _ campaigns_params_of) by apply campaigns_params_Ok.
  rewrite (for_each_statement campaigns set_campaigns);
    [|done|done|by intros []].
  cbn zeta. by destruct (write_each _ _ _ _) as [t [[]|e]].
Qed.

(** What a transform that returned has written, and what the transaction
    of [main] leaves of a transform that raised. *)
Lemma contacts_after_cases d :
  contacts_after d = contacts d
  ∨ ∃ rows bound,
      CONTACTS_SQL TENANT_ID d = Ok rows
      ∧ rmapM contacts_bind rows = Ok bound
      ∧ contacts_after d
        = upsert_all contacts_key_flat contacts_key contacts_insert
            contacts_update bound (contacts d).
Proof.
  unfold contacts_after.
  destruct (CONTACTS_SQL TENANT_ID d) as [rows|]; cbn; [|by left].
  destruct (rmapM contacts_bind rows) as [bound|] eqn:E; cbn; [|by left].
  right. by exists rows, bound.
Qed.

Lemma toques_daily_after_cases d :
  toques_daily_after d = toques_daily d
  ∨ ∃ rows bound,
      TOQUES_DAILY_SQL TENANT_ID APP_ID d = Ok rows
      ∧ rmapM toques_bind (toques_params_of <$> rows) = Ok bound
      ∧ toques_daily_after d
        = upsert_all toques_key_params toques_key toques_insert
            toques_update bound (toques_daily d).
Proof.
  unfold toques_daily_after.
  destruct (TOQUES_DAILY_SQL TENANT_ID APP_ID d) as [rows|]; cbn; [|by left].
  destruct (rmapM toques_bind _) as [bound|] eqn:E; cbn; [|by left].
  right. by exists rows, bound.
Qed.

Lemma campaigns_after_cases d :
  campaigns_after d = campaigns d
  ∨ ∃ rows bound,
      CAMPAIGNS_SQL TENANT_ID APP_ID d = Ok rows
      ∧ rmapM campaigns_bind (campaigns_params_of <$> rows) = Ok bound
      ∧ campaigns_after d
        = upsert_all campaigns_key_params campaigns_key campaigns_insert
            campaigns_update bound (campaigns d).
Proof.
  unfold campaigns_after.
  destruct (CAMPAIGNS_SQL TENANT_ID APP_ID d) as [rows|]; cbn; [|by left].
  destruct (rmapM campaigns_bind _) as [bound|] eqn:E; cbn; [|by left].
  right. by exists rows, bound.
Qed.

(** A transform that returned has left what its transaction commits. *)
Lemma transform_contacts_Ok d n :
  (transform_contacts d).2 = Ok n →
  (transform_contacts d).1 = set_contacts (contacts_after d) d
  ∧ ∃ rows bound, CONTACTS_SQL TENANT_ID d = Ok rows
      ∧ rmapM contacts_bind rows = Ok bound
      ∧ n = Z.of_nat (length rows)
      ∧ contacts_after d
        = upsert_all contacts_key_flat contacts_key contacts_insert
            contacts_update bound (contacts d).
Proof.
  rewrite transform_contacts_run. unfold contacts_after.
  destruct (CONTACTS_SQL TENANT_ID d) as [rows|]; cbn; [|done].
  rewrite write_each_result.
  destruct (rmapM contacts_bind rows) as [bound|] eqn:E; cbn; [|done].
  intros [= <-]. rewrite (write_each_Ok _ _ _ _ _ E). cbn.
  split; [done|]. by exists rows, bound.
Qed.

Lemma transform_toques_daily_Ok d n :
  (transform_toques_daily d).2 = Ok n →
  (transform_toques_daily d).1 = set_toques_daily (toques_daily_after d) d
  ∧ ∃ rows bound, TOQUES_DAILY_SQL TENANT_ID APP_ID d = Ok rows
      ∧ rmapM toques_bind (toques_params_of <$> rows) = Ok bound
      ∧ n = Z.of_nat (length rows)
      ∧ toques_daily_after d
        = upsert_all toques_key_params toques_key toques_insert
            toques_update bound (toques_daily d).
Proof.
  rewrite transform_toques_daily_run. unfold toques_daily_after.
  destruct (TOQUES_DAILY_SQL TENANT_ID APP_ID d) as [rows|]; cbn; [|done].
  rewrite write_each_result.
  destruct (rmapM toques_bind _) as [bound|] eqn:E; cbn; [|done].
  intros [= <-]. rewrite (write_each_Ok _ _ _ _ _ E). cbn.
  split; [done|]. by exists rows, bound.
Qed.

Lemma transform_campaigns_Ok d n :
  (transform_campaigns d).2 = Ok n →
  (transform_campaigns d).1 = set_campaigns (campaigns_after d) d
  ∧ ∃ rows bound, CAMPAIGNS_SQL TENANT_ID APP_ID d = Ok rows
      ∧ rmapM campaigns_bind (campaigns_params_of <$> rows) = Ok bound
      ∧ n = Z.of_nat (length rows)
      ∧ campaigns_after d
        = upsert_all campaigns_key_params campaigns_key campaigns_insert
            campaigns_update bound (campaigns d).
Proof.
  rewrite transform_campaigns_run. unfold campaigns_after.
  destruct (CAMPAIGNS_SQL TENANT_ID APP_ID d) as [rows|]; cbn; [|done].
  rewrite write_each_result.
  destruct (rmapM campaigns_bind _) as [bound|] eqn:E; cbn; [|done].
  intros [= <-]. rewrite (write_each_Ok _ _ _ _ _ E). cbn.
  split; [done|]. by exists rows, bound.
Qed.

(** A transform that raised: the tables its transaction rolls back to are
    those of [X_after]. *)
Lemma transform_contacts_Err d e :
  (transform_contacts d).2 = Err e → contacts_after d = contacts d.
Proof.
  rewrite transform_contacts_run. unfold contacts_after.
  destruct (CONTACTS_SQL TENANT_ID d) as [rows|]; cbn; [|done].
  rewrite write_each_result.
  by destruct (rmapM contacts_bind rows).
Qed.

Lemma transform_toques_daily_Err d e :
  (transform_toques_daily d).2 = Err e → toques_daily_after d = toques_daily d.
Proof.
  rewrite transform_toques_daily_run. unfold toques_daily_after.
  destruct (TOQUES_DAILY_SQL TENANT_ID APP_ID d) as [rows|]; cbn; [|done].
  rewrite write_each_result.
  by destruct (rmapM toques_bind _).
Qed.

Lemma transform_campaigns_Err d e :
  (transform_campaigns d).2 = Err e → campaigns_after d = campaigns d.
Proof.
  rewrite transform_campaigns_run. unfold campaigns_after.
  destruct (CAMPAIGNS_SQL TENANT_ID APP_ID d) as [rows|]; cbn; [|done].
  rewrite write_each_result.
  by destruct (rmapM campaigns_bind _).
Qed.





(** Whatever it does, a transform writes its own table only. *)
Lemma transform_contacts_frame d :
  ∃ t, (transform_contacts d).1 = set_contacts t d.
Proof.
  rewrite transform_contacts_run.
  destruct (CONTACTS_SQL TENANT_ID d); cbn; [by eexists|].
  exists (contacts d). by destruct d.
Qed.

Lemma transform_toques_daily_frame d :
  ∃ t, (transform_toques_daily d).1 = set_toques_daily t d.
Proof.
  rewrite transform_toques_daily_run.
  destruct (TOQUES_DAILY_SQL TENANT_ID APP_ID d); cbn; [by eexists|].
  exists (toques_daily d). by destruct d.
Qed.

Lemma transform_campaigns_frame d :
  ∃ t, (transform_campaigns d).1 = set_campaigns t d.
Proof.
  rewrite transform_campaigns_run.
  destruct (CAMPAIGNS_SQL TENANT_ID APP_ID d); cbn; [by eexists|].
  exists (campaigns d). by destruct d.
Qed.

Lemma transform_daily_stats_run d :
  transform_daily_stats d =
    match DAILY_STATS_SQL TENANT_ID d with
    | Ok rows =>
        (set_daily_stats (daily_stats_after d) d, Ok (Z.of_nat (length rows)))
    | Err e => (d, Err e)
    end.
Proof.
  unfold transform_daily_stats, daily_stats_after, mbind at 1, query.
  destruct (DAILY_STATS_SQL TENANT_ID d) as [rows|e]; [|done].
  unfold mbind, mret. rewrite for_each_execute.
  unfold DAILY_STATS_UPSERT. by rewrite fold_set_daily_stats.
Qed.

(** ** The loop of [main] *)

(** One turn: the writes of a transform that raises are dropped, and in
    both cases the sync-state row of the entity is upserted. *)
Lemma main_step_run now d entity (fn : M Z) :
  main_step now d (entity, fn) =
    match fn d with
    | (d', Ok count) =>
        (set_sync_state
           (sync_upsert (sync_row_after now entity (Ok count)) (sync_state d'))
           d', count)
    | (_, Err exc) =>
        (set_sync_state
           (sync_upsert (sync_row_after now entity (Err exc)) (sync_state d))
           d, -1)
    end.
Proof.
  unfold main_step, engine_begin, mbind, update_sync_state, execute, mret.
  destruct (fn d) as [d' [count|exc]]; done.
Qed.

Lemma main_loop_results now ts d res res' :
  (main_loop now ts d res).1 = (main_loop now ts d res').1.
Proof.
  revert d res res'. induction ts as [|t ts IH]; intros d res res'; [done|].
  cbn. destruct (main_step now d t) as [d' count]. apply IH.
Qed.

Lemma main_loop_cons now t ts d res :
  (main_loop now (t :: ts) d res).1
  = (main_loop now ts (main_step now d t).1 []).1.
Proof.
  cbn. destruct (main_step now d t) as [d' count]. apply main_loop_results.
Qed.

Lemma main_loop_app now ts1 ts2 d :
  (main_loop now (ts1 ++ ts2) d []).1
  = (main_loop now ts2 (main_loop now ts1 d []).1 []).1.
Proof.
  revert d. induction ts1 as [|t ts1 IH]; intros d; [done|].
  rewrite <- app_comm_cons, !main_loop_cons. apply IH.
Qed.

Lemma main_db now d : (main now d).1 = (main_loop now TRANSFORMS d []).1.
Proof. unfold main. by destruct (main_loop now TRANSFORMS d []). Qed.

Lemma sync_key_ins (p : sync_state_row) : sync_key (id p) = sync_key p.
Proof. done. Qed.

Lemma sync_key_upd r p : sync_key (sync_update r p) = sync_key r.
Proof. done. Qed.

(** An upsert into [sync_state] leaves under its key exactly the row it
    was given. *)
Lemma sync_upsert_row p t :
  row_of sync_key (sync_key p) (sync_upsert p t) = Some p.
Proof.
  unfold sync_upsert.
  rewrite (row_of_upsert _ _ _ _ sync_key_ins sync_key_upd).
  rewrite decide_True by done. f_equal.
  destruct (row_of sync_key (sync_key p) t) as [r|] eqn:Er; [|done].
  apply row_of_Some in Er as [_ Ek]. cbn.
  destruct p, r. unfold sync_key in Ek. cbn in *.
  injection Ek as -> ->. done.
Qed.

Lemma sync_upsert_other k p t :
  sync_key p ≠ k → row_of sync_key k (sync_upsert p t) = row_of sync_key k t.
Proof.
  intros Hk. unfold sync_upsert.
  rewrite (row_of_upsert _ _ _ _ sync_key_ins sync_key_upd).
  by rewrite decide_False.
Qed.

Lemma main_step_sync_state now d entity fn :
  keeps_sync_state fn →
  sync_state (main_step now d (entity, fn)).1
  = sync_upsert (sync_row_after now entity (fn d).2) (sync_state d).
Proof.
  intros Hk. rewrite main_step_run. specialize (Hk d).
  destruct (fn d) as [d' [count|exc]]; cbn in *; [by rewrite Hk|done].
Qed.

Lemma main_loop_sync_other now ts d k :
  (∀ t, t ∈ ts → keeps_sync_state t.2 ∧ (TENANT_ID, t.1) ≠ k) →
  row_of sync_key k (sync_state (main_loop now ts d []).1)
  = row_of sync_key k (sync_state d).
Proof.
  revert d. induction ts as [|[entity fn] ts IH]; intros d Hall; [done|].
  rewrite main_loop_cons, IH.
  - destruct (Hall (entity, fn)) as [Hk Hne]; [left|].
    rewrite main_step_sync_state by done.
    by apply sync_upsert_other.
  - intros t Ht. apply Hall. by right.
Qed.

(** After the loop every entity has the row of its own outcome, whatever
    happened to the others. *)
Lemma main_loop_sync_row now ts d i entity fn :
  NoDup ts.*1 →
  (∀ t, t ∈ ts → keeps_sync_state t.2) →
  ts !! i = Some (entity, fn) →
  row_of sync_key (TENANT_ID, entity) (sync_state (main_loop now ts d []).1)
  = Some (sync_row_after now entity
            (fn (main_loop now (take i ts) d []).1).2).
Proof.
  revert d i. induction ts as [|[e f] ts IH]; intros d i Hnd Hall Hi; [done|].
  apply NoDup_cons in Hnd as [Hne Hnd].
  rewrite main_loop_cons. destruct i as [|i]; cbn in Hi.
  - injection Hi as -> ->. rewrite main_loop_sync_other.
    + rewrite main_step_sync_state by (apply (Hall (entity, fn)); left).
      apply (sync_upsert_row (sync_row_after now entity (fn d).2)).
    + intros t Ht. split; [apply Hall; by right|].
      intros [= E]. apply Hne.
      pose proof (list_elem_of_fmap_2 fst _ _ Ht) as Hin.
      by rewrite E in Hin.
  - rewrite (IH _ i); [|done|intros t Ht; apply Hall; by right|done].
    cbn [take]. by rewrite main_loop_cons.
Qed.

Lemma transforms_keep_sync_state t :
  t ∈ TRANSFORMS → keeps_sync_state t.2.
Proof.
  unfold TRANSFORMS. rewrite !elem_of_cons, elem_of_nil.
  intros [->|[->|[->|[->|[->|[]]]]]] d; cbn [snd].
  - rewrite transform_contacts_run. by destruct (CONTACTS_SQL _ _).
  - rewrite transform_toques_daily_run. by destruct (TOQUES_DAILY_SQL _ _ _).
  - rewrite transform_heatmap_run. by destruct (HEATMAP_SQL _ _).
  - rewrite transform_campaigns_run. by destruct (CAMPAIGNS_SQL _ _ _).
  - rewrite transform_daily_stats_run. by destruct (DAILY_STATS_SQL _ _).
Qed.

Lemma transforms_names_NoDup : NoDup TRANSFORMS.*1.
Proof. apply (bool_decide_unpack _). by vm_compute. Qed.

Lemma run_prefix_S now d i t :
  TRANSFORMS !! i = Some t →
  run_prefix now (S i) d = (main_step now (run_prefix now i d) t).1.
Proof.
  intros Hi. unfold run_prefix.
  rewrite (take_S_r _ _ _ Hi), main_loop_app. apply main_loop_cons.
Qed.

Lemma main_sync_row now d i entity fn :
  TRANSFORMS !! i = Some (entity, fn) →
  row_of sync_key (TENANT_ID, entity) (sync_state (main now d).1)
  = Some (sync_row_after now entity (fn (run_prefix now i d)).2).
Proof.
  intros Hi. rewrite main_db.
  apply main_loop_sync_row;
    [apply transforms_names_NoDup|apply transforms_keep_sync_state|done].
Qed.

Lemma sync_upsert_NoDup p t :
  NoDup (keys sync_key t) → NoDup (keys sync_key (sync_upsert p t)).
Proof. apply upsert_NoDup; done. Qed.

Lemma main_loop_sync_NoDup now ts d :
  (∀ t, t ∈ ts → keeps_sync_state t.2) →
  NoDup (keys sync_key (sync_state d)) →
  NoDup (keys sync_key (sync_state (main_loop now ts d []).1)).
Proof.
  revert d. induction ts as [|[entity fn] ts IH]; intros d Hall Hnd; [done|].
  rewrite main_loop_cons. apply IH; [intros t Ht; apply Hall; by right|].
  rewrite main_step_sync_state by (apply (Hall (entity, fn)); left).
  by apply sync_upsert_NoDup.
Qed.

(** [str(exc)[:200]] is the head of the message, 200 characters at most,
    and the whole message when it has no more. *)
Lemma points_take_from inside n s :
  points_from inside (take_from inside n s)
  = Nat.min n (points_from inside s).
Proof.
  revert inside n. induction s as [|c s IH]; intros inside n; cbn.
  - by rewrite Nat.min_0_r.
  - destruct (inside && is_continuation c) eqn:E; cbn; rewrite ?E.
    + apply IH.
    + destruct n as [|n]; cbn; [done|]. rewrite E. by rewrite IH.
Qed.

Lemma take_from_prefix inside n s :
  String.prefix (take_from inside n s) s = true.
Proof.
  revert inside n. induction s as [|c s IH]; intros inside n; cbn; [done|].
  destruct (inside && is_continuation c); cbn.
  - destruct (ascii_dec c c); [apply IH|done].
  - destruct n as [|n]; cbn; [done|].
    destruct (ascii_dec c c); [apply IH|done].
Qed.

Lemma take_from_all inside n s :
  (points_from inside s ≤ n)%nat → take_from inside n s = s.
Proof.
  revert inside n. induction s as [|c s IH]; intros inside n; cbn; [done|].
  destruct (inside && is_continuation c); cbn.
  - intros H. by rewrite IH.
  - destruct n as [|n]; [lia|]. intros H. rewrite IH; [done|lia].
Qed.

Lemma truncate200_spec exc :
  String.prefix (truncate200 exc) exc = true
  ∧ code_points (truncate200 exc) = Nat.min 200 (code_points exc)
  ∧ ((code_points exc ≤ 200)%nat → truncate200 exc = exc).
Proof.
  unfold truncate200, take_points, code_points. split_and!.
  - apply take_from_prefix.
  - apply points_take_from.
  - apply take_from_all.
Qed.

(** C3: when the transform of an entity raises, every write it made is
    dropped (for any transform function, whatever it had written before
    raising, the turn of the loop leaves the database as it was but for the
    sync-state row), the sync-state row of the entity records the error
    with the message cut to its first 200 characters (the whole message
    when it has no more) and no row count, and the run goes on: at the end
    of [main] each entity has the row of its own outcome, [success] with
    its count when its transform returned. *)
Theorem failure_isolation now d :
  (∀ exc,
     String.prefix (truncate200 exc) exc = true
     ∧ code_points (truncate200 exc) = Nat.min 200 (code_points exc)
     ∧ ((code_points exc ≤ 200)%nat → truncate200 exc = exc))
  ∧ (∀ entity (fn : M Z) d0 partial exc,
     fn d0 = (partial, Err exc) →
     main_step now d0 (entity, fn)
     = (set_sync_state
          (sync_upsert
             {| ss_tenant_id := TENANT_ID; ss_entity := entity;
                ss_last_sync_at := now entity; ss_records_synced := 0;
                ss_status := "error: " +:+ truncate200 exc |}
             (sync_state d0)) d0, -1))
  ∧ (∀ i entity fn,
       TRANSFORMS !! i = Some (entity, fn) →
       match fn (run_prefix now i d) with
       | (_, Ok count) =>
           row_of sync_key (TENANT_ID, entity) (sync_state (main now d).1)
           = Some {| ss_tenant_id := TENANT_ID; ss_entity := entity;
                     ss_last_sync_at := now entity; ss_records_synced := count;
                     ss_status := "success" |}
       | (_, Err exc) =>
           normalized (run_prefix now (S i) d) = normalized (run_prefix now i d)
           ∧ raw_landing (run_prefix now (S i) d)
             = raw_landing (run_prefix now i d)
           ∧ row_of sync_key (TENANT_ID, entity) (sync_state (main now d).1)
             = Some {| ss_tenant_id := TENANT_ID; ss_entity := entity;
                       ss_last_sync_at := now entity; ss_records_synced := 0;
                       ss_status := "error: " +:+ truncate200 exc |}
       end).
Proof.
  split_and!.
  - apply truncate200_spec.
  - intros entity fn d0 partial exc Hfn. by rewrite main_step_run, Hfn.
  - intros i entity fn Hi.
    pose proof (main_sync_row now d i entity fn Hi) as Hrow.
    pose proof (run_prefix_S now d i _ Hi) as HS.
    rewrite main_step_run in HS.
    destruct (fn (run_prefix now i d)) as [d' [count|exc]]; [done|].
    split_and!; [by rewrite HS..|done].
Qed.

(** C8: recording sync state always succeeds and is an upsert keyed by
    (tenant, entity): afterwards the key holds exactly the new timestamp,
    count and status, the row is appended when the key was absent and
    overwritten in place when it was present, every other row stays as it
    was, no key disappears, and keys that were unique stay unique, for one
    call as for a whole run of [main]. *)
Theorem sync_state_keyed_upsert now ts entity records status d :
  let t := sync_state d in
  let t' := sync_state (update_sync_state ts entity records status d).1 in
  (update_sync_state ts entity records status d).2 = Ok ()
  ∧ row_of sync_key (TENANT_ID, entity) t'
    = Some {| ss_tenant_id := TENANT_ID; ss_entity := entity;
              ss_last_sync_at := ts; ss_records_synced := records;
              ss_status := status |}
  ∧ (∀ k, k ≠ (TENANT_ID, entity) → row_of sync_key k t' = row_of sync_key k t)
  ∧ keys sync_key t'
    = (if decide ((TENANT_ID, entity) ∈ keys sync_key t) then keys sync_key t
       else keys sync_key t ++ [(TENANT_ID, entity)])
  ∧ (NoDup (keys sync_key t) → NoDup (keys sync_key t'))
  ∧ (NoDup (keys sync_key t) → NoDup (keys sync_key (sync_state (main now d).1))).
Proof.
  cbn. split_and!.
  - done.
  - apply (sync_upsert_row
             {| ss_tenant_id := TENANT_ID; ss_entity := entity;
                ss_last_sync_at := ts; ss_records_synced := records;
                ss_status := status |}).
  - intros k Hk. apply sync_upsert_other. by intros <-.
  - unfold sync_upsert.
    by rewrite (keys_upsert _ _ _ _ sync_key_ins sync_key_upd).
  - apply sync_upsert_NoDup.
  - intros Hnd. rewrite main_db.
    apply main_loop_sync_NoDup; [apply transforms_keep_sync_state|done].
Qed.

(** C10: when the transform of entity E raises with message [exc], the run
    leaves under (visionamos, E) the row with [records_synced = 0] and
    status ["error: "] followed by the first 200 characters of [exc]
    (characters, not bytes; all of [exc] when it has no more than 200),
    whatever row and count a former run had left there. *)
Theorem error_overwrites_count now d i entity fn exc :
  TRANSFORMS !! i = Some (entity, fn) →
  (fn (run_prefix now i d)).2 = Err exc →
  row_of sync_key (TENANT_ID, entity) (sync_state (main now d).1)
  = Some {| ss_tenant_id := TENANT_ID; ss_entity := entity;
            ss_last_sync_at := now entity; ss_records_synced := 0;
            ss_status := "error: " +:+ truncate200 exc |}
  ∧ String.prefix (truncate200 exc) exc = true
  ∧ code_points (truncate200 exc) = Nat.min 200 (code_points exc)
  ∧ ((code_points exc ≤ 200)%nat → truncate200 exc = exc).
Proof.
  intros Hi Hexc. split; [|apply truncate200_spec].
  rewrite (main_sync_row now d i entity fn Hi), Hexc. done.
Qed.

(** ** Deduplication in the queries *)

Ltac order_by_cases :=
  unfold contacts_before, opt_ltb, opt_eqb;
  repeat match goal with
         | |- context [cf_last_contact ?x] => destruct (cf_last_contact x)
         end;
  cbn;
  rewrite ?orb_true_iff, ?orb_false_iff, ?andb_true_iff, ?andb_false_iff,
    ?Z.ltb_lt, ?Z.ltb_ge, ?Z.eqb_eq, ?Z.eqb_neq;
  try lia; try done.

Lemma contacts_before_irrefl x : contacts_before x x = false.
Proof. order_by_cases. Qed.

Lemma contacts_before_trans x y z :
  contacts_before x y = true → contacts_before y z = true →
  contacts_before x z = true.
Proof. order_by_cases. Qed.

Lemma contacts_before_ntrans x y z :
  contacts_before x y = false → contacts_before y z = false →
  contacts_before x z = false.
Proof. order_by_cases. Qed.

(** The kept contact row has the greatest [last_contact] of its key,
    [NULL] counting as least, and among those the greatest [loaded_at]. *)
Lemma contacts_dedup_first rows m r :
  m ∈ dedup contacts_key_flat contacts_before rows → r ∈ rows →
  contacts_key_flat r = contacts_key_flat m →
  opt_ltb (cf_last_contact m) (cf_last_contact r) = false
  ∧ (cf_last_contact r = cf_last_contact m → cf_loaded_at r ≤ cf_loaded_at m).
Proof.
  intros Hm Hr Hk.
  pose proof (dedup_first _ _ contacts_before_irrefl contacts_before_trans
                contacts_before_ntrans rows m r Hm Hr Hk) as Hb.
  revert Hb. unfold contacts_before.
  rewrite orb_false_iff, andb_false_iff, Z.ltb_ge.
  intros [H1 H2]. split; [done|]. intros E. destruct H2 as [H2|H2]; [|done].
  rewrite E in H2. destruct (cf_last_contact m); cbn in H2;
    [by rewrite Z.eqb_refl in H2|done].
Qed.

Ltac decide_strings :=
  repeat (first [rewrite decide_True by done | rewrite decide_False by done];
          cbn).

Lemma contacts_flattened_two t1 t2 n1 n2 cid created1 updated1 created2
    updated2 c1 u1 c2 u2 :
  cast_tsdate created1 = Ok c1 → cast_tsdate updated1 = Ok u1 →
  cast_tsdate created2 = Ok c2 → cast_tsdate updated2 = Ok u2 →
  contacts_flattened TENANT_ID
    [contacts_snapshot (Some "visionamos") t1
       [contact_doc cid n1 created1 updated1];
     contacts_snapshot (Some "visionamos") t2
       [contact_doc cid n2 created2 updated2]]
  = Ok [ {| cf_tenant_id := "visionamos"; cf_contact_id := cid;
            cf_contact_name := Some n1; cf_first_contact := Some c1;
            cf_last_contact := Some u1; cf_loaded_at := t1 |};
         {| cf_tenant_id := "visionamos"; cf_contact_id := cid;
            cf_contact_name := Some n2; cf_first_contact := Some c2;
            cf_last_contact := Some u2; cf_loaded_at := t2 |} ].
Proof.
  intros H1 H2 H3 H4. unfold contacts_flattened.
  rewrite !filter_cons, filter_nil, !decide_True by done.
  cbn. unfold contacts_flatten_elem, json_get_text, contact_doc. cbn.
  decide_strings. rewrite H1, H2, H3, H4. done.
Qed.

(** Two snapshots of one contact, the later load with an [updatedAt] day
    not before the other's: the later load is kept, in whichever order the
    table lists them. *)
Lemma contacts_two_snapshots d t1 t2 n1 n2 cid created1 updated1 created2
    updated2 c1 u1 c2 u2 :
  let s1 := contacts_snapshot (Some "visionamos") t1
              [contact_doc cid n1 created1 updated1] in
  let s2 := contacts_snapshot (Some "visionamos") t2
              [contact_doc cid n2 created2 updated2] in
  raw_contacts_api d = [s1; s2] ∨ raw_contacts_api d = [s2; s1] →
  cast_tsdate created1 = Ok c1 → cast_tsdate updated1 = Ok u1 →
  cast_tsdate created2 = Ok c2 → cast_tsdate updated2 = Ok u2 →
  t1 < t2 → u1 ≤ u2 →
  CONTACTS_SQL TENANT_ID d
  = Ok [ {| cf_tenant_id := "visionamos"; cf_contact_id := cid;
            cf_contact_name := Some n2; cf_first_contact := Some c2;
            cf_last_contact := Some u2; cf_loaded_at := t2 |} ].
Proof.
  intros s1 s2 Hraw H1 H2 H3 H4 Ht Hu. unfold CONTACTS_SQL.
  destruct Hraw as [-> | ->]; subst s1 s2.
  - rewrite (contacts_flattened_two _ _ _ _ _ _ _ _ _ _ _ _ _ H1 H2 H3 H4).
    cbn [rbind]. rewrite dedup_pair by done. do 2 f_equal.
    unfold pick, contacts_before. cbn.
    destruct (Z.ltb_spec u1 u2); [done|].
    assert (u2 = u1) as -> by lia. rewrite Z.eqb_refl. cbn.
    by destruct (Z.ltb_spec t1 t2); [|lia].
  - rewrite (contacts_flattened_two _ _ _ _ _ _ _ _ _ _ _ _ _ H3 H4 H1 H2).
    cbn [rbind]. rewrite dedup_pair by done. do 2 f_equal.
    unfold pick, contacts_before. cbn.
    destruct (Z.ltb_spec u2 u1); [lia|]. cbn.
    destruct (Z.ltb_spec t2 t1); [lia|]. by rewrite andb_false_r.
Qed.

(** ** Running the transforms again *)

Lemma main_step_contacts now d :
  ∃ S, (main_step now d ("contacts", transform_contacts)).1
       = set_sync_state S (set_contacts (contacts_after d) d).
Proof.
  rewrite main_step_run.
  destruct (transform_contacts d) as [d' [n|e]] eqn:E.
  - destruct (transform_contacts_Ok d n) as [H _]; [by rewrite E|].
    rewrite E in H. cbn in H. subst d'. by eexists.
  - rewrite (transform_contacts_Err d e) by (by rewrite E).
    eexists. cbn. by destruct d.
Qed.

Lemma main_step_toques_daily now d :
  ∃ S, (main_step now d ("toques_daily", transform_toques_daily)).1
       = set_sync_state S (set_toques_daily (toques_daily_after d) d).
Proof.
  rewrite main_step_run.
  destruct (transform_toques_daily d) as [d' [n|e]] eqn:E.
  - destruct (transform_toques_daily_Ok d n) as [H _]; [by rewrite E|].
    rewrite E in H. cbn in H. subst d'. by eexists.
  - rewrite (transform_toques_daily_Err d e) by (by rewrite E).
    eexists. cbn. by destruct d.
Qed.

Lemma main_step_heatmap now d :
  ∃ S, (main_step now d ("toques_heatmap", transform_heatmap)).1
       = set_sync_state S (set_toques_heatmap (toques_heatmap_after d) d).
Proof.
  rewrite main_step_run, transform_heatmap_run. unfold toques_heatmap_after.
  destruct (HEATMAP_SQL TENANT_ID d); eexists; cbn; [done|by destruct d].
Qed.

Lemma main_step_campaigns now d :
  ∃ S, (main_step now d ("campaigns", transform_campaigns)).1
       = set_sync_state S (set_campaigns (campaigns_after d) d).
Proof.
  rewrite main_step_run.
  destruct (transform_campaigns d) as [d' [n|e]] eqn:E.
  - destruct (transform_campaigns_Ok d n) as [H _]; [by rewrite E|].
    rewrite E in H. cbn in H. subst d'. by eexists.
  - rewrite (transform_campaigns_Err d e) by (by rewrite E).
    eexists. cbn. by destruct d.
Qed.

Lemma main_step_daily_stats now d :
  ∃ S, (main_step now d ("daily_stats", transform_daily_stats)).1
       = set_sync_state S (set_daily_stats (daily_stats_after d) d).
Proof.
  rewrite main_step_run, transform_daily_stats_run. unfold daily_stats_after.
  destruct (DAILY_STATS_SQL TENANT_ID d); eexists; cbn; [done|by destruct d].
Qed.

(** The tables after a run; [daily_stats] is aggregated from the
    [toques_daily] the same run has just written. *)
Lemma main_normalized now d :
  normalized (main now d).1
  = (contacts_after d, toques_daily_after d, toques_heatmap_after d,
     campaigns_after d,
     daily_stats_after (set_toques_daily (toques_daily_after d) d))
  ∧ raw_landing (main now d).1 = raw_landing d.
Proof.
  rewrite main_db. unfold TRANSFORMS. rewrite !main_loop_cons.
  destruct (main_step_contacts now d) as [S1 ->].
  destruct (main_step_toques_daily now
              (set_sync_state S1 (set_contacts (contacts_after d) d)))
    as [S2 ->].
  match goal with |- context [main_step now ?d0 ("toques_heatmap", _)] =>
    destruct (main_step_heatmap now d0) as [S3 ->] end.
  match goal with |- context [main_step now ?d0 ("campaigns", _)] =>
    destruct (main_step_campaigns now d0) as [S4 ->] end.
  match goal with |- context [main_step now ?d0 ("daily_stats", _)] =>
    destruct (main_step_daily_stats now d0) as [S5 ->] end.
  split; reflexivity.
Qed.
















(** C2, as the code has it: every query keeps exactly one row per
    (tenant, natural key), a row of the flattened input that ranks first in
    its group.  For contacts the rank is [last_contact] (the [updatedAt]
    day) descending with [NULL] last, and [loaded_at] descending only
    breaks ties; for toques_daily and campaigns the rank is [loaded_at]
    descending.  In the scenario of two snapshots of contact 573054821614
    of tenant visionamos, loaded at [t1 < t2] with profileName "Gise" then
    "Gisela", [public.contacts] ends with exactly one row for the key, named
    "Gisela", when the [updatedAt] day of the later load is not before that
    of the earlier one. *)
Theorem dedup_keeps_first_ranked tid app_id now d :
  (∀ flat, contacts_flattened tid (raw_contacts_api d) = Ok flat →
     ∃ kept, CONTACTS_SQL tid d = Ok kept
       ∧ keeps_first_ranked contacts_key_flat
           (λ m r, opt_ltb (cf_last_contact m) (cf_last_contact r) = false
                   ∧ (cf_last_contact r = cf_last_contact m →
                      cf_loaded_at r ≤ cf_loaded_at m))
           flat kept)
  ∧ (∀ flat, toques_flattened tid app_id (raw_push_stats d) = Ok flat →
       ∃ kept, TOQUES_DAILY_SQL tid app_id d = Ok kept
         ∧ keeps_first_ranked toques_key_flat
             (λ m r, tf_loaded_at r ≤ tf_loaded_at m) flat kept)
  ∧ (∀ flat, campaigns_flattened tid app_id (raw_campaigns_api d) = Ok flat →
       ∃ kept, CAMPAIGNS_SQL tid app_id d = Ok kept
         ∧ keeps_first_ranked campaigns_key_flat
             (λ m r, kf_loaded_at r ≤ kf_loaded_at m) flat kept)
  ∧ (∀ t1 t2 created1 updated1 created2 updated2 c1 u1 c2 u2,
       let s1 := contacts_snapshot (Some "visionamos") t1
                   [contact_doc "573054821614" "Gise" created1 updated1] in
       let s2 := contacts_snapshot (Some "visionamos") t2
                   [contact_doc "573054821614" "Gisela" created2 updated2] in
       raw_contacts_api d = [s1; s2] ∨ raw_contacts_api d = [s2; s1] →
       cast_tsdate created1 = Ok c1 → cast_tsdate updated1 = Ok u1 →
       cast_tsdate created2 = Ok c2 → cast_tsdate updated2 = Ok u2 →
       NoDup (keys contacts_key (contacts d)) →
       t1 < t2 → u1 ≤ u2 →
       ∃ row,
         filter (λ x, contacts_key x = ("visionamos", "573054821614"))
           (contacts (main now d).1) = [row]
         ∧ c_contact_name row = Some "Gisela").
Proof.
  split_and!.
  - intros flat Hflat. eexists. unfold CONTACTS_SQL. rewrite Hflat.
    split; [done|]. apply dedup_keeps. intros m r. apply contacts_dedup_first.
  - intros flat Hflat. eexists. unfold TOQUES_DAILY_SQL. rewrite Hflat.
    split; [done|]. apply dedup_keeps. intros m r Hm Hr Hk.
    by apply (dedup_first_desc toques_key_flat toques_before tf_loaded_at flat).
  - intros flat Hflat. eexists. unfold CAMPAIGNS_SQL. rewrite Hflat.
    split; [done|]. apply dedup_keeps. intros m r Hm Hr Hk.
    by apply (dedup_first_desc campaigns_key_flat campaigns_before
                kf_loaded_at flat).
  - intros t1 t2 created1 updated1 created2 updated2 c1 u1 c2 u2 s1 s2
      Hraw H1 H2 H3 H4 Hnd Ht Hu.
    destruct (main_normalized now d) as [E _].
    unfold normalized in E. injection E as -> _ _ _ _.
    unfold contacts_after.
    rewrite (contacts_two_snapshots d t1 t2 "Gise" "Gisela" "573054821614"
               created1 updated1 created2 updated2 c1 u1 c2 u2)
      by done.
    cbn [rbind].
    set (p := {| cf_tenant_id := "visionamos";
                 cf_contact_id := "573054821614";
                 cf_contact_name := Some "Gisela";
                 cf_first_contact := Some c2;
                 cf_last_contact := Some u2;
                 cf_loaded_at := t2 |}).
    assert (rmapM contacts_bind [p] = Ok [p]) as -> by done.
    cbn [committed upsert_all fold_left].
    exists (cell contacts_insert contacts_update p
              (row_of contacts_key ("visionamos", "573054821614") (contacts d))).
    split.
    + apply filter_key_unique.
      * by apply upsert_NoDup.
      * rewrite (row_of_upsert contacts_key_flat contacts_key) by done.
        by rewrite decide_True.
    + by destruct (row_of contacts_key _ (contacts d)).
Qed.


(** C6: an upsert that hits an existing key adds no row.  For contacts the
    stored [first_contact] becomes [LEAST] of the old and the new value and
    [last_contact] becomes [GREATEST] of them, which on two days are the
    minimum and the maximum; for toques_daily and campaigns the counters
    (enviados, entregados, clicks, abiertos, and the campaign totals) become
    the new values, whatever the old ones were. *)
Theorem merge_policy :
  (∀ t p old,
     row_of contacts_key (contacts_key_flat p) t = Some old →
     ∃ new,
       row_of contacts_key (contacts_key_flat p) (CONTACTS_UPSERT p t) = Some new
       ∧ length (CONTACTS_UPSERT p t) = length t
       ∧ c_first_contact new = LEAST (c_first_contact old) (cf_first_contact p)
       ∧ c_last_contact new = GREATEST (c_last_contact old) (cf_last_contact p))
  ∧ (∀ a b, LEAST (Some a) (Some b) = Some (Z.min a b)
            ∧ GREATEST (Some a) (Some b) = Some (Z.max a b))
  ∧ (∀ t p old,
       row_of toques_key (toques_key_params p) t = Some old →
       ∃ new,
         row_of toques_key (toques_key_params p) (TOQUES_DAILY_UPSERT p t)
         = Some new
         ∧ length (TOQUES_DAILY_UPSERT p t) = length t
         ∧ td_enviados new = tf_enviados (tp_row p)
         ∧ td_entregados new = tf_entregados (tp_row p)
         ∧ td_clicks new = tf_clicks (tp_row p)
         ∧ td_abiertos new = tf_abiertos (tp_row p))
  ∧ (∀ t p old,
       row_of campaigns_key (campaigns_key_params p) t = Some old →
       ∃ new,
         row_of campaigns_key (campaigns_key_params p) (CAMPAIGNS_UPSERT p t)
         = Some new
         ∧ length (CAMPAIGNS_UPSERT p t) = length t
         ∧ k_total_enviados new = kf_total_enviados (kp_row p)
         ∧ k_total_entregados new = kf_total_entregados (kp_row p)
         ∧ k_total_clicks new = kf_total_clicks (kp_row p)
         ∧ k_total_abiertos new = kf_total_abiertos (kp_row p)
         ∧ k_total_rebotes new = kf_total_rebotes (kp_row p)
         ∧ k_total_bloqueados new = kf_total_bloqueados (kp_row p)
         ∧ k_total_spam new = kf_total_spam (kp_row p)
         ∧ k_total_desuscritos new = kf_total_desuscritos (kp_row p)
         ∧ k_total_conversiones new = kf_total_conversiones (kp_row p)).
Proof.
  split_and!.
  - intros t p old Hold. exists (contacts_update old p).
    unfold CONTACTS_UPSERT. split_and!; try done.
    + rewrite row_of_upsert by done. by rewrite decide_True, Hold.
    + rewrite upsert_length by done. rewrite decide_True; [done|].
      apply row_of_is_Some. by eexists.
  - done.
  - intros t p old Hold. exists (toques_update old p).
    unfold TOQUES_DAILY_UPSERT. split_and!; try done.
    + rewrite row_of_upsert by done. by rewrite decide_True, Hold.
    + rewrite upsert_length by done. rewrite decide_True; [done|].
      apply row_of_is_Some. by eexists.
  - intros t p old Hold. exists (campaigns_update old p).
    unfold CAMPAIGNS_UPSERT. split_and!; try done.
    + rewrite row_of_upsert by done. by rewrite decide_True, Hold.
    + rewrite upsert_length by done. rewrite decide_True; [done|].
      apply row_of_is_Some. by eexists.
Qed.

End PipelineFacts.

(** ** The pagination loop *)

Lemma calls_app tr1 tr2 : calls (tr1 ++ tr2) = calls tr1 ++ calls tr2.
Proof. apply omap_app. Qed.






Section ExtractorFacts.
Variable client : Type.
Variable client_get : client → request → response * client.
Variable tenant : option string.
Variable landed_at : nat → timestamp.

Local Abbreviation loop := (page_loop client client_get tenant landed_at).
Local Abbreviation store := (store_raw client tenant landed_at).

(** One turn of the loop on a response. *)
Lemma page_loop_S style path app_id page_size fuel page_num offset e resp c :
  client_get (ex_client client e)
    (page_request style path app_id page_size page_num offset) = (resp, c) →
  loop style path app_id page_size (S fuel) page_num offset e =
    let e1 := {| ex_client := c; ex_raw := ex_raw client e;
                 ex_trace :=
                   ex_trace client e
                   ++ [EvCall (page_request style path app_id page_size
                                 page_num offset) resp] |} in
    match resp with
    | Raised _ => e1
    | Returned data =>
        if is_None data || negb (py_truthy (page_items data)) then e1
        else
          let e2 := store page_num app_id path data e1 in
          match py_len (page_items data) with
          | None => e2
          | Some n =>
              if n <? page_size then e2
              else loop style path app_id page_size fuel (S page_num)
                     (offset + page_size) e2
          end
    end.
Proof.
  intros Hget. cbn [page_loop]. unfold call. rewrite Hget.
  destruct resp as [exc|data]; [done|]. by destruct (is_None data).
Qed.

(** What a run of the loop adds: a paged trace, the stored rows at the end
    of the raw table, at most one call per turn and at least one call if
    there is a turn at all. *)
Lemma page_loop_trace style path app_id page_size fuel page_num offset e :
  ∃ tr,
    ex_trace client (loop style path app_id page_size fuel page_num offset e)
    = ex_trace client e ++ tr
    ∧ ex_raw client (loop style path app_id page_size fuel page_num offset e)
      = ex_raw client e ++ stored tr
    ∧ paged tr
    ∧ (length (calls tr) ≤ fuel)%nat
    ∧ (fuel ≠ 0%nat → (1 ≤ length (calls tr))%nat).
Proof.
  revert page_num offset e.
  induction fuel as [|fuel IH]; intros page_num offset e.
  { exists []. cbn. rewrite !app_nil_r. split_and!; try done. constructor. }
  destruct (client_get (ex_client client e)
              (page_request style path app_id page_size page_num offset))
    as [resp c] eqn:Hget.
  rewrite (page_loop_S _ _ _ _ _ _ _ _ _ _ Hget). cbn zeta.
  set (rq := page_request style path app_id page_size page_num offset).
  assert (∃ tr, ex_trace client e ++ [EvCall rq resp] = ex_trace client e ++ tr
                ∧ ex_raw client e = ex_raw client e ++ stored tr
                ∧ paged tr ∧ (length (calls tr) ≤ S fuel)%nat
                ∧ (S fuel ≠ 0%nat → (1 ≤ length (calls tr))%nat)) as Hstop.
  { exists [EvCall rq resp]. cbn. rewrite app_nil_r.
    split_and!; try done; [constructor|lia]. }
  destruct resp as [exc|data]; [done|].
  destruct (is_None data || negb (py_truthy (page_items data))); [done|].
  set (row := {| rr_tenant_id := tenant; rr_application_id := Some app_id;
                 rr_endpoint := path; rr_loaded_at := landed_at page_num;
                 rr_source_data := data |}).
  assert (∃ tr,
            (ex_trace client e ++ [EvCall rq (Returned data)]) ++ [EvStored row]
            = ex_trace client e ++ tr
            ∧ ex_raw client e ++ [row] = ex_raw client e ++ stored tr
            ∧ paged tr ∧ (length (calls tr) ≤ S fuel)%nat
            ∧ (S fuel ≠ 0%nat → (1 ≤ length (calls tr))%nat)) as Hlast.
  { exists [EvCall rq (Returned data); EvStored row]. cbn.
    rewrite <- app_assoc.
    split_and!; try done; [repeat constructor|lia]. }
  destruct (py_len (page_items data)) as [n|]; [|done].
  destruct (n <? page_size); [done|].
  edestruct IH as (tr & Etr & Eraw & Hp & Hle & _).
  exists (EvCall rq (Returned data) :: EvStored row :: tr).
  rewrite Etr, Eraw. unfold calls, stored in *. cbn.
  rewrite <- !app_assoc. cbn.
  split_and!; try done; [by constructor|lia..].
Qed.


Lemma page_items_page_of items : page_items (page_of items) = JArr items.
Proof. unfold page_items, page_of. cbn. by rewrite decide_True. Qed.

Lemma page_items_not_None data items :
  page_items data = JArr items → is_None data = false.
Proof. by destruct data. Qed.

(** One turn of the loop on a page that is not empty. *)
Lemma page_loop_page style path app_id page_size fuel page_num offset e
    items c :
  client_get (ex_client client e)
    (page_request style path app_id page_size page_num offset)
  = (Returned (page_of items), c) →
  items ≠ [] →
  loop style path app_id page_size (S fuel) page_num offset e =
    let rq := page_request style path app_id page_size page_num offset in
    let row := {| rr_tenant_id := tenant; rr_application_id := Some app_id;
                  rr_endpoint := path; rr_loaded_at := landed_at page_num;
                  rr_source_data := page_of items |} in
    let e2 := {| ex_client := c;
                 ex_raw := ex_raw client e ++ [row];
                 ex_trace :=
                   ex_trace client e
                   ++ [EvCall rq (Returned (page_of items)); EvStored row] |} in
    if Z.of_nat (length items) <? page_size then e2
    else loop style path app_id page_size fuel (S page_num)
           (offset + page_size) e2.
Proof.
  intros Hget Hne. rewrite (page_loop_S _ _ _ _ _ _ _ _ _ _ Hget).
  cbn zeta. rewrite page_items_page_of. cbn [is_None page_of py_truthy py_len].
  rewrite bool_decide_false by done. cbn [negb orb].
  unfold store_raw. cbn [ex_client ex_raw ex_trace].
  by rewrite <- app_assoc.
Qed.

(** C5: a turn of the loop that got a page is the last one exactly when
    the page has no item, or fewer items than the page size, or the turn
    is the last of the [MAX_PAGES = 50] allowed; the loop never makes more
    than [MAX_PAGES] calls; and on an endpoint that returns pages of 50, 50
    and 23 items for a page size of 50 it makes exactly 3 calls and stores
    exactly the 3 pages, in order. *)
Theorem pagination_termination style path app_id :
  (∀ page_size page_num offset e data items c,
     (page_num < MAX_PAGES)%nat →
     client_get (ex_client client e)
       (page_request style path app_id page_size page_num offset)
     = (Returned data, c) →
     page_items data = JArr items →
     let e' := loop style path app_id page_size (MAX_PAGES - page_num)
                 page_num offset e in
     length (calls (ex_trace client e'))
     = S (length (calls (ex_trace client e)))
     ↔ items = [] ∨ Z.of_nat (length items) < page_size
       ∨ S page_num = MAX_PAGES)
  ∧ (∀ page_size e,
       (length (calls (ex_trace client
                         (loop style path app_id page_size MAX_PAGES 0 0 e)))
        ≤ length (calls (ex_trace client e)) + MAX_PAGES)%nat)
  ∧ (∀ e p1 p2 p3 c1 c2 c3,
       length p1 = 50%nat → length p2 = 50%nat → length p3 = 23%nat →
       client_get (ex_client client e) (page_request style path app_id 50 0 0)
       = (Returned (page_of p1), c1) →
       client_get c1 (page_request style path app_id 50 1 50)
       = (Returned (page_of p2), c2) →
       client_get c2 (page_request style path app_id 50 2 100)
       = (Returned (page_of p3), c3) →
       let e' := loop style path app_id (page_size_of 50) MAX_PAGES 0 0 e in
       let row n p := {| rr_tenant_id := tenant;
                         rr_application_id := Some app_id;
                         rr_endpoint := path; rr_loaded_at := landed_at n;
                         rr_source_data := page_of p |} in
       ex_trace client e'
       = ex_trace client e
         ++ [EvCall (page_request style path app_id 50 0 0) (Returned (page_of p1));
             EvStored (row 0%nat p1);
             EvCall (page_request style path app_id 50 1 50) (Returned (page_of p2));
             EvStored (row 1%nat p2);
             EvCall (page_request style path app_id 50 2 100) (Returned (page_of p3));
             EvStored (row 2%nat p3)]
       ∧ ex_raw client e'
         = ex_raw client e ++ [row 0%nat p1; row 1%nat p2; row 2%nat p3]
       ∧ length (calls (ex_trace client e'))
         = (length (calls (ex_trace client e)) + 3)%nat
       ∧ length (ex_raw client e') = (length (ex_raw client e) + 3)%nat).
Proof.
  split_and!.
  - intros page_size page_num offset e data items c Hlt Hget Hitems e'.
    subst e'.
    replace (MAX_PAGES - page_num)%nat with (S (MAX_PAGES - S page_num)) by lia.
    rewrite (page_loop_S _ _ _ _ _ _ _ _ _ _ Hget). cbn zeta.
    rewrite (page_items_not_None _ _ Hitems), Hitems.
    cbn [py_truthy py_len orb].
    destruct (decide (items = [])) as [->|Hne].
    { cbn. rewrite calls_app, length_app. cbn. split; [by left|lia]. }
    rewrite bool_decide_false by done. cbn [negb].
    destruct (Z.ltb_spec (Z.of_nat (length items)) page_size) as [Hlen|Hlen].
    { cbn. rewrite !calls_app, !length_app. cbn.
      split; [right; by left|lia]. }
    match goal with |- context [loop _ _ _ _ ?f ?n ?o ?e2] =>
      destruct (page_loop_trace style path app_id page_size f n o e2)
        as (tr & -> & _ & _ & Hle & Hge) end.
    cbn. rewrite !calls_app, !length_app. cbn. split.
    + intros E. right. right.
      destruct (decide (MAX_PAGES - S page_num = 0)%nat) as [E0|NE]; [lia|].
      specialize (Hge NE). lia.
    + intros [?|[?|E]]; [done|lia|]. rewrite <- E in Hle. lia.
  - intros page_size e.
    destruct (page_loop_trace style path app_id page_size MAX_PAGES 0 0 e)
      as (tr & -> & _ & _ & Hle & _).
    rewrite calls_app, length_app. lia.
  - intros e p1 p2 p3 c1 c2 c3 L1 L2 L3 H1 H2 H3 e' row. subst e'.
    change (page_size_of 50) with 50.
    change MAX_PAGES with (S (S (S 47))).
    rewrite (page_loop_page _ _ _ _ _ _ _ _ _ _ H1) by (by destruct p1).
    cbn zeta. rewrite L1. cbn [Z.of_nat Pos.of_succ_nat Z.ltb Z.compare].
    change (Z.of_nat 50 <? 50) with false. cbn iota.
    change (0 + 50) with 50.
    erewrite page_loop_page; [|exact H2|by destruct p2].
    cbn zeta. rewrite L2. change (Z.of_nat 50 <? 50) with false. cbn iota.
    change (50 + 50) with 100.
    erewrite page_loop_page; [|exact H3|by destruct p3].
    cbn zeta. rewrite L3. change (Z.of_nat 23 <? 50) with true. cbn iota.
    cbn [ex_trace ex_raw]. rewrite <- !app_assoc. cbn [app].
    split_and!; try done.
    + rewrite calls_app, length_app. done.
    + rewrite length_app. done.
Qed.

End ExtractorFacts.

(** * More facts *)

(** ** Tables with a unique key, continued *)

Section UpsertMore.
Context {P R K : Type} `{EqDecision K}.
Variable keyP : P → K.
Variable keyR : R → K.
Variable ins : P → R.
Variable upd : R → P → R.

Local Abbreviation ups := (upsert keyP keyR ins upd).
Local Abbreviation ups_all := (upsert_all keyP keyR ins upd).
Local Abbreviation row := (row_of keyR).
Local Abbreviation cel := (cell ins upd).
Local Abbreviation cel_all := (cell_all keyP ins upd).
Local Abbreviation kys := (keys keyR).

Hypothesis key_ins : ∀ p, keyR (ins p) = keyP p.
Hypothesis key_upd : ∀ r p, keyR (upd r p) = keyR r.

(** Existing rows keep their place; new keys are appended. *)
Lemma keys_upsert_all_prefix rows t : kys t `prefix_of` kys (ups_all rows t).
Proof using key_ins key_upd.
  revert t. induction rows as [|p rows IH]; intros t; [done|].
  transitivity (kys (ups p t)); [|apply (IH (ups p t))].
  rewrite keys_upsert by done.
  destruct (decide (keyP p ∈ kys t)); [done|]. by apply prefix_app_r.
Qed.

Lemma upsert_all_length_le rows t : (length t ≤ length (ups_all rows t))%nat.
Proof using key_ins key_upd.
  pose proof (prefix_length _ _ (keys_upsert_all_prefix rows t)) as H.
  unfold keys in H. by rewrite !length_fmap in H.
Qed.

(** A relation that every [DO UPDATE] respects holds between a row and
    what the loop leaves in its place. *)
Lemma cell_all_rel (rel : R → R → Prop) k rows r :
  (∀ x, rel x x) → (∀ x y z, rel x y → rel y z → rel x z) →
  (∀ x p, rel x (upd x p)) →
  ∃ r', cel_all k rows (Some r) = Some r' ∧ rel r r'.
Proof.
  intros Hrefl Htrans Hupd. revert r.
  induction rows as [|p rows IH]; intros r; [by exists r|].
  cbn. destruct (decide (keyP p = k)); [|apply IH].
  destruct (IH (upd r p)) as (r' & E & Hrel). exists r'.
  split; [done|]. by apply Htrans with (upd r p).
Qed.

Lemma upsert_all_rel (rel : R → R → Prop) k rows t r :
  (∀ x, rel x x) → (∀ x y z, rel x y → rel y z → rel x z) →
  (∀ x p, rel x (upd x p)) →
  row k t = Some r →
  ∃ r', row k (ups_all rows t) = Some r' ∧ rel r r'.
Proof using key_ins key_upd.
  intros Hrefl Htrans Hupd Hr.
  rewrite row_of_upsert_all, Hr by done. by apply cell_all_rel.
Qed.

(** After the loop the key of every statement holds a row: the one its
    last statement left. *)
Lemma upsert_all_row_last rows t p :
  p ∈ rows →
  ∃ q, q ∈ rows ∧ keyP q = keyP p
       ∧ ∃ o, row (keyP p) (ups_all rows t) = Some (cel q o).
Proof using key_ins key_upd.
  intros Hp. rewrite row_of_upsert_all by done.
  generalize (row (keyP p) t). revert Hp.
  induction rows as [|x rows IH] using rev_ind; intros Hp o.
  { by apply elem_of_nil in Hp. }
  unfold cell_all. rewrite fold_left_app. cbn.
  destruct (decide (keyP x = keyP p)) as [E|NE].
  - exists x. split_and!; [apply elem_of_app; right; left|done|by eexists].
  - apply elem_of_app in Hp as [Hp|Hp%list_elem_of_singleton]; [|congruence].
    destruct (IH Hp o) as (q & Hq & Hk & o' & E).
    exists q. split_and!; [apply elem_of_app; by left|done|by exists o'].
Qed.

(** Two statements on one key in a row: when a statement's [DO UPDATE]
    hides what the one before it wrote, the pair does what the second
    does alone. *)
Lemma upsert_upsert_same p q t :
  keyP p = keyP q →
  (∀ o, cel p (Some (cel q o)) = cel p o) →
  ups p (ups q t) = ups p t.
Proof using key_ins key_upd.
  intros Hk Habs. induction t as [|r t IH].
  - cbn. rewrite decide_True by (by rewrite key_ins). f_equal.
    apply (Habs None).
  - cbn. destruct (decide (keyR r = keyP q)) as [E|NE].
    + cbn. rewrite !decide_True by (rewrite ?key_upd; congruence).
      f_equal. apply (Habs (Some r)).
    + cbn. destruct (decide (keyR r = keyP p)); [congruence|].
      f_equal. apply IH.
Qed.
End UpsertMore.

(** ** Rank-and-filter deduplication, continued *)

Section DedupMore.
Context {A K : Type} `{EqDecision K}.
Variable key : A → K.
Variable before : A → A → bool.

(** One row per key: as many rows as there are distinct keys. *)
Lemma dedup_length rows :
  length (dedup key before rows) = length (remove_dups (key <$> rows)).
Proof.
  unfold dedup.
  assert (∀ k, k ∈ remove_dups (key <$> rows) →
               is_Some (first_ranked before (partition_of key k rows))) as Hall.
  { intros k Hk. apply elem_of_remove_dups, list_elem_of_fmap in Hk
      as (r & -> & Hr).
    apply first_ranked_is_Some. intros E.
    assert (r ∈ partition_of key (key r) rows) as Hin
      by by apply list_elem_of_filter.
    rewrite E in Hin. by apply elem_of_nil in Hin. }
  induction (remove_dups (key <$> rows)) as [|k ks IH]; [done|].
  cbn. destruct (Hall k) as [m ->]; [left|].
  cbn. f_equal. apply IH. intros k' Hk'. apply Hall. by right.
Qed.
End DedupMore.


Lemma rflat_map_Ok_all {A C} (f : A → result (list C)) l rows a :
  rflat_map f l = Ok rows → a ∈ l → ∃ cs, f a = Ok cs ∧ cs ⊆ rows.
Proof.
  revert rows. induction l as [|b l IH]; intros rows E Ha;
    [by apply elem_of_nil in Ha|].
  cbn in E. destruct (f b) as [bs|] eqn:Eb; cbn in E; [|done].
  destruct (rflat_map f l) as [cs|] eqn:El; cbn in E; [|done].
  injection E as <-. apply elem_of_cons in Ha as [->|Ha].
  - exists bs. split; [done|]. intros x Hx. apply elem_of_app. by left.
  - destruct (IH cs eq_refl Ha) as (xs & Ex & Hxs). exists xs.
    split; [done|]. intros x Hx. apply elem_of_app. right. by apply Hxs.
Qed.

Lemma rmapM_elem {A C} (f : A → result C) l bs b :
  rmapM f l = Ok bs → b ∈ bs → ∃ a, a ∈ l ∧ f a = Ok b.
Proof.
  revert bs. induction l as [|a l IH]; intros bs; cbn.
  - intros [= <-] Hb. by apply elem_of_nil in Hb.
  - destruct (f a) as [c|] eqn:Ea; cbn; [|done].
    destruct (rmapM f l) as [cs|]; cbn; [|done].
    intros [= <-] [->|Hb]%elem_of_cons.
    + exists a. split; [left|done].
    + destruct (IH cs eq_refl Hb) as (a' & Ha' & Ef).
      exists a'. split; [by right|done].
Qed.

(** ** The transforms, continued *)

Section PipelineMore.
Context `{B : Backend}.

(** X1: each transform writes its own table and nothing else: the raw
    landing tables, the other normalized tables and the sync state are as
    before, whether it returns or raises. *)
Theorem transforms_write_own_table d :
  (∃ t, (transform_contacts d).1 = set_contacts t d)
  ∧ (∃ t, (transform_toques_daily d).1 = set_toques_daily t d)
  ∧ (∃ t, (transform_heatmap d).1 = set_toques_heatmap t d)
  ∧ (∃ t, (transform_campaigns d).1 = set_campaigns t d)
  ∧ (∃ t, (transform_daily_stats d).1 = set_daily_stats t d).
Proof.
  split_and!.
  - apply transform_contacts_frame.
  - apply transform_toques_daily_frame.
  - exists (toques_heatmap (transform_heatmap d).1).
    rewrite transform_heatmap_run.
    destruct (HEATMAP_SQL TENANT_ID d); cbn; [done|by destruct d].
  - apply transform_campaigns_frame.
  - exists (daily_stats (transform_daily_stats d).1).
    rewrite transform_daily_stats_run.
    destruct (DAILY_STATS_SQL TENANT_ID d); cbn; [done|by destruct d].
Qed.

(** X2: a transform of contacts, toques_daily or campaigns raises in one
    of two places.  Either its query raises, and then nothing has been
    written and the message is the one of the query; or the table refuses
    the parameters of a statement (a text longer than its column), and
    then the statements of the rows before that one have been executed,
    in order, on the connection, the message is the one of the first
    refusal, and the transaction of [main] commits none of them. *)
Theorem transform_raises_in_query_or_statement d e :
  ((transform_contacts d).2 = Err e →
   (CONTACTS_SQL TENANT_ID d = Err e ∧ (transform_contacts d).1 = d)
   ∨ (∃ rows before p rest bound,
        CONTACTS_SQL TENANT_ID d = Ok rows
        ∧ rows = before ++ p :: rest
        ∧ rmapM contacts_bind before = Ok bound
        ∧ contacts_bind p = Err e
        ∧ (transform_contacts d).1
          = set_contacts
              (upsert_all contacts_key_flat contacts_key contacts_insert
                 contacts_update bound (contacts d)) d
        ∧ contacts_after d = contacts d))
  ∧ ((transform_toques_daily d).2 = Err e →
     (TOQUES_DAILY_SQL TENANT_ID APP_ID d = Err e
      ∧ (transform_toques_daily d).1 = d)
     ∨ (∃ rows before p rest bound,
          TOQUES_DAILY_SQL TENANT_ID APP_ID d = Ok rows
          ∧ toques_params_of <$> rows = before ++ p :: rest
          ∧ rmapM toques_bind before = Ok bound
          ∧ toques_bind p = Err e
          ∧ (transform_toques_daily d).1
            = set_toques_daily
                (upsert_all toques_key_params toques_key toques_insert
                   toques_update bound (toques_daily d)) d
          ∧ toques_daily_after d = toques_daily d))
  ∧ ((transform_campaigns d).2 = Err e →
     (CAMPAIGNS_SQL TENANT_ID APP_ID d = Err e
      ∧ (transform_campaigns d).1 = d)
     ∨ (∃ rows before p rest bound,
          CAMPAIGNS_SQL TENANT_ID APP_ID d = Ok rows
          ∧ campaigns_params_of <$> rows = before ++ p :: rest
          ∧ rmapM campaigns_bind before = Ok bound
          ∧ campaigns_bind p = Err e
          ∧ (transform_campaigns d).1
            = set_campaigns
                (upsert_all campaigns_key_params campaigns_key
                   campaigns_insert campaigns_update bound (campaigns d)) d
          ∧ campaigns_after d = campaigns d)).
Proof.
  split_and!.
  - intros He. pose proof (transform_contacts_Err _ _ He) as Hafter.
    revert He. rewrite transform_contacts_run.
    destruct (CONTACTS_SQL TENANT_ID d) as [rows|e'] eqn:Eq; cbn;
      [|intros [= ->]; by left].
    rewrite write_each_result.
    destruct (rmapM contacts_bind rows) as [?|e'] eqn:Eb; [done|].
    intros [= ->]. right.
    destruct (write_each_Err _ CONTACTS_UPSERT _ _ (contacts d) Eb)
      as (before & p & rest & bound & -> & Hb & Hp & ->).
    by exists (before ++ p :: rest), before, p, rest, bound.
  - intros He. pose proof (transform_toques_daily_Err _ _ He) as Hafter.
    revert He. rewrite transform_toques_daily_run.
    destruct (TOQUES_DAILY_SQL TENANT_ID APP_ID d) as [rows|e'] eqn:Eq; cbn;
      [|intros [= ->]; by left].
    rewrite write_each_result.
    destruct (rmapM toques_bind _) as [?|e'] eqn:Eb; [done|].
    intros [= ->]. right.
    destruct (write_each_Err _ TOQUES_DAILY_UPSERT _ _ (toques_daily d) Eb)
      as (before & p & rest & bound & Hrows & Hb & Hp & ->).
    by exists rows, before, p, rest, bound.
  - intros He. pose proof (transform_campaigns_Err _ _ He) as Hafter.
    revert He. rewrite transform_campaigns_run.
    destruct (CAMPAIGNS_SQL TENANT_ID APP_ID d) as [rows|e'] eqn:Eq; cbn;
      [|intros [= ->]; by left].
    rewrite write_each_result.
    destruct (rmapM campaigns_bind _) as [?|e'] eqn:Eb; [done|].
    intros [= ->]. right.
    destruct (write_each_Err _ CAMPAIGNS_UPSERT _ _ (campaigns d) Eb)
      as (before & p & rest & bound & Hrows & Hb & Hp & ->).
    by exists rows, before, p, rest, bound.
Qed.

(** X3: the count a transform returns, which [main] records as
    [records_synced], is the number of distinct natural keys among the
    flattened rows: neither the number of raw elements nor the number of
    rows that changed. *)
Theorem transform_counts_distinct_keys d n :
  ((transform_contacts d).2 = Ok n →
   ∃ flat, contacts_flattened TENANT_ID (raw_contacts_api d) = Ok flat
     ∧ n = Z.of_nat (length (remove_dups (contacts_key_flat <$> flat))))
  ∧ ((transform_toques_daily d).2 = Ok n →
     ∃ flat, toques_flattened TENANT_ID APP_ID (raw_push_stats d) = Ok flat
       ∧ n = Z.of_nat (length (remove_dups (toques_key_flat <$> flat))))
  ∧ ((transform_campaigns d).2 = Ok n →
     ∃ flat,
       campaigns_flattened TENANT_ID APP_ID (raw_campaigns_api d) = Ok flat
       ∧ n = Z.of_nat (length (remove_dups (campaigns_key_flat <$> flat))))
  ∧ ((transform_daily_stats d).2 = Ok n →
     n = Z.of_nat
           (length
              (remove_dups
                 ((λ r, (td_tenant_id r, td_date r))
                  <$> filter (λ r, td_tenant_id r = TENANT_ID)
                        (toques_daily d))))).
Proof.
  split_and!.
  - intros (_ & rows & bound & Hq & _ & -> & _)%transform_contacts_Ok.
    revert Hq. unfold CONTACTS_SQL.
    destruct (contacts_flattened _ _) as [flat|]; cbn; [|done].
    intros [= <-]. exists flat. by rewrite dedup_length.
  - intros (_ & rows & bound & Hq & _ & -> & _)%transform_toques_daily_Ok.
    revert Hq. unfold TOQUES_DAILY_SQL.
    destruct (toques_flattened _ _ _) as [flat|]; cbn; [|done].
    intros [= <-]. exists flat. by rewrite dedup_length.
  - intros (_ & rows & bound & Hq & _ & -> & _)%transform_campaigns_Ok.
    revert Hq. unfold CAMPAIGNS_SQL.
    destruct (campaigns_flattened _ _ _) as [flat|]; cbn; [|done].
    intros [= <-]. exists flat. by rewrite dedup_length.
  - rewrite transform_daily_stats_run. cbn. rewrite length_fmap.
    by intros [= <-].
Qed.

(** X4: a run of [main] deletes nothing and moves nothing: in each of the
    five normalized tables the keys present before the run are still
    there, in the same order, new keys coming after them; the raw landing
    tables are untouched. *)
Theorem main_never_deletes now d :
  let d' := (main now d).1 in
  raw_landing d' = raw_landing d
  ∧ keys contacts_key (contacts d) `prefix_of` keys contacts_key (contacts d')
  ∧ keys toques_key (toques_daily d)
    `prefix_of` keys toques_key (toques_daily d')
  ∧ keys heatmap_key (toques_heatmap d)
    `prefix_of` keys heatmap_key (toques_heatmap d')
  ∧ keys campaigns_key (campaigns d)
    `prefix_of` keys campaigns_key (campaigns d')
  ∧ keys daily_stats_key (daily_stats d)
    `prefix_of` keys daily_stats_key (daily_stats d').
Proof.
  cbn zeta. destruct (main_normalized now d) as [E R].
  unfold normalized in E. injection E as -> -> -> -> ->.
  split_and!; [done|..].
  - destruct (contacts_after_cases d) as [->|(? & ? & _ & _ & ->)]; [done|].
    by apply keys_upsert_all_prefix.
  - destruct (toques_daily_after_cases d) as [->|(? & ? & _ & _ & ->)];
      [done|].
    by apply keys_upsert_all_prefix.
  - unfold toques_heatmap_after. destruct (HEATMAP_SQL _ _); [|done].
    by apply keys_upsert_all_prefix.
  - destruct (campaigns_after_cases d) as [->|(? & ? & _ & _ & ->)]; [done|].
    by apply keys_upsert_all_prefix.
  - unfold daily_stats_after. destruct (DAILY_STATS_SQL _ _); [|done].
    by apply keys_upsert_all_prefix.
Qed.

(** X5: the unique constraints of the five normalized tables survive a run
    of [main]. *)
Theorem main_keeps_unique_keys now d :
  db_unique d → db_unique (main now d).1.
Proof.
  intros (Hc & Ht & Hh & Hk & Hs).
  destruct (main_normalized now d) as [E _].
  unfold normalized in E. injection E as Ec Et Eh Ek Es.
  unfold db_unique. rewrite Ec, Et, Eh, Ek, Es. split_and!.
  - destruct (contacts_after_cases d) as [->|(? & ? & _ & _ & ->)]; [done|].
    by apply upsert_all_NoDup.
  - destruct (toques_daily_after_cases d) as [->|(? & ? & _ & _ & ->)];
      [done|].
    by apply upsert_all_NoDup.
  - unfold toques_heatmap_after. destruct (HEATMAP_SQL _ _); [|done].
    by apply upsert_all_NoDup.
  - destruct (campaigns_after_cases d) as [->|(? & ? & _ & _ & ->)]; [done|].
    by apply upsert_all_NoDup.
  - unfold daily_stats_after. destruct (DAILY_STATS_SQL _ _); [|done].
    by apply upsert_all_NoDup.
Qed.

Lemma LEAST_not_after_l x y : not_after (LEAST x y) x.
Proof.
  intros a ->. destruct y as [b|]; cbn; eexists; (split; [done|lia]).
Qed.


Lemma GREATEST_not_before_l x y : not_before (GREATEST x y) x.
Proof.
  intros a ->. destruct y as [b|]; cbn; eexists; (split; [done|lia]).
Qed.


Lemma not_after_refl x : not_after x x.
Proof. intros a ->. by exists a. Qed.

Lemma not_after_trans x y z : not_after x y → not_after y z → not_after x z.
Proof.
  intros Hxy Hyz a Hz. destruct (Hyz a Hz) as (b & Hy & Hb).
  destruct (Hxy b Hy) as (c & Hx & Hc). exists c. split; [done|lia].
Qed.

Lemma not_before_refl x : not_before x x.
Proof. intros a ->. by exists a. Qed.

Lemma not_before_trans x y z :
  not_before x y → not_before y z → not_before x z.
Proof.
  intros Hxy Hyz a Hz. destruct (Hyz a Hz) as (b & Hy & Hb).
  destruct (Hxy b Hy) as (c & Hx & Hc). exists c. split; [done|lia].
Qed.


(** X7: whatever the raw data, a run of [main] keeps every contact that was
    in the table, leaves its [total_messages] and [total_conversations] as
    they were, and only widens its interval of contact: [first_contact]
    never moves later and [last_contact] never moves earlier. *)
Theorem contact_interval_only_widens now d k r :
  row_of contacts_key k (contacts d) = Some r →
  ∃ r', row_of contacts_key k (contacts (main now d).1) = Some r'
        ∧ c_total_messages r' = c_total_messages r
        ∧ c_total_conversations r' = c_total_conversations r
        ∧ not_after (c_first_contact r') (c_first_contact r)
        ∧ not_before (c_last_contact r') (c_last_contact r).
Proof.
  intros Hr. destruct (main_normalized now d) as [E _].
  unfold normalized in E. injection E as -> _ _ _ _.
  destruct (contacts_after_cases d) as [->|(rows & bound & _ & _ & ->)];
    [exists r; split_and!;
       [done..|apply not_after_refl|apply not_before_refl]|].
  apply (upsert_all_rel contacts_key_flat contacts_key contacts_insert
           contacts_update (λ _, eq_refl) (λ _ _, eq_refl)
           (λ r r', c_total_messages r' = c_total_messages r
                    ∧ c_total_conversations r' = c_total_conversations r
                    ∧ not_after (c_first_contact r') (c_first_contact r)
                    ∧ not_before (c_last_contact r') (c_last_contact r)));
    [| | |done].
  - intros x. split_and!;
      [done..|apply not_after_refl|apply not_before_refl].
  - intros x y z (A1 & A2 & A3 & A4) (B1 & B2 & B3 & B4). split_and!.
    + congruence.
    + congruence.
    + by apply not_after_trans with (c_first_contact y).
    + by apply not_before_trans with (c_last_contact y).
  - intros x p. cbn. split_and!;
      [done..|apply LEAST_not_after_l|apply GREATEST_not_before_l].
Qed.

(** X8: the columns that no [DO UPDATE] names are out of reach of the
    pipeline: on every row that was in the table a run of [main] leaves as
    they were chunks, usuarios_unicos, rebotes, bloqueados, spam,
    desuscritos, conversiones and conversion_rate of toques_daily;
    enviados, clicks, abiertos and conversiones of toques_heatmap;
    total_chunks of campaigns. *)
Theorem unnamed_columns_survive now d :
  (∀ k r, row_of toques_key k (toques_daily d) = Some r →
     ∃ r', row_of toques_key k (toques_daily (main now d).1) = Some r'
           ∧ td_chunks r' = td_chunks r
           ∧ td_usuarios_unicos r' = td_usuarios_unicos r
           ∧ td_rebotes r' = td_rebotes r
           ∧ td_bloqueados r' = td_bloqueados r
           ∧ td_spam r' = td_spam r
           ∧ td_desuscritos r' = td_desuscritos r
           ∧ td_conversiones r' = td_conversiones r
           ∧ td_conversion_rate r' = td_conversion_rate r)
  ∧ (∀ k r, row_of heatmap_key k (toques_heatmap d) = Some r →
       ∃ r', row_of heatmap_key k (toques_heatmap (main now d).1) = Some r'
             ∧ hm_enviados r' = hm_enviados r
             ∧ hm_clicks r' = hm_clicks r
             ∧ hm_abiertos r' = hm_abiertos r
             ∧ hm_conversiones r' = hm_conversiones r)
  ∧ (∀ k r, row_of campaigns_key k (campaigns d) = Some r →
       ∃ r', row_of campaigns_key k (campaigns (main now d).1) = Some r'
             ∧ k_total_chunks r' = k_total_chunks r).
Proof.
  destruct (main_normalized now d) as [E _].
  unfold normalized in E. injection E as _ -> -> -> _.
  split_and!.
  - intros k r Hr.
    destruct (toques_daily_after_cases d) as [->|(rows & bound & _ & _ & ->)];
      [by exists r|].
    destruct (upsert_all_rel toques_key_params toques_key toques_insert
                toques_update (λ _, eq_refl) (λ _ _, eq_refl)
                (λ r r', (td_chunks r', td_usuarios_unicos r', td_rebotes r',
                          td_bloqueados r', td_spam r', td_desuscritos r',
                          td_conversiones r', td_conversion_rate r')
                         = (td_chunks r, td_usuarios_unicos r, td_rebotes r,
                            td_bloqueados r, td_spam r, td_desuscritos r,
                            td_conversiones r, td_conversion_rate r))
                k bound (toques_daily d) r)
      as (r' & Hr' & Hrel); [done|congruence|done|done|].
    exists r'. split; [done|]. by injection Hrel as -> -> -> -> -> -> -> ->.
  - intros k r Hr. unfold toques_heatmap_after.
    destruct (HEATMAP_SQL TENANT_ID d) as [rows|]; [|by exists r].
    destruct (upsert_all_rel heatmap_key_flat heatmap_key heatmap_insert
                heatmap_update (λ _, eq_refl) (λ _ _, eq_refl)
                (λ r r', (hm_enviados r', hm_clicks r', hm_abiertos r',
                          hm_conversiones r')
                         = (hm_enviados r, hm_clicks r, hm_abiertos r,
                            hm_conversiones r))
                k rows (toques_heatmap d) r)
      as (r' & Hr' & Hrel); [done|congruence|done|done|].
    exists r'. split; [done|]. by injection Hrel as -> -> -> ->.
  - intros k r Hr.
    destruct (campaigns_after_cases d) as [->|(rows & bound & _ & _ & ->)];
      [by exists r|].
    destruct (upsert_all_rel campaigns_key_params campaigns_key
                campaigns_insert campaigns_update (λ _, eq_refl)
                (λ _ _, eq_refl)
                (λ r r', k_total_chunks r' = k_total_chunks r)
                k bound (campaigns d) r)
      as (r' & Hr' & Hrel); [done|congruence|done|done|].
    by exists r'.
Qed.

(** X9: [transform_daily_stats] leaves, for every day on which the tenant
    has a toques_daily row, a daily_stats row whose [total_messages] is
    the sum of [enviados] over the tenant's toques_daily rows of that day
    (all channels and projects together) and whose three other counters
    are zero, whatever they were; the rows of the days without such a row
    and of other tenants are as before. *)
Theorem daily_stats_sums_enviados d :
  let d' := (transform_daily_stats d).1 in
  (∀ t, t ∈ toques_daily d → td_tenant_id t = TENANT_ID →
     ∃ r, row_of daily_stats_key (TENANT_ID, td_date t) (daily_stats d')
          = Some r
        ∧ ds_total_messages r
          = sum_enviados
              (filter (λ x, td_tenant_id x = TENANT_ID ∧ td_date x = td_date t)
                 (toques_daily d))
        ∧ ds_unique_contacts r = 0
        ∧ ds_conversations r = 0
        ∧ ds_fallback_count r = 0)
  ∧ (∀ k, (∀ t, t ∈ toques_daily d →
                td_tenant_id t = TENANT_ID → (TENANT_ID, td_date t) ≠ k) →
       row_of daily_stats_key k (daily_stats d')
       = row_of daily_stats_key k (daily_stats d)).
Proof.
  cbn zeta. rewrite transform_daily_stats_run. unfold daily_stats_after.
  unfold DAILY_STATS_SQL. cbn [fst].
  set (rows := filter (λ r, td_tenant_id r = TENANT_ID) (toques_daily d)).
  set (mk := λ g : string * date,
         {| ds_tenant_id := g.1; ds_date := g.2;
            ds_total_messages :=
              sum_enviados (filter (λ r, (td_tenant_id r, td_date r) = g) rows);
            ds_unique_contacts := 0; ds_conversations := 0;
            ds_fallback_count := 0 |}).
  set (gs := remove_dups ((λ r, (td_tenant_id r, td_date r)) <$> rows)).
  assert (contacts_eq : daily_stats (set_daily_stats
            (upsert_all daily_stats_key daily_stats_key id daily_stats_update
               (mk <$> gs) (daily_stats d)) d)
          = upsert_all daily_stats_key daily_stats_key id daily_stats_update
              (mk <$> gs) (daily_stats d)) by by destruct d.
  rewrite contacts_eq. clear contacts_eq. split.
  - intros t Ht Et.
    assert (mk (TENANT_ID, td_date t) ∈ mk <$> gs) as Hp.
    { apply list_elem_of_fmap_2, elem_of_remove_dups.
      apply list_elem_of_fmap. exists t. split; [by rewrite Et|].
      by apply list_elem_of_filter. }
    destruct (upsert_all_row_last daily_stats_key daily_stats_key id
                daily_stats_update (λ _, eq_refl) (λ _ _, eq_refl)
                (mk <$> gs) (daily_stats d) _ Hp) as (q & Hq & Hk & o & E).
    apply list_elem_of_fmap in Hq as (g & -> & _).
    assert (g = (TENANT_ID, td_date t)) as ->.
    { destruct g. unfold daily_stats_key in Hk. cbn in Hk. congruence. }
    exists (cell id daily_stats_update (mk (TENANT_ID, td_date t)) o).
    split; [exact E|].
    assert (ds_total_messages (mk (TENANT_ID, td_date t))
            = sum_enviados
                (filter (λ x, td_tenant_id x = TENANT_ID
                              ∧ td_date x = td_date t) (toques_daily d)))
      as Hsum.
    { cbn. unfold rows. rewrite list_filter_filter. f_equal.
      apply list_filter_iff. intros x. split.
      - intros [[= E1 E2] _]. done.
      - intros [E1 E2]. split; [by rewrite E1, E2|done]. }
    by destruct o.
  - intros k Hk.
    rewrite (row_of_upsert_all daily_stats_key daily_stats_key id
               daily_stats_update (λ _, eq_refl) (λ _ _, eq_refl)).
    apply cell_all_other. intros p Hp.
    apply list_elem_of_fmap in Hp as (g & -> & Hg).
    apply elem_of_remove_dups, list_elem_of_fmap in Hg as (t & -> & Ht).
    apply list_elem_of_filter in Ht as [Et Ht].
    unfold daily_stats_key. cbn. rewrite Et. by apply Hk.
Qed.



Lemma transforms_count_nonneg t d c :
  t ∈ TRANSFORMS → (t.2 d).2 = Ok c → 0 ≤ c.
Proof.
  unfold TRANSFORMS. rewrite !elem_of_cons, elem_of_nil.
  intros [->|[->|[->|[->|[->|[]]]]]]; cbn [snd].
  - intros (_ & ? & ? & _ & _ & -> & _)%transform_contacts_Ok. lia.
  - intros (_ & ? & ? & _ & _ & -> & _)%transform_toques_daily_Ok. lia.
  - rewrite transform_heatmap_run.
    destruct (HEATMAP_SQL _ _); cbn; [intros [= <-]; lia|done].
  - intros (_ & ? & ? & _ & _ & -> & _)%transform_campaigns_Ok. lia.
  - rewrite transform_daily_stats_run.
    destruct (DAILY_STATS_SQL _ _); cbn; [intros [= <-]; lia|done].
Qed.

(** The entries of [results] below zero: there is none exactly when
    there was none before the loop and every transform returned at its
    turn. *)
Lemma main_loop_no_error now ts d res :
  (∀ t d c, t ∈ ts → (t.2 d).2 = Ok c → 0 ≤ c) →
  filter (λ e : string * Z, e.2 < 0) (main_loop now ts d res).2 = []
  ↔ filter (λ e : string * Z, e.2 < 0) res = []
    ∧ ∀ i t, ts !! i = Some t →
        ∃ c, (t.2 (main_loop now (take i ts) d []).1).2 = Ok c.
Proof.
  revert d res. induction ts as [|[entity fn] ts IH]; intros d res Hpos.
  { cbn. split; [|by intros [? _]]. intros E. split; [done|].
    intros i t Hi. by rewrite lookup_nil in Hi. }
  cbn [main_loop].
  pose proof (main_step_run now d entity fn) as Hstep.
  destruct (main_step now d (entity, fn)) as [d' count] eqn:Es.
  rewrite IH by (intros t d0 c Ht; apply Hpos; by right).
  rewrite filter_app, app_nil.
  assert (filter (λ e : string * Z, e.2 < 0) [((entity, fn).1, count)] = []
          ↔ ∃ c, (fn d).2 = Ok c) as Hcount.
  { rewrite filter_cons, filter_nil. cbn [fst snd].
    destruct (fn d) as [d1 [c|exc]] eqn:Ef; injection Hstep as _ ->; cbn.
    - assert (0 ≤ c) by (apply (Hpos (entity, fn) d c); [left|cbn; by rewrite Ef]).
      rewrite decide_False by lia. split; [by eexists|done].
    - rewrite decide_True by lia. split; [done|by intros [? ?]]. }
  rewrite Hcount.
  assert (d' = (main_step now d (entity, fn)).1) as -> by by rewrite Es.
  split.
  - intros [[Hres Hfn] Hrest]. split; [done|]. intros [|i] t Hi.
    + injection Hi as <-. done.
    + cbn [take]. rewrite main_loop_cons. by apply Hrest.
  - intros [Hres Hall]. split_and!; [done|exact (Hall 0%nat _ eq_refl)|].
    intros i t Hi. specialize (Hall (S i) t Hi).
    cbn [take] in Hall. by rewrite main_loop_cons in Hall.
Qed.

(** X12: the exit status of [main] is 0 when every transform returned at
    its turn and 1 as soon as one of them raised; a transform that
    returned never counts as an error, since its count is not negative. *)
Theorem main_exit_status now d :
  ((main now d).2 = 0
   ↔ ∀ i t, TRANSFORMS !! i = Some t →
       ∃ count, (t.2 (run_prefix now i d)).2 = Ok count)
  ∧ ((main now d).2 ≠ 0 → (main now d).2 = 1)
  ∧ (∀ t d0 count, t ∈ TRANSFORMS → (t.2 d0).2 = Ok count → 0 ≤ count).
Proof.
  pose proof (main_loop_no_error now TRANSFORMS d []
                (λ t d0 c, transforms_count_nonneg t d0 c)) as H.
  unfold main, run_prefix.
  destruct (main_loop now TRANSFORMS d []) as [d' results]. cbn [snd] in *.
  split_and!.
  - rewrite <- (length_zero_iff_nil (filter _ results)) in H.
    destruct (decide (length (filter (λ e : string * Z, e.2 < 0) results)
                      = 0%nat)) as [E|NE].
    + split; [intros _; by apply H|done].
    + split; [done|]. intros Hall. destruct NE. apply H. by split.
  - by destruct (decide _).
  - intros t d0 count. apply transforms_count_nonneg.
Qed.

(** X13: the sync state holds no history: recording an entity twice
    leaves the table exactly as recording the second outcome alone would,
    whatever the first one was. *)
Theorem sync_state_last_write_wins ts1 ts2 entity c1 c2 s1 s2 d :
  (update_sync_state ts2 entity c2 s2
     (update_sync_state ts1 entity c1 s1 d).1).1
  = (update_sync_state ts2 entity c2 s2 d).1.
Proof.
  unfold update_sync_state, execute. cbn [fst].
  destruct d. unfold set_sync_state. cbn. f_equal. unfold sync_upsert.
  apply upsert_upsert_same; [done..|]. by intros [o|].
Qed.

Lemma CASE_weekday_range w : 0 ≤ CASE_weekday w ≤ 7.
Proof. unfold CASE_weekday. repeat case_decide; lia. Qed.

Lemma CASE_weekday_unknown w :
  CASE_weekday w = 0
  ↔ w ∉ ["monday"; "tuesday"; "wednesday"; "thursday"; "friday";
         "saturday"; "sunday"].
Proof.
  unfold CASE_weekday. rewrite !not_elem_of_cons.
  repeat case_decide; split; try done; try (intros; lia);
    try (intros (?&?&?&?&?&?&?&?); done).
  intros _. split_and!; try done. apply not_elem_of_nil.
Qed.

(** The cells of the heatmap query. *)
Lemma HEATMAP_SQL_cell tid d rows p :
  HEATMAP_SQL tid d = Ok rows → p ∈ rows →
  hf_canal p = "push" ∧ hf_dia_orden p = CASE_weekday (hf_dia_semana p).
Proof.
  unfold HEATMAP_SQL. intros Hrows Hp.
  destruct (rflat_map_elem _ _ _ _ Hrows Hp) as (l & cells & _ & Ecells & Hc).
  unfold heatmap_cells in Ecells.
  destruct (jsonb_each (json_get (data_of l) "weekday-hour")) as [wds|];
    cbn in Ecells; [|done].
  destruct (rflat_map_elem _ _ _ _ Ecells Hc) as (wd & xs & _ & Exs & Hx).
  destruct wd as [wk wv]. destruct wv; cbn in Exs; try done.
  destruct (rmapM_elem _ _ _ _ Exs Hx) as (h & _ & Eh).
  unfold heatmap_hour in Eh.
  destruct (cast_smallint h.1); cbn in Eh; [|done].
  destruct (heat_ctr (jsonb_out h.2)); cbn in Eh; [|done].
  by injection Eh as <-.
Qed.

(** X19: every cell the heatmap query returns has canal [push] and a
    [dia_orden] that is a function of its weekday name alone: 1 to 7 for
    monday to sunday in lower-case English, 0 for any other name.  After
    [transform_heatmap] returned, the key of every such cell holds a row
    with canal [push] and the [dia_orden] of its own weekday name,
    whatever it held before. *)
Theorem heatmap_cells_ordered d rows p :
  HEATMAP_SQL TENANT_ID d = Ok rows → p ∈ rows →
  hf_canal p = "push"
  ∧ hf_dia_orden p = CASE_weekday (hf_dia_semana p)
  ∧ 0 ≤ hf_dia_orden p ≤ 7
  ∧ (hf_dia_orden p = 0
     ↔ hf_dia_semana p ∉ ["monday"; "tuesday"; "wednesday"; "thursday";
                          "friday"; "saturday"; "sunday"])
  ∧ ∃ r, row_of heatmap_key (heatmap_key_flat p)
           (toques_heatmap (transform_heatmap d).1) = Some r
         ∧ hm_canal r = "push"
         ∧ hm_dia_orden r = CASE_weekday (hm_dia_semana r).
Proof.
  intros Hrows Hp.
  destruct (HEATMAP_SQL_cell _ _ _ _ Hrows Hp) as [Hcanal Horden].
  split_and!; [done|done|rewrite Horden; apply CASE_weekday_range..| |].
  { rewrite Horden. apply CASE_weekday_unknown. }
  rewrite transform_heatmap_run, Hrows. cbn [fst].
  replace (toques_heatmap (set_toques_heatmap (toques_heatmap_after d) d))
    with (toques_heatmap_after d) by by destruct d.
  unfold toques_heatmap_after. rewrite Hrows.
  destruct (upsert_all_row_last heatmap_key_flat heatmap_key heatmap_insert
              heatmap_update (λ _, eq_refl) (λ _ _, eq_refl) rows
              (toques_heatmap d) p Hp) as (q & Hq & Hk & o & E).
  eexists. split; [exact E|].
  destruct (HEATMAP_SQL_cell _ _ _ _ Hrows Hq) as [Hqc Hqo].
  apply row_of_Some in E as [_ Ekey].
  unfold heatmap_key, heatmap_key_flat in Ekey, Hk.
  injection Ekey as E1 E2 E3 E4. injection Hk as K1 K2 K3 K4.
  split; [congruence|].
  rewrite E3, <- K3, <- Hqo. by destruct o.
Qed.
End PipelineMore.

(** ** The pagination loop, continued *)

Section ExtractorMore.
Variable client : Type.
Variable client_get : client → request → response * client.
Variable tenant : option string.
Variable landed_at : nat → timestamp.

Local Abbreviation loop := (page_loop client client_get tenant landed_at).

(** The requests and the rows of a run of the loop, one by one. *)
Lemma page_loop_log style path app_id page_size fuel page_num offset e :
  ∃ tr,
    ex_trace client (loop style path app_id page_size fuel page_num offset e)
    = ex_trace client e ++ tr
    ∧ (∀ k rq resp, calls tr !! k = Some (rq, resp) →
         rq = page_request style path app_id page_size (page_num + k)
                (offset + Z.of_nat k * page_size))
    ∧ (∀ k row, stored tr !! k = Some row →
         row = {| rr_tenant_id := tenant; rr_application_id := Some app_id;
                  rr_endpoint := path;
                  rr_loaded_at := landed_at (page_num + k);
                  rr_source_data := rr_source_data row |}
         ∧ is_None (rr_source_data row) = false
         ∧ py_truthy (page_items (rr_source_data row)) = true
         ∧ ((S k < length (stored tr))%nat →
            ∃ n, py_len (page_items (rr_source_data row)) = Some n
                 ∧ page_size ≤ n)).
Proof.
  revert page_num offset e.
  induction fuel as [|fuel IH]; intros page_num offset e.
  { exists []. cbn. rewrite app_nil_r. split_and!; [done|..].
    - intros k rq resp Hk. by cbn in Hk.
    - intros k row Hk. by cbn in Hk. }
  destruct (client_get (ex_client client e)
              (page_request style path app_id page_size page_num offset))
    as [resp c] eqn:Hget.
  rewrite (page_loop_S client client_get tenant landed_at
             _ _ _ _ _ _ _ _ _ _ Hget). cbn zeta.
  set (rq := page_request style path app_id page_size page_num offset).
  assert (∀ k rq' resp',
            [(rq, resp)] !! k = Some (rq', resp') →
            rq' = page_request style path app_id page_size (page_num + k)
                    (offset + Z.of_nat k * page_size)) as Hone.
  { intros [|k] rq' resp' Hk; [|by cbn in Hk].
    injection Hk as <- <-. unfold rq. f_equal; lia. }
  assert (∃ tr, ex_trace client e ++ [EvCall rq resp] = ex_trace client e ++ tr
                ∧ (∀ k rq' resp', calls tr !! k = Some (rq', resp') →
                     rq' = page_request style path app_id page_size
                             (page_num + k) (offset + Z.of_nat k * page_size))
                ∧ (∀ k row, stored tr !! k = Some row →
                     row = {| rr_tenant_id := tenant;
                              rr_application_id := Some app_id;
                              rr_endpoint := path;
                              rr_loaded_at := landed_at (page_num + k);
                              rr_source_data := rr_source_data row |}
                     ∧ is_None (rr_source_data row) = false
                     ∧ py_truthy (page_items (rr_source_data row)) = true
                     ∧ ((S k < length (stored tr))%nat →
                        ∃ n, py_len (page_items (rr_source_data row)) = Some n
                             ∧ page_size ≤ n))) as Hstop.
  { exists [EvCall rq resp]. split_and!; [done|exact Hone|].
    intros k row Hk. by cbn in Hk. }
  destruct resp as [exc|data]; [done|].
  destruct (is_None data || negb (py_truthy (page_items data))) eqn:Eskip;
    [done|].
  apply orb_false_elim in Eskip as [Enone Etruthy].
  apply negb_false_iff in Etruthy.
  set (row := {| rr_tenant_id := tenant; rr_application_id := Some app_id;
                 rr_endpoint := path; rr_loaded_at := landed_at page_num;
                 rr_source_data := data |}).
  assert (∀ full : Prop,
            row = {| rr_tenant_id := tenant; rr_application_id := Some app_id;
                     rr_endpoint := path;
                     rr_loaded_at := landed_at (page_num + 0);
                     rr_source_data := rr_source_data row |}
            ∧ is_None (rr_source_data row) = false
            ∧ py_truthy (page_items (rr_source_data row)) = true) as Hrow.
  { intros _. unfold row. cbn. by rewrite Nat.add_0_r. }
  assert (∃ tr,
            (ex_trace client e ++ [EvCall rq (Returned data)]) ++ [EvStored row]
            = ex_trace client e ++ tr
            ∧ (∀ k rq' resp', calls tr !! k = Some (rq', resp') →
                 rq' = page_request style path app_id page_size
                         (page_num + k) (offset + Z.of_nat k * page_size))
            ∧ (∀ k row, stored tr !! k = Some row →
                 row = {| rr_tenant_id := tenant;
                          rr_application_id := Some app_id;
                          rr_endpoint := path;
                          rr_loaded_at := landed_at (page_num + k);
                          rr_source_data := rr_source_data row |}
                 ∧ is_None (rr_source_data row) = false
                 ∧ py_truthy (page_items (rr_source_data row)) = true
                 ∧ ((S k < length (stored tr))%nat →
                    ∃ n, py_len (page_items (rr_source_data row)) = Some n
                         ∧ page_size ≤ n))) as Hlast.
  { exists [EvCall rq (Returned data); EvStored row].
    rewrite <- app_assoc. split_and!; [done|exact Hone|].
    intros [|k] row' Hk; [|by cbn in Hk].
    injection Hk as <-. destruct (Hrow True) as (H1 & H2 & H3).
    split_and!; [done..|]. cbn. lia. }
  unfold store_raw. cbn [ex_client ex_raw ex_trace]. fold row.
  destruct (py_len (page_items data)) as [n|] eqn:Elen; [|done].
  destruct (n <? page_size) eqn:Efull; [done|].
  apply Z.ltb_ge in Efull.
  edestruct IH as (tr & Etr & Hcalls & Hstored).
  exists (EvCall rq (Returned data) :: EvStored row :: tr).
  rewrite Etr. cbn [ex_trace]. rewrite <- !app_assoc. split_and!; [done|..].
  - intros [|k] rq' resp' Hk.
    + injection Hk as <- <-. unfold rq. f_equal; lia.
    + rewrite (Hcalls k rq' resp' Hk). f_equal; lia.
  - intros [|k] row' Hk.
    + injection Hk as <-. destruct (Hrow True) as (H1 & H2 & H3).
      split_and!; [done..|]. intros _. exists n. by split.
    + destruct (Hstored k row' Hk) as (H1 & H2 & H3 & H4).
      split_and!; [|done..|].
      * rewrite H1 at 1. cbn. do 2 f_equal. lia.
      * intros Hlt. apply H4. unfold stored in *. cbn in Hlt. lia.
Qed.

(** X14: the loop asks for the pages in order, without a gap and without
    asking twice: its [k]-th request (from 0) is for the loop's path and
    application with [limit] the page size and, with limit+page, [page = k],
    with limit+offset, [offset = k * page_size]. *)
Theorem pages_requested_in_order style path app_id page_size fuel e :
  ∃ tr,
    ex_trace client (loop style path app_id page_size fuel 0 0 e)
    = ex_trace client e ++ tr
    ∧ ∀ k rq resp, calls tr !! k = Some (rq, resp) →
        rq_path rq = path ∧ rq_application_id rq = app_id
        ∧ rq_limit rq = page_size
        ∧ rq_cursor rq = match style with
                         | ByOffset => Offset (Z.of_nat k * page_size)
                         | ByPage => Page k
                         end.
Proof.
  destruct (page_loop_log style path app_id page_size fuel 0 0 e)
    as (tr & Etr & Hcalls & _).
  exists tr. split; [done|]. intros k rq resp Hk.
  rewrite (Hcalls k rq resp Hk). by destruct style.
Qed.

(** X15: what the loop stores: the [k]-th row it appends bears the loop's
    path, the application, the extractor's tenant and the clock reading of
    page [k]; its document is not [None] and its items are not empty; and
    every stored page but the last has at least [page_size] items, so a
    short page is always the last one stored. *)
Theorem stored_pages_are_full style path app_id page_size fuel e :
  ∃ tr,
    ex_trace client (loop style path app_id page_size fuel 0 0 e)
    = ex_trace client e ++ tr
    ∧ ∀ k row, stored tr !! k = Some row →
        rr_endpoint row = path ∧ rr_application_id row = Some app_id
        ∧ rr_tenant_id row = tenant ∧ rr_loaded_at row = landed_at k
        ∧ is_None (rr_source_data row) = false
        ∧ py_truthy (page_items (rr_source_data row)) = true
        ∧ ((S k < length (stored tr))%nat →
           ∃ n, py_len (page_items (rr_source_data row)) = Some n
                ∧ page_size ≤ n).
Proof.
  destruct (page_loop_log style path app_id page_size fuel 0 0 e)
    as (tr & Etr & _ & Hstored).
  exists tr. split; [done|]. intros k row Hk.
  destruct (Hstored k row Hk) as (E & H1 & H2 & H3).
  split_and!; try done; by rewrite E.
Qed.
End ExtractorMore.

(** ** Single calls and whole extractors *)

Lemma api_calls_app l1 l2 : api_calls (l1 ++ l2) = api_calls l1 ++ api_calls l2.
Proof. apply omap_app. Qed.

Lemma api_stored_app l1 l2 :
  api_stored (l1 ++ l2) = api_stored l1 ++ api_stored l2.
Proof. apply omap_app. Qed.

Lemma api_calls_of_trace tr :
  api_calls (api_event_of <$> tr)
  = prod_map call_of_request id <$> calls tr.
Proof.
  induction tr as [|[rq resp|row] tr IH]; [done|..]; unfold calls in *; cbn.
  - by rewrite <- IH.
  - done.
Qed.

Lemma api_stored_of_trace tr : api_stored (api_event_of <$> tr) = stored tr.
Proof.
  induction tr as [|[rq resp|row] tr IH]; [done|..]; unfold stored in *; cbn.
  - done.
  - by rewrite <- IH.
Qed.

Lemma api_calls_stored rows : api_calls (ApiStored <$> rows) = [].
Proof. by induction rows. Qed.

Lemma api_stored_stored rows : api_stored (ApiStored <$> rows) = rows.
Proof.
  induction rows as [|r rows IH]; [done|].
  unfold api_stored in *. cbn. by rewrite IH.
Qed.

Lemma substring_append_skip pre n s :
  String.substring (String.length pre) n (pre +:+ s) = String.substring 0 n s.
Proof. by induction pre. Qed.

Lemma string_append_assoc (a b c : string) : a +:+ b +:+ c = (a +:+ b) +:+ c.
Proof.
  induction a as [|x a IH]; [done|].
  change (String x (a +:+ b +:+ c) = String x ((a +:+ b) +:+ c)).
  by rewrite IH.
Qed.

(** [s LIKE '%pat%'] holds of every string that has [pat] somewhere. *)
Lemma like_contains_at pat s m :
  pat ≠ EmptyString →
  String.substring m (String.length pat) s = pat →
  like_contains pat s = true.
Proof.
  intros Hne Hsub. unfold like_contains.
  destruct (String.index 0 pat s) eqn:E; [done|].
  destruct (String.index_correct3 0 m _ _ E Hne); [lia|done].
Qed.

Section ChannelFacts.
Variable client : Type.
Variable client_call : client → api_call → response * client.
Variable tenant : option string.
Variable landed_at : string → nat → timestamp.
Variables date_from date_to : Z.
Variables date_from_str date_to_str : string.
Variable isoformat : Z → string.
Variable EXTRACTION_MAX_RECORDS : Z.

Local Abbreviation get1 := (fetch client client_call tenant landed_at).
Local Abbreviation got := (fetched tenant landed_at).
Local Abbreviation get_all :=
  (fetch_endpoints client client_call tenant landed_at).

(** One single call: the call is logged, and the document, if there is
    one, lands at the end of the raw table. *)
Lemma fetch_run app_id path params s :
  let c := {| ac_path := path; ac_params := params;
              ac_application_id := app_id |} in
  let resp := (client_call (se_client client s) c).1 in
  get1 app_id path params s
  = {| se_client := (client_call (se_client client s) c).2;
       se_raw := se_raw client s ++ got app_id path resp;
       se_log := se_log client s
                 ++ ApiCall c resp :: (ApiStored <$> got app_id path resp) |}.
Proof.
  cbn zeta. unfold fetch, fetched.
  destruct (client_call _ _) as [[exc|data] cl]; cbn.
  - by rewrite app_nil_r.
  - destruct (is_None data); cbn; [by rewrite app_nil_r|].
    unfold resume. cbn. by rewrite <- app_assoc.
Qed.

(** A stretch of pagination inside a session. *)
Lemma resume_loop style path app_id page_size s :
  let s' := resume client s
              (page_loop client (client_get client client_call) tenant
                 (landed_at path) style path app_id page_size MAX_PAGES 0 0
                 (as_extractor client s)) in
  ∃ tr,
    se_log client s' = se_log client s ++ (api_event_of <$> tr)
    ∧ se_raw client s' = se_raw client s ++ stored tr
    ∧ (1 ≤ length (calls tr) ≤ MAX_PAGES)%nat
    ∧ (length (stored tr) ≤ length (calls tr))%nat.
Proof.
  cbn zeta.
  destruct (page_loop_trace client (client_get client client_call) tenant
              (landed_at path) style path app_id page_size MAX_PAGES 0 0
              (as_extractor client s)) as (tr & Etr & Eraw & Hp & Hle & Hge).
  exists tr. unfold resume. cbn [se_log se_raw]. rewrite Etr, Eraw.
  split_and!; [done|done|by apply Hge|done|].
  clear -Hp. unfold calls, stored.
  induction Hp as [|rq resp|rq data row tr E Hp IH]; cbn; lia.
Qed.

(** X16: the two parts of [_extract_for_app] do not depend on each other.
    [ChatExtractor] asks for the agent status once and then runs the
    contacts loop, [ContactsExtractor] runs the loop and then asks for the
    agent status once, [CampaignsExtractor] runs the campaign loop and then
    asks once for the stats of the period with [page = 0]; in each the
    second part runs whatever the first answered or raised, the loop makes
    between 1 and [MAX_PAGES] calls, and the raw table receives, in that
    order and after what it held, what the parts returned. *)
Theorem extractor_parts_independent app_id s :
  let status := {| ac_path := "/v1/chat/agent/status";
                   ac_params := [("applicationId", PStr app_id)];
                   ac_application_id := app_id |} in
  let stats := {| ac_path := "/v1/campaign/stats";
                  ac_params :=
                    [ ("applicationId", PStr app_id);
                      ("dateFrom", PStr date_from_str);
                      ("dateTo", PStr date_to_str);
                      ("limit", PInt (page_size_of EXTRACTION_MAX_RECORDS));
                      ("page", PInt 0) ];
                  ac_application_id := app_id |} in
  (let s' := chat_extract_for_app client client_call tenant landed_at
               EXTRACTION_MAX_RECORDS app_id s in
   ∃ resp tr,
     api_calls (se_log client s')
     = api_calls (se_log client s)
       ++ (status, resp) :: (prod_map call_of_request id <$> calls tr)
     ∧ se_raw client s'
       = se_raw client s ++ got app_id "/v1/chat/agent/status" resp
         ++ stored tr
     ∧ (1 ≤ length (calls tr) ≤ MAX_PAGES)%nat
     ∧ (length (stored tr) ≤ length (calls tr))%nat)
  ∧ (let s' := contacts_extract_for_app client client_call tenant landed_at
                 EXTRACTION_MAX_RECORDS app_id s in
     ∃ tr resp,
       api_calls (se_log client s')
       = api_calls (se_log client s)
         ++ (prod_map call_of_request id <$> calls tr) ++ [(status, resp)]
       ∧ se_raw client s'
         = se_raw client s ++ stored tr
           ++ got app_id "/v1/chat/agent/status" resp
       ∧ (1 ≤ length (calls tr) ≤ MAX_PAGES)%nat
       ∧ (length (stored tr) ≤ length (calls tr))%nat)
  ∧ (let s' := campaigns_extract_for_app client client_call tenant landed_at
                 date_from_str date_to_str EXTRACTION_MAX_RECORDS app_id s in
     ∃ tr resp,
       api_calls (se_log client s')
       = api_calls (se_log client s)
         ++ (prod_map call_of_request id <$> calls tr) ++ [(stats, resp)]
       ∧ se_raw client s'
         = se_raw client s ++ stored tr
           ++ got app_id "/v1/campaign/stats" resp
       ∧ (1 ≤ length (calls tr) ≤ MAX_PAGES)%nat
       ∧ (length (stored tr) ≤ length (calls tr))%nat).
Proof.
  cbn zeta. split_and!.
  - unfold chat_extract_for_app, chat_contacts_loop. cbn zeta.
    set (s1 := get1 app_id "/v1/chat/agent/status" _ s).
    destruct (resume_loop ByOffset "/v1/chat/contacts" app_id
                (page_size_of EXTRACTION_MAX_RECORDS) s1)
      as (tr & Elog & Eraw & Hcalls & Hstored).
    eexists _, tr. rewrite Elog, Eraw. unfold s1. rewrite fetch_run.
    cbn [se_log se_raw].
    rewrite !api_calls_app, api_calls_of_trace. cbn.
    rewrite api_calls_stored, <- !app_assoc. done.
  - unfold contacts_extract_for_app, contacts_loop. cbn zeta.
    destruct (resume_loop ByPage "/v1/chat/contacts" app_id
                (page_size_of EXTRACTION_MAX_RECORDS) s)
      as (tr & Elog & Eraw & Hcalls & Hstored).
    exists tr. eexists. rewrite fetch_run. cbn [se_log se_raw].
    rewrite Elog, Eraw.
    rewrite !api_calls_app, api_calls_of_trace. cbn.
    rewrite api_calls_stored, <- !app_assoc. done.
  - unfold campaigns_extract_for_app, campaigns_loop. cbn zeta.
    destruct (resume_loop ByPage "/v1/campaign" app_id
                (page_size_of EXTRACTION_MAX_RECORDS) s)
      as (tr & Elog & Eraw & Hcalls & Hstored).
    exists tr. eexists. rewrite fetch_run. cbn [se_log se_raw].
    rewrite Elog, Eraw.
    rewrite !api_calls_app, api_calls_of_trace. cbn.
    rewrite api_calls_stored, <- !app_assoc. done.
Qed.

(** The endpoint loop: one call per endpoint, in order. *)
Lemma fetch_endpoints_run app_id endpoints s :
  ∃ resps,
    length resps = length endpoints
    ∧ api_calls (se_log client (get_all app_id endpoints s))
      = api_calls (se_log client s)
        ++ zip (call_of_endpoint app_id <$> endpoints) resps
    ∧ se_raw client (get_all app_id endpoints s)
      = se_raw client s
        ++ concat (zip_with (λ ep, got app_id (ep_path ep)) endpoints resps)
    ∧ api_stored (se_log client (get_all app_id endpoints s))
      = api_stored (se_log client s)
        ++ concat (zip_with (λ ep, got app_id (ep_path ep)) endpoints resps).
Proof.
  revert s. induction endpoints as [|ep eps IH]; intros s.
  { exists []. cbn. by rewrite !app_nil_r. }
  unfold fetch_endpoints. cbn [fold_left].
  destruct (IH (get1 app_id (ep_path ep) (ep_params ep) s))
    as (resps & Hlen & Hcalls & Hraw & Hstored).
  unfold fetch_endpoints in Hcalls, Hraw, Hstored.
  rewrite Hcalls, Hraw, Hstored, fetch_run. cbn [se_log se_raw].
  eexists (_ :: resps). cbn. rewrite Hlen.
  rewrite !api_calls_app, !api_stored_app. cbn.
  rewrite api_calls_stored, api_stored_stored, <- !app_assoc. done.
Qed.

(** X17: the endpoint loop of [PushExtractor], [SMSExtractor],
    [EmailExtractor] and [InAppExtractor] calls every endpoint of its list
    exactly once and in order, whatever the earlier ones answered or
    raised, and lands exactly the documents that came back and were not
    [None], each tagged with the path of its endpoint. *)
Theorem every_endpoint_is_called app_id endpoints s :
  let s' := get_all app_id endpoints s in
  ∃ resps,
    length resps = length endpoints
    ∧ api_calls (se_log client s')
      = api_calls (se_log client s)
        ++ zip (call_of_endpoint app_id <$> endpoints) resps
    ∧ se_raw client s'
      = se_raw client s
        ++ concat (zip_with (λ ep, got app_id (ep_path ep)) endpoints resps)
    ∧ api_stored (se_log client s')
      = api_stored (se_log client s)
        ++ concat (zip_with (λ ep, got app_id (ep_path ep)) endpoints resps).
Proof. apply fetch_endpoints_run. Qed.

Lemma fetched_endpoint app_id path resp row :
  row ∈ got app_id path resp → rr_endpoint row = path.
Proof.
  unfold fetched. destruct resp as [exc|data];
    [intros H; by apply elem_of_nil in H|].
  destruct (is_None data); [intros H; by apply elem_of_nil in H|].
  by intros ->%list_elem_of_singleton.
Qed.

(** X18: [PushExtractor] makes its four calls whatever happens, the third
    for a window that starts neither before [date_from] nor more than
    seven days before [date_to]; and whatever the application id, the
    snapshots it lands from dateStats and from pushHeatmap bear an endpoint
    that passes the [LIKE] filter of the toques_daily and of the heatmap
    transform. *)
Theorem push_extractor_feeds_transforms app_id s :
  let s' := push_extract_for_app client client_call tenant landed_at
              date_from date_to date_from_str date_to_str isoformat
              app_id s in
  let eps := push_endpoints date_from date_to date_from_str date_to_str
               isoformat app_id in
  (api_calls (se_log client s')).*1
  = (api_calls (se_log client s)).*1 ++ (call_of_endpoint app_id <$> eps)
  ∧ (∃ day, ep_params <$> eps !! 2%nat
            = Some [ ("dateFrom", PStr (isoformat day));
                     ("dateTo", PStr date_to_str) ]
            ∧ date_from ≤ day ∧ date_to - 7 ≤ day
            ∧ (date_from ≤ date_to → day ≤ date_to))
  ∧ (∀ ep resp row,
       eps !! 0%nat = Some ep → row ∈ got app_id (ep_path ep) resp →
       like_contains "/dateStats" (rr_endpoint row) = true)
  ∧ (∀ ep resp row,
       eps !! 1%nat = Some ep → row ∈ got app_id (ep_path ep) resp →
       like_contains "/pushHeatmap" (rr_endpoint row) = true).
Proof.
  cbn zeta. split_and!.
  - unfold push_extract_for_app.
    destruct (fetch_endpoints_run app_id
                (push_endpoints date_from date_to date_from_str date_to_str
                   isoformat app_id) s) as (resps & Hlen & Hcalls & _).
    rewrite Hcalls, fmap_app. f_equal. apply fst_zip. rewrite length_fmap. lia.
  - exists (device_date_from date_from date_to). unfold device_date_from.
    split_and!; [done|lia..].
  - intros ep resp row [= <-] Hrow. cbn [ep_path] in Hrow.
    rewrite (fetched_endpoint _ _ _ _ Hrow).
    apply (like_contains_at _ _
             (String.length ("/v1/application/" +:+ app_id))); [done|].
    by rewrite string_append_assoc, substring_append_skip.
  - intros ep resp row [= <-] Hrow. cbn [ep_path] in Hrow.
    rewrite (fetched_endpoint _ _ _ _ Hrow).
    apply (like_contains_at _ _
             (String.length ("/v1/application/" +:+ app_id))); [done|].
    by rewrite string_append_assoc, substring_append_skip.
Qed.
End ChannelFacts.

(** ** The theorems on the example databases *)

#[local] Existing Instance Example.B.

(** Close the goal with [t], whose type evaluates to it. *)
Ltac by_vm t := lazymatch goal with |- ?G => exact (t <: G) end.

(** An equation whose left side evaluates to its right side. *)
Ltac vm_refl :=
  lazymatch goal with |- @eq ?T ?l ?r => exact (@eq_refl T r <: @eq T l r) end.

Lemma failure_isolation_witness :
  let msg := "invalid input syntax for type integer: "
             +:+ Reference.quoted Example.long_note in
  let cut := "invalid input syntax for type integer: "
             +:+ String (ascii_of_nat 34)
                   (Example.copies 8 "sin envíos todavía; ") in
  let refused := "value too long for type character varying(255)" in
  let d3 := run_prefix Example.clock 3 Example.db_refused in
  (code_points msg = 261%nat
   ∧ truncate200 msg = cut
   ∧ code_points cut = 200%nat ∧ String.length cut = 216%nat)
  ∧ (TRANSFORMS !! 3%nat = Some ("campaigns", transform_campaigns)
     ∧ (transform_campaigns (run_prefix Example.clock 3 Example.db_bad)).2
       = Err msg
     ∧ normalized (run_prefix Example.clock 4 Example.db_bad)
       = normalized (run_prefix Example.clock 3 Example.db_bad)
     ∧ raw_landing (run_prefix Example.clock 4 Example.db_bad)
       = raw_landing (run_prefix Example.clock 3 Example.db_bad)
     ∧ row_of sync_key (TENANT_ID, "campaigns")
         (sync_state (main Example.clock Example.db_bad).1)
       = Some {| ss_tenant_id := TENANT_ID; ss_entity := "campaigns";
                 ss_last_sync_at := 1000; ss_records_synced := 0;
                 ss_status := "error: " +:+ cut |})
  ∧ (TRANSFORMS !! 0%nat = Some ("contacts", transform_contacts)
     ∧ row_of sync_key (TENANT_ID, "contacts")
         (sync_state (main Example.clock Example.db_bad).1)
       = Some {| ss_tenant_id := TENANT_ID; ss_entity := "contacts";
                 ss_last_sync_at := 1000; ss_records_synced := 1;
                 ss_status := "success" |})
  ∧ (transform_campaigns d3 = ((transform_campaigns d3).1, Err refused)
     ∧ campaigns d3 = []
     ∧ k_campana_id <$> campaigns (transform_campaigns d3).1 = ["41"]
     ∧ main_step Example.clock d3 ("campaigns", transform_campaigns)
       = (set_sync_state
            (sync_upsert
               {| ss_tenant_id := TENANT_ID; ss_entity := "campaigns";
                  ss_last_sync_at := 1000; ss_records_synced := 0;
                  ss_status := "error: " +:+ truncate200 refused |}
               (sync_state d3)) d3, -1)
     ∧ truncate200 refused = refused).
Proof.
  intros msg cut refused d3.
  pose proof (failure_isolation Example.clock Example.db_bad)
    as (Hcut & Hstep & Hrun).
  split; [|split; [|split]].
  - destruct (Hcut msg) as (_ & Hpoints & _).
    assert (code_points msg = 261%nat) as Hmsg by (vm_compute; reflexivity).
    split; [exact Hmsg|]. split; [vm_compute; reflexivity|].
    split; [|vm_compute; reflexivity].
    change cut with (truncate200 msg). rewrite Hpoints, Hmsg. reflexivity.
  - split; [exact eq_refl|]. split; [vm_compute; reflexivity|].
    by_vm (Hrun 3%nat "campaigns" transform_campaigns eq_refl).
  - split; [exact eq_refl|].
    by_vm (Hrun 0%nat "contacts" transform_contacts eq_refl).
  - assert (transform_campaigns d3 = ((transform_campaigns d3).1, Err refused))
      as Hexc by vm_refl.
    split; [exact Hexc|]. split; [vm_refl|].
    split; [vm_compute; reflexivity|].
    split; [exact (Hstep "campaigns" transform_campaigns d3 _ refused Hexc)|].
    apply (Hcut refused). vm_compute. lia.
Defined.

Lemma sync_state_keyed_upsert_witness :
  NoDup (keys sync_key (sync_state Example.db_bad))
  ∧ NoDup (keys sync_key
             (sync_state
                (update_sync_state 1000 "campaigns" 0 "error: boom"
Example.db_bad).1))
∧ NoDup (keys sync_key (sync_state (main Example.clock Example.db_bad).1)).
Proof.
  assert (NoDup (keys sync_key (sync_state Example.db_bad))) as Hnd.
  { apply (bool_decide_unpack _). vm_compute. exact I. }
  split; [exact Hnd|]. split.
  - by_vm (proj1 (proj2 (proj2 (proj2 (proj2
             (sync_state_keyed_upsert Example.clock 1000 "campaigns" 0
                "error: boom" Example.db_bad))))) Hnd).
  - exact (proj2 (proj2 (proj2 (proj2 (proj2
             (sync_state_keyed_upsert Example.clock 1000 "campaigns" 0
                "error: boom" Example.db_bad))))) Hnd).
Defined.

Lemma error_overwrites_count_witness :
  let msg := "invalid input syntax for type integer: "
             +:+ Reference.quoted Example.long_note in
  let cut := "invalid input syntax for type integer: "
             +:+ String (ascii_of_nat 34)
                   (Example.copies 8 "sin envíos todavía; ") in
  row_of sync_key (TENANT_ID, "campaigns") (sync_state Example.db_bad)
  = Some {| ss_tenant_id := TENANT_ID; ss_entity := "campaigns";
            ss_last_sync_at := 5; ss_records_synced := 7;
            ss_status := "success" |}
  ∧ TRANSFORMS !! 3%nat = Some ("campaigns", transform_campaigns)
  ∧ (transform_campaigns (run_prefix Example.clock 3 Example.db_bad)).2
    = Err msg
  ∧ row_of sync_key (TENANT_ID, "campaigns")
      (sync_state (main Example.clock Example.db_bad).1)
    = Some {| ss_tenant_id := TENANT_ID; ss_entity := "campaigns";
              ss_last_sync_at := 1000; ss_records_synced := 0;
              ss_status := "error: " +:+ cut |}
  ∧ (code_points msg = 261%nat ∧ String.length msg = 283%nat)
  ∧ (code_points (truncate200 msg) = 200%nat
     ∧ String.length (truncate200 msg) = 216%nat)
  ∧ String.prefix (truncate200 msg) msg = true.
Proof.
  intros msg cut.
  assert ((transform_campaigns (run_prefix Example.clock 3 Example.db_bad)).2
          = Err msg) as Hexc
    by (vm_compute; reflexivity).
  destruct (error_overwrites_count Example.clock Example.db_bad 3
              "campaigns" transform_campaigns msg eq_refl Hexc)
    as (Hrow & Hpre & Hpoints & _).
  assert (code_points msg = 261%nat) as Hmsg by (vm_compute; reflexivity).
  split; [vm_compute; reflexivity|]. split; [exact eq_refl|].
  split; [exact Hexc|].
  split; [by_vm Hrow|].
  split; [split; [exact Hmsg|vm_compute; reflexivity]|].
  split; [|exact Hpre].
  split; [|vm_compute; reflexivity].
  rewrite Hpoints, Hmsg. reflexivity.
Defined.


(** C2 fails as stated: with "Gise" loaded at 1 and "Gisela" loaded at
    2 > 1, the row of the contact is not named "Gisela" when the first
    snapshot carries the later [updatedAt]. *)
Lemma most_recent_load_counterexample :
  let d := Example.fresh Example.gise_updated_later [] [] [] in
  rr_loaded_at <$> raw_contacts_api d = [1; 2]
  ∧ ¬ ∃ row,
        row_of contacts_key (TENANT_ID, "573054821614")
          (contacts (main Example.clock d).1) = Some row
        ∧ c_contact_name row = Some "Gisela".
Proof.
  split; [reflexivity|]. intros (row & Hrow & Hname).
  vm_compute in Hrow. injection Hrow as <-. discriminate Hname.
Qed.

Lemma dedup_keeps_first_ranked_witness :
  let d := Example.fresh Example.gise_then_gisela [] [] [] in
  (1 < 2 ∧ 20240301 ≤ 20240301
   ∧ ∃ row,
       filter (λ x, contacts_key x = ("visionamos", "573054821614"))
         (contacts (main Example.clock d).1) = [row]
       ∧ c_contact_name row = Some "Gisela")
  ∧ (∃ flat kept,
       contacts_flattened TENANT_ID (raw_contacts_api Example.db_good) = Ok flat
       ∧ CONTACTS_SQL TENANT_ID Example.db_good = Ok kept
       ∧ length flat = 2%nat ∧ length kept = 1%nat)
  ∧ (∃ flat kept,
       toques_flattened TENANT_ID APP_ID (raw_push_stats Example.db_good) = Ok flat
       ∧ TOQUES_DAILY_SQL TENANT_ID APP_ID Example.db_good = Ok kept
       ∧ length flat = 3%nat ∧ length kept = 2%nat)
  ∧ (∃ flat kept,
       campaigns_flattened TENANT_ID APP_ID (raw_campaigns_api Example.db_good)
       = Ok flat
       ∧ CAMPAIGNS_SQL TENANT_ID APP_ID Example.db_good = Ok kept
       ∧ length flat = 1%nat ∧ length kept = 1%nat).
Proof.
  intros d.
  pose proof (dedup_keeps_first_ranked TENANT_ID APP_ID Example.clock d)
    as (_ & _ & _ & H4).
  pose proof (dedup_keeps_first_ranked TENANT_ID APP_ID Example.clock
Example.db_good) as (H1 & H2 & H3 & _).
split_and!.
- lia.
- lia.
- apply (H4 1 2 "2024-01-05T10:00:00Z" "2024-03-01T08:00:00Z"
"2024-01-05T10:00:00Z" "2024-03-01T09:30:00Z"
20240105 20240301 20240105 20240301);
[left; reflexivity|vm_compute; reflexivity..|constructor|lia|lia].
- destruct (contacts_flattened TENANT_ID (raw_contacts_api Example.db_good))
as [flat|] eqn:E; [|by vm_compute in E].
destruct (H1 flat eq_refl) as (kept & Ek & _).
exists flat, kept. split_and!; [done..| |].
+ vm_compute in E. by injection E as <-.
+ vm_compute in Ek. by injection Ek as <-.
- destruct (toques_flattened TENANT_ID APP_ID (raw_push_stats Example.db_good))
as [flat|] eqn:E; [|by vm_compute in E].
destruct (H2 flat eq_refl) as (kept & Ek & _).
exists flat, kept. split_and!; [done..| |].
+ vm_compute in E. by injection E as <-.
+ vm_compute in Ek. by injection Ek as <-.
- destruct (campaigns_flattened TENANT_ID APP_ID
(raw_campaigns_api Example.db_good))
as [flat|] eqn:E; [|by vm_compute in E].
destruct (H3 flat eq_refl) as (kept & Ek & _).
exists flat, kept. split_and!; [done..| |].
+ vm_compute in E. by injection E as <-.
+ vm_compute in Ek. by injection Ek as <-.
Defined.



Lemma merge_policy_witness :
  (∃ new,
     row_of contacts_key (contacts_key_flat Example.contact_update)
       (CONTACTS_UPSERT Example.contact_update Example.contacts_before)
     = Some new
     ∧ length (CONTACTS_UPSERT Example.contact_update Example.contacts_before)
       = 1%nat
     ∧ c_first_contact new = Some 20231224
     ∧ c_last_contact new = Some 20240301)
  ∧ (∃ new,
       row_of toques_key (toques_key_flat Example.nothing_sent)
         (TOQUES_DAILY_UPSERT (toques_params_of Example.nothing_sent)
Example.toques_before) = Some new
∧ td_enviados new = 0 ∧ td_clicks new = 0)
∧ (∃ new,
row_of campaigns_key (campaigns_key_flat Example.no_campaign_sent)
(CAMPAIGNS_UPSERT (campaigns_params_of Example.no_campaign_sent)
Example.campaigns_before) = Some new
∧ k_total_enviados new = 0 ∧ k_total_conversiones new = 0).
Proof.
  destruct (merge_policy (B := Example.B)) as (Hc & _ & Ht & Hk).
  split_and!.
  - destruct (Hc Example.contacts_before Example.contact_update _ eq_refl)
      as (new & Enew & Hlen & Hf & Hl).
    exists new. split; [exact Enew|]. split; [exact Hlen|].
    split; [exact Hf|exact Hl].
  - destruct (Ht Example.toques_before (toques_params_of Example.nothing_sent)
                _ eq_refl) as (new & Enew & _ & He & _ & Hcl & _).
    exists new. split; [exact Enew|]. split; [exact He|exact Hcl].
  - destruct (Hk Example.campaigns_before
                (campaigns_params_of Example.no_campaign_sent) _ eq_refl)
      as (new & Enew & _ & He & _ & _ & _ & _ & _ & _ & _ & Hcv).
    exists new. split; [exact Enew|]. split; [exact He|exact Hcv].
Defined.

(** C9 fails as stated: the newest pushHeatmap snapshot, loaded at 2, holds
    an empty list where the cells should be; the query passes over it and
    flattens the snapshot loaded at 1, whose cell the transform writes. *)
Lemma heatmap_newest_ignored_counterexample :
  let older := Example.snapshot "/v1/application/100274/pushHeatmap" 1
                 (Example.heatmap "0.0125" []) in
  let newer := Example.snapshot "/v1/application/100274/pushHeatmap" 2
                 (JArr []) in
  let d := Example.db_heat_empty in
  raw_push_stats d = [older; newer]
  ∧ rr_tenant_id newer = rr_tenant_id older
  ∧ rr_loaded_at older < rr_loaded_at newer
  ∧ like_contains "/pushHeatmap" (rr_endpoint newer) = true
  ∧ heatmap_latest TENANT_ID (raw_push_stats d) = [older]
  ∧ HEATMAP_SQL TENANT_ID d
    = Ok [@Build_heatmap_flat Example.B "visionamos" "push" "monday" 9
            (Qmake 5 4) 1]
  ∧ toques_heatmap d = []
  ∧ toques_heatmap (transform_heatmap d).1
    = [@Build_heatmap_row Example.B "visionamos" "push" "monday" 9 0 0 0 0
         (Qmake 5 4) 1].
Proof.
  intros older newer d.
  split; [exact eq_refl|]. split; [exact eq_refl|].
  split; [exact eq_refl|]. split; [vm_compute; reflexivity|].
  split; [vm_compute; reflexivity|]. split; [vm_refl|].
  split; [exact eq_refl|]. vm_refl.
Qed.


Lemma pagination_termination_witness :
  let e := Example.extractor_on Example.three_pages in
  let run := contacts_loop (list response) scripted (Some "visionamos")
Example.landed "100274" 50 e in
length (calls (ex_trace _ run)) = 3%nat
∧ rr_source_data <$> ex_raw _ run
= [page_of (Example.items 50); page_of (Example.items 50);
page_of (Example.items 23)]
∧ (length (calls
(ex_trace _
   (page_loop (list response) scripted (Some "visionamos")
Example.landed ByPage "/v1/chat/contacts" "100274" 50
(MAX_PAGES - 2) 2 100
(Example.extractor_on [Returned (page_of (Example.items 23))]))))
= 1%nat
↔ Example.items 23 = [] ∨ Z.of_nat (length (Example.items 23)) < 50
∨ 3%nat = MAX_PAGES).
Proof.
  intros e run.
  destruct (pagination_termination (list response) scripted (Some "visionamos")
Example.landed ByPage "/v1/chat/contacts" "100274")
as (Hstop & _ & Hthree).
destruct (Hthree e (Example.items 50) (Example.items 50) (Example.items 23)
(tail Example.three_pages) (tail (tail Example.three_pages)) []
eq_refl eq_refl eq_refl eq_refl eq_refl eq_refl)
as (_ & Hraw & Hcalls & _).
split_and!.
- exact Hcalls.
- unfold run, contacts_loop. rewrite Hraw. reflexivity.
- apply (Hstop 50 2%nat 100
(Example.extractor_on [Returned (page_of (Example.items 23))])
(page_of (Example.items 23)) (Example.items 23) []);
[unfold MAX_PAGES; lia|reflexivity|reflexivity].
Defined.


Lemma transform_raises_in_query_or_statement_witness :
  let refused := "value too long for type character varying(255)" in
  let d := Example.db_refused in
  (transform_campaigns d).2 = Err refused
  ∧ ((CAMPAIGNS_SQL TENANT_ID APP_ID d = Err refused
      ∧ (transform_campaigns d).1 = d)
     ∨ (∃ rows before p rest bound,
          CAMPAIGNS_SQL TENANT_ID APP_ID d = Ok rows
          ∧ campaigns_params_of <$> rows = before ++ p :: rest
          ∧ rmapM campaigns_bind before = Ok bound
          ∧ campaigns_bind p = Err refused
          ∧ (transform_campaigns d).1
            = set_campaigns
                (upsert_all campaigns_key_params campaigns_key
                   campaigns_insert campaigns_update bound (campaigns d)) d
          ∧ campaigns_after d = campaigns d))
  ∧ campaigns d = []
  ∧ k_campana_id <$> campaigns (transform_campaigns d).1 = ["41"]
  ∧ campaigns (main Example.clock d).1 = [].
Proof.
  intros refused d.
  assert ((transform_campaigns d).2 = Err refused) as Hexc
    by (vm_compute; reflexivity).
  split; [exact Hexc|].
  split;
    [exact (proj2 (proj2 (transform_raises_in_query_or_statement d refused))
              Hexc)|].
  split; [vm_refl|]. split; [vm_compute; reflexivity|]. vm_refl.
Defined.

Lemma transform_counts_distinct_keys_witness :
  (transform_contacts Example.db_good).2 = Ok 1
  ∧ ∃ flat,
      contacts_flattened TENANT_ID (raw_contacts_api Example.db_good) = Ok flat
      ∧ 1 = Z.of_nat (length (remove_dups (contacts_key_flat <$> flat)))
      ∧ length flat = 2%nat.
Proof.
  assert ((transform_contacts Example.db_good).2 = Ok 1) as Hret
    by (vm_compute; reflexivity).
  split; [exact Hret|].
  destruct (proj1 (transform_counts_distinct_keys Example.db_good 1) Hret)
    as (flat & E & Hn).
  exists flat. split; [exact E|]. split; [exact Hn|].
  vm_compute in E. injection E as <-. reflexivity.
Defined.

Lemma main_keeps_unique_keys_witness :
  db_unique Scenario.db_stored
  ∧ db_unique (main Example.clock Scenario.db_stored).1.
Proof.
  assert (db_unique Scenario.db_stored) as Hu.
  { apply (bool_decide_unpack _). vm_compute. exact I. }
  split; [exact Hu|].
  exact (main_keeps_unique_keys Example.clock Scenario.db_stored Hu).
Defined.


Lemma contact_interval_only_widens_witness :
  ∃ r', row_of contacts_key ("visionamos", "573054821614")
          (contacts (main Example.clock Scenario.db_stored).1) = Some r'
        ∧ c_total_messages r' = 12
        ∧ c_total_conversations r' = 4
        ∧ not_after (c_first_contact r') (Some 20231224)
        ∧ not_before (c_last_contact r') (Some 20240215).
Proof.
  apply (contact_interval_only_widens Example.clock Scenario.db_stored
           ("visionamos", "573054821614")
           {| c_tenant_id := "visionamos"; c_contact_id := "573054821614";
              c_contact_name := Some "G."; c_total_messages := 12;
              c_first_contact := Some 20231224;
              c_last_contact := Some 20240215;
              c_total_conversations := 4 |}).
  vm_compute. reflexivity.
Defined.

Lemma unnamed_columns_survive_witness :
  (∃ r', row_of toques_key ("visionamos", 20240301, "android", "100274")
           (toques_daily (main Example.clock Scenario.db_stored).1) = Some r'
         ∧ td_chunks r' = 3 ∧ td_usuarios_unicos r' = 77
         ∧ td_rebotes r' = 1 ∧ td_bloqueados r' = 2 ∧ td_spam r' = 0
         ∧ td_desuscritos r' = 4 ∧ td_conversiones r' = 5
         ∧ td_conversion_rate r' = Qmake 5 1)
  ∧ (∃ r', row_of heatmap_key ("visionamos", "push", "monday", 9)
             (toques_heatmap (main Example.clock Scenario.db_stored).1)
           = Some r'
           ∧ hm_enviados r' = 10 ∧ hm_clicks r' = 2 ∧ hm_abiertos r' = 5
           ∧ hm_conversiones r' = 1)
  ∧ (∃ r', row_of campaigns_key ("visionamos", "41")
             (campaigns (main Example.clock Scenario.db_stored).1) = Some r'
           ∧ k_total_chunks r' = 6).
Proof.
  destruct (unnamed_columns_survive Example.clock Scenario.db_stored)
    as (Ht & Hh & Hk).
  split_and!.
  - apply (Ht ("visionamos", 20240301, "android", "100274")
             (@Build_toques_daily_row Example.B "visionamos" 20240301 "android"
                "100274" 100 90 7 3 77 40 1 2 0 4 5 (Qmake 7 1) (Qmake 90 1)
                (Qmake 400 9) (Qmake 5 1))).
    vm_refl.
  - apply (Hh ("visionamos", "push", "monday", 9)
             (@Build_heatmap_row Example.B "visionamos" "push" "monday" 9
                10 2 5 1 (Qmake 5 4) 1)).
    vm_refl.
  - apply (Hk ("visionamos", "41")
             (@Build_campaign_row Example.B "visionamos" "41" "Bienvenida"
                "push" "100274" None 50 40 4 6 None None 10 0 0 0 0 1
                (Qmake 8 1) (Qmake 80 1) (Qmake 25 1) (Qmake 25 1))).
    vm_refl.
Defined.

Lemma daily_stats_sums_enviados_witness :
  (∃ r, row_of daily_stats_key ("visionamos", 20240301)
          (daily_stats (transform_daily_stats Scenario.db_stored).1) = Some r
        ∧ ds_total_messages r = 160
        ∧ ds_unique_contacts r = 0
        ∧ ds_conversations r = 0
        ∧ ds_fallback_count r = 0)
  ∧ row_of daily_stats_key ("visionamos", 20230101)
      (daily_stats (transform_daily_stats Scenario.db_stored).1)
    = Some {| ds_tenant_id := "visionamos"; ds_date := 20230101;
              ds_total_messages := 11; ds_unique_contacts := 2;
              ds_conversations := 3; ds_fallback_count := 1 |}.
Proof.
  destruct (daily_stats_sums_enviados Scenario.db_stored) as (Hsum & Hother).
  split.
  - destruct (Hsum (@Build_toques_daily_row Example.B "visionamos" 20240301
                      "android" "100274" 100 90 7 3 77 40 1 2 0 4 5 (Qmake 7 1)
                      (Qmake 90 1) (Qmake 400 9) (Qmake 5 1)))
      as (r & Hr & Htotal & Hrest); [left|reflexivity|].
    exists r. split; [exact Hr|]. split; [|exact Hrest].
    rewrite Htotal. vm_compute. reflexivity.
  - rewrite (Hother ("visionamos", 20230101)); [vm_compute; reflexivity|].
    intros t Ht _. change (toques_daily Scenario.db_stored)
      with Scenario.toques_counted in Ht.
    unfold Scenario.toques_counted in Ht.
    rewrite !elem_of_cons, elem_of_nil in Ht.
    destruct Ht as [->|[->|[->|[]]]]; discriminate.
Defined.



Lemma main_exit_status_witness :
  (main Example.clock Example.db_good).2 = 0
  ∧ (∀ i t, TRANSFORMS !! i = Some t →
       ∃ count, (t.2 (run_prefix Example.clock i Example.db_good)).2 = Ok count)
  ∧ (main Example.clock Example.db_bad).2 = 1.
Proof.
  assert ((main Example.clock Example.db_good).2 = 0) as H0
    by (vm_compute; reflexivity).
  assert ((main Example.clock Example.db_bad).2 = 1) as H1
    by (vm_compute; reflexivity).
  split; [exact H0|]. split.
  - exact (proj1 (proj1 (main_exit_status Example.clock Example.db_good)) H0).
  - apply (proj1 (proj2 (main_exit_status Example.clock Example.db_bad))).
    rewrite H1. discriminate.
Defined.

Lemma pages_requested_in_order_witness :
  let e := Example.extractor_on Example.three_pages in
  let run := chat_contacts_loop (list response) scripted (Some "visionamos")
Example.landed "100274" 50 e in
∃ rq resp,
calls (ex_trace _ run) !! 2%nat = Some (rq, resp)
∧ rq_path rq = "/v1/chat/contacts" ∧ rq_application_id rq = "100274"
∧ rq_limit rq = 50 ∧ rq_cursor rq = Offset 100.
Proof.
  intros e run.
  destruct (pages_requested_in_order (list response) scripted
              (Some "visionamos") Example.landed ByOffset "/v1/chat/contacts"
              "100274" 50 MAX_PAGES e) as (tr & Etr & Hcalls).
  change (ex_trace (list response) e) with (@nil event) in Etr.
  cbn [app] in Etr.
  assert (calls tr !! 2%nat
          = Some (page_request ByOffset "/v1/chat/contacts" "100274" 50 2 100,
                  Returned (page_of (Example.items 23)))) as Hk
    by (rewrite <- Etr; vm_compute; reflexivity).
  exists (page_request ByOffset "/v1/chat/contacts" "100274" 50 2 100),
    (Returned (page_of (Example.items 23))).
  split; [|exact (Hcalls 2%nat _ _ Hk)].
  unfold run, chat_contacts_loop. change (page_size_of 50) with 50.
  rewrite Etr. exact Hk.
Defined.

Lemma stored_pages_are_full_witness :
  let e := Example.extractor_on Example.three_pages in
  let run := contacts_loop (list response) scripted (Some "visionamos")
Example.landed "100274" 50 e in
∃ row n,
stored (ex_trace _ run) !! 1%nat = Some row
∧ rr_endpoint row = "/v1/chat/contacts"
∧ rr_loaded_at row = 1001
∧ py_len (page_items (rr_source_data row)) = Some n ∧ 50 ≤ n.
Proof.
  intros e run.
  destruct (stored_pages_are_full (list response) scripted
              (Some "visionamos") Example.landed ByPage "/v1/chat/contacts"
              "100274" 50 MAX_PAGES e) as (tr & Etr & Hstored).
  change (ex_trace (list response) e) with (@nil event) in Etr.
  cbn [app] in Etr.
  set (row := {| rr_tenant_id := Some "visionamos";
                 rr_application_id := Some "100274";
                 rr_endpoint := "/v1/chat/contacts"; rr_loaded_at := 1001;
                 rr_source_data := page_of (Example.items 50) |}).
  assert (stored tr !! 1%nat = Some row) as Hk
    by (rewrite <- Etr; vm_compute; reflexivity).
  assert (S 1 < length (stored tr))%nat as Hlen
    by (rewrite <- Etr; vm_compute; lia).
  destruct (Hstored 1%nat row Hk) as (Hpath & _ & _ & Hat & _ & _ & Hfull).
  destruct (Hfull Hlen) as (n & Hn & Hle).
  exists row, n. split_and!; [|exact Hpath|exact Hat|exact Hn|exact Hle].
  unfold run, contacts_loop. change (page_size_of 50) with 50.
  rewrite Etr. exact Hk.
Defined.

Lemma push_extractor_feeds_transforms_witness :
  let eps := push_endpoints 738000 738090 "2021-07-15" "2021-10-13"
               Scenario.isoformat "100274" in
  (∃ day, ep_params <$> eps !! 2%nat
          = Some [ ("dateFrom", PStr (Scenario.isoformat day));
                   ("dateTo", PStr "2021-10-13") ]
          ∧ 738083 ≤ day ∧ day ≤ 738090)
  ∧ like_contains "/dateStats" "/v1/application/100274/dateStats" = true
  ∧ like_contains "/pushHeatmap" "/v1/application/100274/pushHeatmap" = true.
Proof.
  intros eps.
  destruct (push_extractor_feeds_transforms (list response) Scenario.answers
              (Some "visionamos") Scenario.landed 738000 738090 "2021-07-15"
              "2021-10-13" Scenario.isoformat "100274"
              (Scenario.session_on Scenario.push_script))
    as (_ & (day & Hday & _ & Hlo & Hhi) & Hstats & Hheat).
  split_and!.
  - exists day. split_and!; [exact Hday|lia|apply Hhi; lia].
  - apply (Hstats _ (Returned (JObj [("data", JArr [])]))
             {| rr_tenant_id := Some "visionamos";
                rr_application_id := Some "100274";
                rr_endpoint := "/v1/application/100274/dateStats";
                rr_loaded_at := 1000;
                rr_source_data := JObj [("data", JArr [])] |} eq_refl).
    left.
  - apply (Hheat _ (Returned (JObj [("data", JArr [])]))
             {| rr_tenant_id := Some "visionamos";
                rr_application_id := Some "100274";
                rr_endpoint := "/v1/application/100274/pushHeatmap";
                rr_loaded_at := 1000;
                rr_source_data := JObj [("data", JArr [])] |} eq_refl).
    left.
Defined.

Lemma heatmap_cells_ordered_witness :
  let p := @Build_heatmap_flat Example.B "visionamos" "push" "monday" 9
             (binary64 (Qmake 17 5)) 1 in
  HEATMAP_SQL TENANT_ID Example.db_heat = Ok [p]
  ∧ hf_canal p = "push"
  ∧ hf_dia_orden p = CASE_weekday (hf_dia_semana p)
  ∧ 0 ≤ hf_dia_orden p ≤ 7
  ∧ (hf_dia_orden p = 0
     ↔ hf_dia_semana p ∉ ["monday"; "tuesday"; "wednesday"; "thursday";
                          "friday"; "saturday"; "sunday"])
  ∧ ∃ r, row_of heatmap_key (heatmap_key_flat p)
           (toques_heatmap (transform_heatmap Example.db_heat).1) = Some r
         ∧ hm_canal r = "push"
         ∧ hm_dia_orden r = CASE_weekday (hm_dia_semana r).
Proof.
  intros p.
  assert (HEATMAP_SQL TENANT_ID Example.db_heat = Ok [p]) as Hrows by vm_refl.
  split; [exact Hrows|].
  apply (heatmap_cells_ordered Example.db_heat [p] p Hrows). left.
Defined.
